(** * Vertical Pod Autoscaler: update priority, admission webhook,
      limit ranges and the recommender loop

    A shallow embedding of the Go sources
    - [pkg/updater/priority/update_priority_calculator.go],
    - [pkg/admission-controller/logic/server.go],
    - [pkg/utils/limitrange/limit_range_calculator.go],
    - [pkg/recommender/routines/recommender.go],
    followed by the properties proved about them.

    Definitions come first (one module per Go package), theorems after. *)

From Stdlib Require Import ZArith List Bool String Ascii Lia.
From Stdlib Require Import SpecFloat.
From Stdlib Require Import Sorted Permutation.
Import ListNotations.

Set Implicit Arguments.

(* ================================================================== *)
(** * Go: the parts of the language and of its library that the code uses *)
(* ================================================================== *)

Module Go.
Local Open Scope Z_scope.

(** ** Errors and panics *)

(** A Go result [(v, err)]: either a value with a nil error, or an error,
    kept as its message ([err.Error()]). *)
Inductive result (A : Type) : Type :=
| Ok (a : A)
| Err (msg : string).
Arguments Ok {A} a.
Arguments Err {A} msg.

(** A Go [error] value returned on its own: [None] is [nil]. *)
Definition error := option string.

(** A call either returns or panics (nil dereference, index out of range). *)
Inductive outcome (A : Type) : Type :=
| Returned (a : A)
| Panicked.
Arguments Returned {A} a.
Arguments Panicked {A}.

(** ** int64 *)

Definition minInt64 : Z := - 2 ^ 63.
Definition maxInt64 : Z := 2 ^ 63 - 1.

(** Two's complement wrap-around of int64 arithmetic. *)
Definition wrap64 (z : Z) : Z := (z + 2 ^ 63) mod 2 ^ 64 - 2 ^ 63.

Definition int64_add (a b : Z) : Z := wrap64 (a + b).

(** ** float64: IEEE 754 binary64, round to nearest even *)

Definition float64 := spec_float.
Definition prec64 : Z := 53.
Definition emax64 : Z := 1024.

(** The conversion [float64(x)] of an int64. *)
Definition float64_of_int64 (z : Z) : float64 :=
  binary_normalize prec64 emax64 z 0 false.

Definition f_zero : float64 := S754_zero false.
Definition f_one : float64 := Eval vm_compute in float64_of_int64 1.

Definition f_add : float64 -> float64 -> float64 := SFadd prec64 emax64.
Definition f_sub : float64 -> float64 -> float64 := SFsub prec64 emax64.
Definition f_div : float64 -> float64 -> float64 := SFdiv prec64 emax64.

(** [x < y], [x > y], [x >= y] and [x == y]; all false when an operand is NaN. *)
Definition f_lt (x y : float64) : bool := SFltb x y.
Definition f_gt (x y : float64) : bool := SFltb y x.
Definition f_ge (x y : float64) : bool := SFleb y x.
Definition f_eq (x y : float64) : bool := SFeqb x y.

Definition is_nan (f : float64) : bool :=
  match f with S754_nan => true | _ => false end.

Definition signbit (f : float64) : bool :=
  match f with
  | S754_nan => false
  | S754_zero s | S754_infinity s | S754_finite s _ _ => s
  end.

(** [math.Abs]. *)
Definition math_Abs (x : float64) : float64 := SFabs x.

(** [math.Max], with the special cases of the library:
    [Max(x, +Inf) = Max(+Inf, x) = +Inf], [Max(x, NaN) = Max(NaN, x) = NaN],
    [Max(+0, ±0) = Max(±0, +0) = +0], [Max(-0, -0) = -0]. *)
Definition math_Max (x y : float64) : float64 :=
  match x, y with
  | S754_infinity false, _ | _, S754_infinity false => S754_infinity false
  | S754_nan, _ | _, S754_nan => S754_nan
  | S754_zero sx, S754_zero _ => if sx then y else x
  | _, _ => if f_gt x y then x else y
  end.

(** The constant [0.10] as a float64: the double nearest to 1/10. *)
Definition f_tenth : float64 :=
  Eval vm_compute in f_div (float64_of_int64 1) (float64_of_int64 10).

(** ** package time *)

(** An instant, in nanoseconds on an unbounded axis. *)
Definition Time := Z.
(** A [time.Duration]: an int64 count of nanoseconds. *)
Definition Duration := Z.

Definition Nanosecond : Duration := 1.
Definition Second : Duration := 1000000000.
Definition Minute : Duration := 60 * Second.
Definition Hour : Duration := 60 * Minute.

Definition Time_Add (t : Time) (d : Duration) : Time := t + d.
Definition Time_Before (t u : Time) : bool := t <? u.

(** [t.Sub(u)]: the difference, saturated to the range of a Duration. *)
Definition Time_Sub (t u : Time) : Duration :=
  if t - u <? minInt64 then minInt64
  else if maxInt64 <? t - u then maxInt64
  else t - u.

(** ** package fmt and package strings *)

Local Open Scope string_scope.

Definition digit_char (d : nat) : ascii := ascii_of_nat (48 + d).

Fixpoint itoa_aux (fuel n : nat) (acc : string) : string :=
  match fuel with
  | O => acc
  | S fuel' =>
      let acc' := String (digit_char (n mod 10)) acc in
      if (n / 10 =? 0)%nat then acc' else itoa_aux fuel' (n / 10) acc'
  end.

(** [fmt.Sprintf("%d", n)] for a slice index [n]. *)
Definition itoa (n : nat) : string := itoa_aux (S n) n "".

(** [strings.Join]. *)
Definition strings_Join (elems : list string) (sep : string) : string :=
  String.concat sep elems.

(** ** package sort *)

(** One pass of the inner loop of the library's [insertionSort]:
    [for j := i; j > a && data.Less(j, j-1); j-- { data.Swap(j, j-1) }].
    The sorted prefix is held reversed, its last element first. *)
Fixpoint insertBack (A : Type) (less : A -> A -> bool) (x : A)
    (rev_prefix : list A) : list A :=
  match rev_prefix with
  | [] => [x]
  | y :: rest =>
      if less x y then y :: insertBack less x rest else x :: rev_prefix
  end.

(** [sort.Sort(data)], through the insertion sort the library runs on short
    slices. [less a b] is [data.Less(i, j)] for the elements at [i] and [j].
    On longer slices the library runs another algorithm, and it does not
    promise to be stable: its result is a sorted permutation of the data as
    well, in which elements that compare equal may come in another order
    than here. *)
Definition sort_Sort (A : Type) (less : A -> A -> bool) (data : list A) : list A :=
  rev (fold_left (fun rev_prefix x => insertBack less x rev_prefix) data []).

(** ** maps with string keys

    A Go map is held as an association list without repeated keys; the order
    of the list is the order in which [range] visits the map in the run at
    hand (Go leaves it unspecified). *)

Section StringMap.
Variable V : Type.

Fixpoint lookup (k : string) (m : list (string * V)) : option V :=
  match m with
  | [] => None
  | (k', v) :: m' => if String.eqb k k' then Some v else lookup k m'
  end.

(** [m[k] = v]: replaces the value of [k], or adds [k]. *)
Fixpoint store (k : string) (v : V) (m : list (string * V)) : list (string * V) :=
  match m with
  | [] => [(k, v)]
  | (k', v') :: m' =>
      if String.eqb k k' then (k, v) :: m' else (k', v') :: store k v m'
  end.

Definition keys (m : list (string * V)) : list string := map fst m.
End StringMap.

(** [m[k]] on a map of int64: zero for a missing key. *)
Definition lookup0 (k : string) (m : list (string * Z)) : Z :=
match lookup k m with Some v => v | None => 0%Z end.

(** [m[k] += v] on a map of int64. *)
Definition add_to (k : string) (v : Z) (m : list (string * Z)) : list (string * Z) :=
store k (int64_add (lookup0 k m) v) m.

End Go.

(* ================================================================== *)
(** * The API types the code works on *)
(* ================================================================== *)

Module K8s.
Import Go.
Local Open Scope string_scope.

(** [resource.Quantity] belongs to k8s.io/apimachinery; the code uses it
    through three methods only, taken here as an interface:
    [MilliValue] (the value in thousandths, an int64), [Cmp] (-1, 0 or 1)
    and [String]. *)
Class QuantityOps (Quantity : Type) : Type := {
  MilliValue : Quantity -> Z;
  Cmp : Quantity -> Quantity -> comparison;
  QString : Quantity -> string
}.

Definition ResourceName := string.
Definition ResourceCPU : ResourceName := "cpu".
Definition ResourceMemory : ResourceName := "memory".

Section Types.
Variable Quantity : Type.

(** [v1.ResourceList], a [map[ResourceName]Quantity]; [None] is the nil map. *)
Definition ResourceList := option (list (ResourceName * Quantity)).

(** [for name, q := range rl]. *)
Definition items (rl : ResourceList) : list (ResourceName * Quantity) :=
  match rl with Some m => m | None => [] end.

(** [q, found := rl[name]]. *)
Definition get (name : ResourceName) (rl : ResourceList) : option Quantity :=
  lookup name (items rl).

Definition is_nil (rl : ResourceList) : bool :=
  match rl with None => true | Some _ => false end.

(** ** core/v1 *)

Record ResourceRequirements := {
  Limits : ResourceList;
  Requests : ResourceList
}.

Record Container := {
  Container_Name : string;
  Resources : ResourceRequirements
}.

Record ContainerStateTerminated := {
  Reason : string;
  StartedAt : Time;
  FinishedAt : Time
}.

(** [LastTerminationState.Terminated] is a pointer. *)
Record ContainerStatus := {
  LastTerminationState_Terminated : option ContainerStateTerminated
}.

Record Pod := {
  Pod_Name : string;
  GenerateName : string;
  Pod_Namespace : string;
  Annotations : option (list (string * string));
  Containers : list Container;               (* Spec.Containers *)
  ContainerStatuses : list ContainerStatus;  (* Status.ContainerStatuses *)
  StartTime : option Time                    (* Status.StartTime *)
}.

Definition LimitType := string.
Definition LimitTypePod : LimitType := "Pod".
Definition LimitTypeContainer : LimitType := "Container".

Record LimitRangeItem := {
  Type_ : LimitType;
  Max : ResourceList;
  Min : ResourceList;
  Default : ResourceList;
  DefaultRequest : ResourceList;
  MaxLimitRequestRatio : ResourceList
}.

(** A [v1.LimitRange], by its [Spec.Limits]. *)
Record LimitRange := {
  LimitRange_Name : string;
  Spec_Limits : list LimitRangeItem
}.

(** ** autoscaling.k8s.io/v1 *)

Record RecommendedContainerResources := {
  ContainerName : string;
  Target : ResourceList;
  LowerBound : ResourceList;
  UpperBound : ResourceList;
  UncappedTarget : ResourceList
}.

Record RecommendedPodResources := {
  ContainerRecommendations : list RecommendedContainerResources
}.

(** [UpdateMode] and [ContainerScalingMode] are string types. *)
Definition UpdateMode := string.
Definition UpdateModeOff : UpdateMode := "Off".
Definition UpdateModeInitial : UpdateMode := "Initial".
Definition UpdateModeRecreate : UpdateMode := "Recreate".
Definition UpdateModeAuto : UpdateMode := "Auto".

Definition ContainerScalingMode := string.
Definition ContainerScalingModeAuto : ContainerScalingMode := "Auto".
Definition ContainerScalingModeOff : ContainerScalingMode := "Off".

Record PodUpdatePolicy := {
  UpdateMode_ : option UpdateMode
}.

Record ContainerResourcePolicy := {
  Policy_ContainerName : string;
  Mode : option ContainerScalingMode;
  MinAllowed : ResourceList;
  MaxAllowed : ResourceList
}.

Record PodResourcePolicy := {
  ContainerPolicies : list ContainerResourcePolicy
}.

Record CrossVersionObjectReference := {
  Kind : string;
  Ref_Name : string;
  APIVersion : string
}.

Record VerticalPodAutoscalerCondition := {
  Condition_Type : string;
  Condition_Status : string
}.

Record VerticalPodAutoscalerStatus := {
  Recommendation : option RecommendedPodResources;
  Conditions : list VerticalPodAutoscalerCondition
}.

Record VerticalPodAutoscalerSpec := {
  TargetRef : option CrossVersionObjectReference;
  UpdatePolicy : option PodUpdatePolicy;
  ResourcePolicy : option PodResourcePolicy
}.

Record VerticalPodAutoscaler := {
  Vpa_Namespace : string;
  Vpa_Name : string;
  Spec : VerticalPodAutoscalerSpec;
  Status : VerticalPodAutoscalerStatus
}.

(** ** pkg/utils/vpa: the types of the helpers the code calls *)

Record ContainerResources := {
  CR_Limits : ResourceList;
  CR_Requests : ResourceList
}.

(** [ContainerToAnnotationsMap], a [map[string][]string]. *)
Definition ContainerToAnnotationsMap := list (string * list string).

(** [RecommendationProcessor.Apply(recommendation, policy, conditions, pod)]:
    the processed recommendation with its annotations, or an error. *)
Definition RecommendationProcessor : Type :=
  option RecommendedPodResources -> option PodResourcePolicy ->
  list VerticalPodAutoscalerCondition -> Pod ->
  result (option RecommendedPodResources * ContainerToAnnotationsMap).

End Types.

End K8s.

(* ================================================================== *)
(** * pkg/updater/priority/update_priority_calculator.go *)
(* ================================================================== *)

Module Priority.
Import Go K8s.
Local Open Scope Z_scope.

(** Ignore change priority that is smaller than 10%. *)
Definition defaultUpdateThreshold : float64 := f_tenth.

(** Pods that live for at least that long can be evicted even if their
    request is within the [MinRecommended...MaxRecommended] range. *)
Definition podLifetimeUpdateThreshold : Duration := Hour * 12.

(** The default of the flag [evict-after-oom-threshold]. *)
Definition evictAfterOOMThreshold_default : Duration := 10 * Minute.

Section Calculator.
Variable Quantity : Type.
Context `{QuantityOps Quantity}.

(** The value of the flag [evict-after-oom-threshold]. *)
Variable evictAfterOOMThreshold : Duration.

(** [vpa_api_util.GetRecommendationForContainer] (pkg/utils/vpa): the
    recommendation of a container in a pod recommendation, nil if none. *)
Variable GetRecommendationForContainer :
  string -> option (RecommendedPodResources Quantity) ->
  option (RecommendedContainerResources Quantity).

Record podPriority := {
  pod : Pod Quantity;
  (* Is any container outside of the recommended range. *)
  outsideRecommendedRange : bool;
  (* Does any container want to grow. *)
  scaleUp : bool;
  (* Relative difference between the total requested and total
     recommended resources. *)
  resourceDiff : float64;
  (* Recommendation for pod *)
  recommendation : option (RecommendedPodResources Quantity)
}.

(** UpdateConfig holds configuration for UpdatePriorityCalculator *)
Record UpdateConfig := {
  MinChangePriority : float64
}.

Record UpdatePriorityCalculator := {
  resourcesPolicy : option (PodResourcePolicy Quantity);
  conditions : list VerticalPodAutoscalerCondition;
  pods : list podPriority;
  config : UpdateConfig;
  recommendationProcessor : RecommendationProcessor Quantity
}.

(** [PodEvictionAdmission.Admit]; [None] is the nil interface. *)
Definition PodEvictionAdmission : Type :=
  option (Pod Quantity -> option (RecommendedPodResources Quantity) -> bool).

Definition NewUpdatePriorityCalculator
    (policy : option (PodResourcePolicy Quantity))
    (conditions : list VerticalPodAutoscalerCondition)
    (config : option UpdateConfig)
    (processor : RecommendationProcessor Quantity) : UpdatePriorityCalculator :=
  let config :=
    match config with
    | None => {| MinChangePriority := defaultUpdateThreshold |}
    | Some c => c
    end in
  {| resourcesPolicy := policy; conditions := conditions; pods := [];
     config := config; recommendationProcessor := processor |}.

(** The variables the two nested loops of [getUpdatePriority] update. *)
Record loopState := {
  st_outsideRecommendedRange : bool;
  st_scaleUp : bool;
  (* Sum of requests over all containers, per resource type. *)
  totalRequestPerResource : list (ResourceName * Z);
  (* Sum of recommendations over all containers, per resource type. *)
  totalRecommendedPerResource : list (ResourceName * Z)
}.

Definition initialState : loopState :=
  {| st_outsideRecommendedRange := false; st_scaleUp := false;
     totalRequestPerResource := []; totalRecommendedPerResource := [] |}.

(** The body of [for resourceName, recommended := range recommendedRequest.Target]. *)
Definition resourceStep (podContainer : Container Quantity)
    (recommendedRequest : RecommendedContainerResources Quantity)
    (st : loopState) (entry : ResourceName * Quantity) : loopState :=
  let '(resourceName, recommended) := entry in
  let totalRecommended :=
    add_to resourceName (MilliValue recommended) (totalRecommendedPerResource st) in
  let lowerBound := get resourceName (LowerBound recommendedRequest) in
  let upperBound := get resourceName (UpperBound recommendedRequest) in
  match get resourceName (Requests (Resources podContainer)) with
  | Some request =>
      let below :=
        match lowerBound with
        | Some lowerBound => match Cmp request lowerBound with Lt => true | _ => false end
        | None => false
        end in
      let above :=
        match upperBound with
        | Some upperBound => match Cmp request upperBound with Gt => true | _ => false end
        | None => false
        end in
      {| st_outsideRecommendedRange :=
           if below || above then true else st_outsideRecommendedRange st;
         st_scaleUp :=
           if MilliValue recommended >? MilliValue request then true else st_scaleUp st;
         totalRequestPerResource :=
           add_to resourceName (MilliValue request) (totalRequestPerResource st);
         totalRecommendedPerResource := totalRecommended |}
  | None =>
      (* the request is not specified: such containers are treated as if
         they had 0 request *)
      {| st_outsideRecommendedRange := true;
         st_scaleUp := true;
         totalRequestPerResource := totalRequestPerResource st;
         totalRecommendedPerResource := totalRecommended |}
  end.

(** The body of [for _, podContainer := range pod.Spec.Containers]. *)
Definition containerStep (rec : option (RecommendedPodResources Quantity))
    (st : loopState) (podContainer : Container Quantity) : loopState :=
  match GetRecommendationForContainer (Container_Name podContainer) rec with
  | None => st
  | Some recommendedRequest =>
      fold_left (resourceStep podContainer recommendedRequest)
                (items (Target recommendedRequest)) st
  end.

(** The body of [for resource, totalRecommended := range totalRecommendedPerResource]. *)
Definition diffStep (totalRequestPerResource : list (ResourceName * Z))
    (resourceDiff : float64) (entry : ResourceName * Z) : float64 :=
  let '(resource, totalRecommended) := entry in
  let totalRequest :=
    math_Max (float64_of_int64 (lookup0 resource totalRequestPerResource)) f_one in
  f_add resourceDiff
        (f_div (math_Abs (f_sub totalRequest (float64_of_int64 totalRecommended)))
               totalRequest).

Definition getUpdatePriority (p : Pod Quantity)
    (rec : option (RecommendedPodResources Quantity)) : podPriority :=
  let st := fold_left (containerStep rec) (Containers p) initialState in
  let resourceDiff :=
    fold_left (diffStep (totalRequestPerResource st))
              (totalRecommendedPerResource st) f_zero in
  {| pod := p;
     outsideRecommendedRange := st_outsideRecommendedRange st;
     scaleUp := st_scaleUp st;
     resourceDiff := resourceDiff;
     recommendation := rec |}.

(** [getUpdatePriority] with the order of its last loop made explicit. The
    loop ranges over the map [totalRecommendedPerResource], and Go leaves
    the order in which [range] visits a map unspecified: [visited] lists the
    entries of the map in the order in which one run visits them (any
    permutation of them). [getUpdatePriority] above is the run that visits
    them in the order of their first insertion. *)
Definition getUpdatePriorityIn (visited : list (ResourceName * Z)) (p : Pod Quantity)
    (rec : option (RecommendedPodResources Quantity)) : podPriority :=
  let st := fold_left (containerStep rec) (Containers p) initialState in
  let resourceDiff :=
    fold_left (diffStep (totalRequestPerResource st)) visited f_zero in
  {| pod := p;
     outsideRecommendedRange := st_outsideRecommendedRange st;
     scaleUp := st_scaleUp st;
     resourceDiff := resourceDiff;
     recommendation := rec |}.

(** The quick-OOM test of [AddPod]. *)
Definition quickOOM (p : Pod Quantity) : bool :=
  match ContainerStatuses p with
  | [status] =>
      match LastTerminationState_Terminated status with
      | Some terminated =>
          String.eqb (Reason terminated) "OOMKilled" &&
          (Time_Sub (FinishedAt terminated) (StartedAt terminated)
             <? evictAfterOOMThreshold)
      | None => false
      end
  | _ => false
  end.

(** AddPod adds pod to the UpdatePriorityCalculator. *)
Definition AddPod (calc : UpdatePriorityCalculator) (p : Pod Quantity)
    (rec : option (RecommendedPodResources Quantity)) (now : Time)
    : UpdatePriorityCalculator :=
  match recommendationProcessor calc rec (resourcesPolicy calc) (conditions calc) p with
  | Err _ => calc
  | Ok (processedRecommendation, _) =>
      let updatePriority := getUpdatePriority p processedRecommendation in
      let accepted :=
        {| resourcesPolicy := resourcesPolicy calc;
           conditions := conditions calc;
           pods := pods calc ++ [updatePriority];
           config := config calc;
           recommendationProcessor := recommendationProcessor calc |} in
      if negb (outsideRecommendedRange updatePriority) && negb (quickOOM p) then
        match StartTime p with
        | None => calc
        | Some startTime =>
            if Time_Before now (Time_Add startTime podLifetimeUpdateThreshold)
            then calc
            else if f_lt (resourceDiff updatePriority)
                         (MinChangePriority (config calc))
            then calc
            else accepted
        end
      else accepted
  end.

(** Less implements reverse ordering by priority (highest priority first);
    [less a b] is [Less(i, j)] with [a = list[i]] and [b = list[j]]. *)
Definition less (a b : podPriority) : bool :=
  (* 1. If any container wants to grow, the pod takes precedence. *)
  if negb (Bool.eqb (scaleUp a) (scaleUp b)) then scaleUp a
  (* 2. A pod with larger value of resourceDiff takes precedence. *)
  else f_gt (resourceDiff a) (resourceDiff b).

(** [byPriority.Less]; an index out of range panics. *)
Definition byPriority_Less (list : list podPriority) (i j : nat) : outcome bool :=
  match nth_error list i, nth_error list j with
  | Some a, Some b => Returned (less a b)
  | _, _ => Panicked
  end.

(** GetSortedPods returns a list of pods ordered by update priority
    (highest update priority first). The sort is in place: the calculator
    comes back with its pods sorted. *)
Definition GetSortedPods (calc : UpdatePriorityCalculator)
    (admission : PodEvictionAdmission)
    : list (Pod Quantity) * UpdatePriorityCalculator :=
  let sorted := sort_Sort less (pods calc) in
  let admitted (podPrio : podPriority) : bool :=
    match admission with
    | None => true
    | Some admission_Admit => admission_Admit (pod podPrio) (recommendation podPrio)
    end in
  (map pod (filter admitted sorted),
   {| resourcesPolicy := resourcesPolicy calc;
      conditions := conditions calc;
      pods := sorted;
      config := config calc;
      recommendationProcessor := recommendationProcessor calc |}).

(** The calculator after a sequence of [AddPod] calls. *)
Definition AddPods (calc : UpdatePriorityCalculator)
    (calls : list (Pod Quantity * option (RecommendedPodResources Quantity) * Time))
    : UpdatePriorityCalculator :=
  fold_left (fun c call => let '(p, rec, now) := call in AddPod c p rec now)
            calls calc.

End Calculator.

End Priority.

(* ================================================================== *)
(** * The update priority calculator: what the specification says *)
(* ================================================================== *)

Module PrioritySpec.
Import Go K8s Priority.
Local Open Scope Z_scope.

Section Statements.
Variable Quantity : Type.
Context `{QuantityOps Quantity}.
Variable evictAfterOOMThreshold : Duration.
Variable GetRecommendationForContainer :
  string -> option (RecommendedPodResources Quantity) ->
  option (RecommendedContainerResources Quantity).

(** ** Priority ordering *)

(** Every scale-up pod precedes every scale-down pod, and among pods of the
    same kind the resource difference does not increase. *)
Definition priorityOrdered (prios : list (podPriority Quantity)) : Prop :=
  forall i j a b, (i < j)%nat ->
    nth_error prios i = Some a -> nth_error prios j = Some b ->
    (scaleUp b = true -> scaleUp a = true) /\
    (scaleUp a = scaleUp b -> f_ge (resourceDiff a) (resourceDiff b) = true).

(** ** Eligibility for eviction *)

(** The pod has exactly one container status, whose last termination was an
    OOM kill after a lifetime below the threshold. *)
Definition quickOOMKilled (p : Pod Quantity) : Prop :=
  exists status terminated,
    ContainerStatuses p = [status] /\
    LastTerminationState_Terminated status = Some terminated /\
    Reason terminated = "OOMKilled"%string /\
    FinishedAt terminated - StartedAt terminated < evictAfterOOMThreshold.

(** The pod has a recorded start time at least the lifetime threshold
    before [now]. *)
Definition longLived (p : Pod Quantity) (now : Time) : Prop :=
  exists startTime,
    StartTime p = Some startTime /\ startTime + podLifetimeUpdateThreshold <= now.

Definition eligible (minChangePriority : float64) (p : Pod Quantity) (now : Time)
    (prio : podPriority Quantity) : Prop :=
  outsideRecommendedRange prio = true \/
  quickOOMKilled p \/
  (longLived p now /\ f_ge (resourceDiff prio) minChangePriority = true).

(** ** The resource difference *)

(** The containers that have a recommendation, each with it, in pod order. *)
Definition recommendedContainers (p : Pod Quantity)
    (rec : option (RecommendedPodResources Quantity))
    : list (Container Quantity * RecommendedContainerResources Quantity) :=
  flat_map (fun c =>
              match GetRecommendationForContainer (Container_Name c) rec with
              | Some rr => [(c, rr)]
              | None => []
              end)
           (Containers p).

(** One recommended target: the container, its recommendation, the resource
    and the target. *)
Definition target : Type :=
  (Container Quantity * RecommendedContainerResources Quantity) *
  (ResourceName * Quantity).

(** All the recommended targets of a pod, container by container. *)
Definition targets (p : Pod Quantity)
    (rec : option (RecommendedPodResources Quantity)) : list target :=
  flat_map (fun crr => map (fun entry => (crr, entry)) (items (Target (snd crr))))
           (recommendedContainers p rec).

Definition targetResource (t : target) : ResourceName := fst (snd t).

(** The recommended value of a target, in thousandths. *)
Definition recommendedMilli (t : target) : Z := MilliValue (snd (snd t)).

(** The request of the target's container for the target's resource, in
    thousandths; a missing request counts as 0. *)
Definition requestMilli (t : target) : Z :=
  match get (targetResource t) (Requests (Resources (fst (fst t)))) with
  | Some request => MilliValue request
  | None => 0
  end.

Definition sumZ (l : list Z) : Z := fold_right Z.add 0 l.

(** The part of a list of targets that is about one resource. *)
Definition about (r : ResourceName) (ts : list target) : list target :=
  filter (fun t => String.eqb (targetResource t) r) ts.

(** The int64 totals per resource, wrapping on overflow. The total
    recommendation of [r] adds the recommended targets of [r] of all the
    containers that have a recommendation. The total request of [r] adds the
    requests of [r] of the containers that have a recommended target of [r],
    and of those only: a container without a recommendation, or whose
    recommendation has no target of [r], does not count, whatever it
    requests. *)
Definition totalRecommended (p : Pod Quantity)
    (rec : option (RecommendedPodResources Quantity)) (r : ResourceName) : Z :=
  wrap64 (sumZ (map recommendedMilli (about r (targets p rec)))).

Definition totalRequest (p : Pod Quantity)
    (rec : option (RecommendedPodResources Quantity)) (r : ResourceName) : Z :=
  wrap64 (sumZ (map requestMilli (about r (targets p rec)))).

(** The names in a list, each once, in the order of their first occurrence. *)
Definition firstOccurrences (names : list string) : list string :=
  fold_left (fun seen r => if existsb (String.eqb r) seen then seen else seen ++ [r])
            names [].

(** The resources that have a recommended target in some container. *)
Definition recommendedResources (p : Pod Quantity)
    (rec : option (RecommendedPodResources Quantity)) : list ResourceName :=
  firstOccurrences (map targetResource (targets p rec)).

(** [|max(request, 1) - recommended| / max(request, 1)] in float64. *)
Definition relativeDiff (request recommended : Z) : float64 :=
  let request := math_Max (float64_of_int64 request) f_one in
  f_div (math_Abs (f_sub request (float64_of_int64 recommended))) request.

(** The float64 sum, over [resources] in the order of the list and from +0,
    of the relative difference between the total request and the total
    recommendation of each. *)
Definition sumOverResources (p : Pod Quantity)
    (rec : option (RecommendedPodResources Quantity)) (resources : list ResourceName)
    : float64 :=
  fold_left (fun sum r =>
               f_add sum (relativeDiff (totalRequest p rec r) (totalRecommended p rec r)))
            resources f_zero.

(** The resource difference in the words of the specification: the sum,
    across all containers and resources, of
    [|request - recommended| / max(request, 1)], a missing request being 0. *)
Definition specResourceDiff (p : Pod Quantity)
    (rec : option (RecommendedPodResources Quantity)) : float64 :=
  fold_left (fun sum t =>
               let request := float64_of_int64 (requestMilli t) in
               let recommended := float64_of_int64 (recommendedMilli t) in
               f_add sum (f_div (math_Abs (f_sub request recommended))
                                (math_Max request f_one)))
            (targets p rec) f_zero.

End Statements.

End PrioritySpec.

(* ================================================================== *)
(** * pkg/admission-controller/logic/server.go *)
(* ================================================================== *)

Module Admission.
Import Go K8s.
Local Open Scope string_scope.
Local Open Scope list_scope.

(** The status and the resource that the server reports to its metrics
    ([metrics_admission]). *)
Inductive AdmissionStatus := Error | Skipped | Applied.
Inductive AdmissionResource := Unknown | PodResource | VpaResource.

Record GroupVersionResource := {
  Group : string;
  Version : string;
  Resource : string
}.

Record GroupResource := {
  GR_Group : string;
  GR_Resource : string
}.

(** [metav1.Status], by the two fields the server sets. *)
Record Status := {
  Status_Status : string;
  Message : string
}.

(** [v1beta1.AdmissionResponse]; [Patch] holds the marshalled patches. *)
Record AdmissionResponse := {
  Allowed : bool;
  Result : option Status;
  Patch : option string;
  PatchType : option string
}.

Definition PatchTypeJSONPatch : string := "JSONPatch".
Definition Create : string := "CREATE".

Definition GroupVersionResource_eqb (a b : GroupVersionResource) : bool :=
  String.eqb (Group a) (Group b) && String.eqb (Version a) (Version b) &&
  String.eqb (Resource a) (Resource b).

Definition GroupResource_eqb (a b : GroupResource) : bool :=
  String.eqb (GR_Group a) (GR_Group b) && String.eqb (GR_Resource a) (GR_Resource b).

Section Server.
Variable Quantity : Type.
Context `{QuantityOps Quantity}.

(** A byte string that the server only passes to [json.Unmarshal] is held
    as what decoding gives: the object of a request as a pod and as an
    autoscaler config, each a value or the decoding error. *)
Record RawExtension := {
  asPod : result (Pod Quantity);
  asVPA : result (VerticalPodAutoscaler Quantity)
}.

Record AdmissionRequest := {
  Request_Resource : GroupVersionResource;
  Request_Namespace : string;
  Operation : string;
  Object : RawExtension
}.

(** [v1beta1.AdmissionReview]; [Request] is a pointer. *)
Record AdmissionReview := {
  Request : option AdmissionRequest
}.

(** The values a patch carries. *)
Inductive PatchValue :=
| AnnotationsValue (annotations : list (string * string))
| StringValue (s : string)
| ResourceRequirementsValue (r : ResourceRequirements Quantity)
| ResourceListValue (l : ResourceList Quantity)
| PodUpdatePolicyValue (p : PodUpdatePolicy).

Record patchRecord := {
  Op : string;
  Path : string;
  Value : PatchValue
}.

(** [json.Marshal] of a list of patches. *)
Variable json_Marshal : list patchRecord -> result string.

(** [json.Marshal] of the review that carries a response. *)
Variable json_Marshal_review : AdmissionResponse -> result string.

(** AdmissionServer is an admission webhook server that modifies pod
    resources request based on VPA recommendation. Its fields are
    interfaces, each held by the method the server calls:
    [GetContainersResourcesForPod] (the resources per container, the
    annotations per container and the name of the VPA), [Process] of the pod
    and of the VPA pre-processor. The limits checker is not used here. *)
Record AdmissionServer := {
  recommendationProvider :
    Pod Quantity ->
    result (list (ContainerResources Quantity) * option ContainerToAnnotationsMap * string);
  podPreProcessor : Pod Quantity -> result (Pod Quantity);
  vpaPreProcessor :
    VerticalPodAutoscaler Quantity -> bool -> result (VerticalPodAutoscaler Quantity)
}.

Definition getPatchInitializingEmptyResources (i : nat) : patchRecord :=
  {| Op := "add";
     Path := ("/spec/containers/" ++ itoa i ++ "/resources")%string;
     Value := ResourceRequirementsValue {| Limits := None; Requests := None |} |}.

Definition getPatchInitializingEmptyResourcesSubfield (i : nat) (kind : string)
    : patchRecord :=
  {| Op := "add";
     Path := ("/spec/containers/" ++ itoa i ++ "/resources/" ++ kind)%string;
     Value := ResourceListValue (Some []) |}.

Definition getAddResourceRequirementValuePatch (i : nat) (kind : string)
    (resource : ResourceName) (quantity : Quantity) : patchRecord :=
  {| Op := "add";
     Path := ("/spec/containers/" ++ itoa i ++ "/resources/" ++ kind ++ "/" ++ resource)%string;
     Value := StringValue (QString quantity) |}.

Definition appendPatchesAndAnnotations (patches : list patchRecord)
    (annotations : list string) (current : ResourceList Quantity)
    (containerIndex : nat) (resources : ResourceList Quantity)
    (fieldName resourceName : string) : list patchRecord * list string :=
  (* Add empty object if it's missing and we're about to fill it. *)
  let patches :=
    if is_nil current && (0 <? List.length (items resources))%nat
    then patches ++ [getPatchInitializingEmptyResourcesSubfield containerIndex fieldName]
    else patches in
  fold_left
    (fun (acc : list patchRecord * list string) (entry : ResourceName * Quantity) =>
       let '(resource, request) := entry in
       (fst acc ++ [getAddResourceRequirementValuePatch containerIndex fieldName
                      resource request],
        snd acc ++ [(resource ++ " " ++ resourceName)%string]))
    (items resources) (patches, annotations).

(** [getContainerPatch]; [None] when [pod.Spec.Containers[i]] is out of range
    (a panic). *)
Definition getContainerPatch (pod : Pod Quantity) (i : nat)
    (annotationsPerContainer : ContainerToAnnotationsMap)
    (containerResources : ContainerResources Quantity)
    : option (list patchRecord * string) :=
  match nth_error (Containers pod) i with
  | None => None
  | Some container =>
      (* Add empty resources object if missing *)
      let patches :=
        if is_nil (Limits (Resources container)) &&
           is_nil (Requests (Resources container))
        then [getPatchInitializingEmptyResources i]
        else [] in
      let annotations :=
        match lookup (Container_Name container) annotationsPerContainer with
        | Some annotations => annotations
        | None => []
        end in
      let '(patches, annotations) :=
        appendPatchesAndAnnotations patches annotations
          (Requests (Resources container)) i (CR_Requests containerResources)
          "requests" "request" in
      let '(patches, annotations) :=
        appendPatchesAndAnnotations patches annotations
          (Limits (Resources container)) i (CR_Limits containerResources)
          "limits" "limit" in
      let updatesAnnotation :=
        ("container " ++ itoa i ++ ": " ++ strings_Join annotations ", ")%string in
      Some (patches, updatesAnnotation)
  end.

(** The loop [for i, containerResources := range containersResources] of
    [getPatchesForPodResourceRequest], from index [i] on. *)
Fixpoint containerPatchesFrom (pod : Pod Quantity)
    (annotationsPerContainer : ContainerToAnnotationsMap) (i : nat)
    (containersResources : list (ContainerResources Quantity))
    (patches : list patchRecord) (updatesAnnotation : list string)
    : option (list patchRecord * list string) :=
  match containersResources with
  | [] => Some (patches, updatesAnnotation)
  | containerResources :: rest =>
      match getContainerPatch pod i annotationsPerContainer containerResources with
      | None => None
      | Some (newPatches, newUpdatesAnnotation) =>
          containerPatchesFrom pod annotationsPerContainer (S i) rest
            (patches ++ newPatches) (updatesAnnotation ++ [newUpdatesAnnotation])
      end
  end.

Definition withGeneratedName (pod : Pod Quantity) (namespace : string) : Pod Quantity :=
  if (String.length (Pod_Name pod) =? 0)%nat then
    {| Pod_Name := (GenerateName pod ++ "%")%string;
       GenerateName := GenerateName pod;
       Pod_Namespace := namespace;
       Annotations := Annotations pod;
       Containers := Containers pod;
       ContainerStatuses := ContainerStatuses pod;
       StartTime := StartTime pod |}
  else pod.

Definition getPatchesForPodResourceRequest (s : AdmissionServer)
    (raw : RawExtension) (namespace : string)
    : outcome (result (list patchRecord)) :=
  match asPod raw with
  | Err err => Returned (Err err)
  | Ok pod =>
      let pod := withGeneratedName pod namespace in
      match recommendationProvider s pod with
      | Err err => Returned (Err err)
      | Ok (containersResources, annotationsPerContainer, vpaName) =>
          match podPreProcessor s pod with
          | Err err => Returned (Err err)
          | Ok pod =>
              let annotationsPerContainer :=
                match annotationsPerContainer with
                | None => []
                | Some annotations => annotations
                end in
              match containerPatchesFrom pod annotationsPerContainer 0
                      containersResources [] [] with
              | None => Panicked
              | Some (patches, updatesAnnotation) =>
                  if (0 <? List.length updatesAnnotation)%nat then
                    let vpaAnnotationValue :=
                      ("Pod resources updated by " ++ vpaName ++ ": " ++
                       strings_Join updatesAnnotation "; ")%string in
                    match Annotations pod with
                    | None =>
                        Returned (Ok (patches ++
                          [{| Op := "add";
                              Path := "/metadata/annotations";
                              Value := AnnotationsValue
                                         [("vpaUpdates", vpaAnnotationValue)] |}]))
                    | Some _ =>
                        Returned (Ok (patches ++
                          [{| Op := "add";
                              Path := "/metadata/annotations/vpaUpdates";
                              Value := StringValue vpaAnnotationValue |}]))
                    end
                  else Returned (Ok patches)
              end
          end
      end
  end.

Definition parseVPA (raw : RawExtension) : result (VerticalPodAutoscaler Quantity) :=
  asVPA raw.

Definition possibleUpdateModes : list UpdateMode :=
  [UpdateModeOff; UpdateModeInitial; UpdateModeRecreate; UpdateModeAuto].

Definition possibleScalingModes : list ContainerScalingMode :=
  [ContainerScalingModeAuto; ContainerScalingModeOff].

Definition found (mode : string) (modes : list string) : bool :=
  existsb (String.eqb mode) modes.

(** The loop [for resource, min := range policy.MinAllowed] of [validateVPA]. *)
Fixpoint validateMinMax (maxAllowed : ResourceList Quantity)
    (minAllowed : list (ResourceName * Quantity)) : error :=
  match minAllowed with
  | [] => None
  | (resource, min) :: rest =>
      match get resource maxAllowed with
      | Some max =>
          match Cmp max min with
          | Lt => Some ("max resource for " ++ resource ++ " is lower than min")%string
          | _ => validateMinMax maxAllowed rest
          end
      | None => validateMinMax maxAllowed rest
      end
  end.

(** The loop [for _, policy := range vpa.Spec.ResourcePolicy.ContainerPolicies]. *)
Fixpoint validateContainerPolicies (policies : list (ContainerResourcePolicy Quantity))
    : error :=
  match policies with
  | [] => None
  | policy :: rest =>
      if String.eqb (Policy_ContainerName policy) "" then
        Some "ContainerPolicies.ContainerName is required"
      else
        match
          match Mode policy with
          | Some mode =>
              if found mode possibleScalingModes then None
              else Some ("unexpected Mode value " ++ mode)%string
          | None => None
          end
        with
        | Some err => Some err
        | None =>
            match validateMinMax (MaxAllowed policy) (items (MinAllowed policy)) with
            | Some err => Some err
            | None => validateContainerPolicies rest
            end
        end
  end.

Definition validateVPA (vpa : VerticalPodAutoscaler Quantity) (isCreate : bool) : error :=
  match
    match UpdatePolicy (Spec vpa) with
    | Some updatePolicy =>
        match UpdateMode_ updatePolicy with
        | None => Some "UpdateMode is required if UpdatePolicy is used"
        | Some mode =>
            if found mode possibleUpdateModes then None
            else Some ("unexpected UpdateMode value " ++ mode)%string
        end
    | None => None
    end
  with
  | Some err => Some err
  | None =>
      match
        match ResourcePolicy (Spec vpa) with
        | Some resourcePolicy =>
            validateContainerPolicies (ContainerPolicies resourcePolicy)
        | None => None
        end
      with
      | Some err => Some err
      | None =>
          match TargetRef (Spec vpa) with
          | None =>
              if isCreate then
                Some ("TargetRef is required. If you're using v1beta1 version " ++
                      "of the API, please migrate to v1.")%string
              else None
          | Some _ => None
          end
      end
  end.

Definition getPatchesForVPADefaults (s : AdmissionServer) (raw : RawExtension)
    (isCreate : bool) : result (list patchRecord) :=
  match parseVPA raw with
  | Err err => Err err
  | Ok vpa =>
      match vpaPreProcessor s vpa isCreate with
      | Err err => Err err
      | Ok vpa =>
          match validateVPA vpa isCreate with
          | Some err => Err err
          | None =>
              match UpdatePolicy (Spec vpa) with
              | None =>
                  (* Sets the default updatePolicy. *)
                  Ok [{| Op := "add";
                         Path := "/spec/updatePolicy";
                         Value := PodUpdatePolicyValue
                                    {| UpdateMode_ := Some UpdateModeAuto |} |}]
              | Some _ => Ok []
              end
          end
      end
  end.

Definition podResource : GroupVersionResource :=
  {| Group := ""; Version := "v1"; Resource := "pods" |}.

Definition vpaGroupResource : GroupResource :=
  {| GR_Group := "autoscaling.k8s.io"; GR_Resource := "verticalpodautoscalers" |}.

(** What a call of the method [admit] gives back: the response, the status
    and the resource for the metrics, and the argument of the call of
    [metrics_admission.OnAdmittedPod] if it made one. *)
Record admitted := {
  response : AdmissionResponse;
  status : AdmissionStatus;
  resource : AdmissionResource;
  onAdmittedPod : option bool
}.

Definition allowedResponse : AdmissionResponse :=
  {| Allowed := true; Result := None; Patch := None; PatchType := None |}.

(** The method [admit] of the server. [data] is the body of the request as
    decoded; a review without a request is a nil dereference. *)
Definition admit_ (s : AdmissionServer) (data : result AdmissionReview)
    : outcome admitted :=
  (* we don't block the admission by default, even on unparsable JSON *)
  match data with
  | Err _ =>
      Returned {| response := allowedResponse; status := Error;
                  resource := Unknown; onAdmittedPod := None |}
  | Ok ar =>
      match Request ar with
      | None => Panicked
      | Some request =>
          let admittedGroupResource :=
            {| GR_Group := Group (Request_Resource request);
               GR_Resource := Resource (Request_Resource request) |} in
          let branch : outcome (result (list patchRecord) * AdmissionResource *
                                AdmissionResponse) :=
            if GroupVersionResource_eqb (Request_Resource request) podResource then
              match getPatchesForPodResourceRequest s (Object request)
                      (Request_Namespace request) with
              | Panicked => Panicked
              | Returned patches => Returned (patches, PodResource, allowedResponse)
              end
            else if GroupResource_eqb admittedGroupResource vpaGroupResource then
              let patches :=
                getPatchesForVPADefaults s (Object request)
                  (String.eqb (Operation request) Create) in
              (* we don't let in problematic VPA objects - late validation *)
              match patches with
              | Err err =>
                  Returned (patches, VpaResource,
                            {| Allowed := false;
                               Result := Some {| Status_Status := "Failure";
                                                 Message := err |};
                               Patch := None; PatchType := None |})
              | Ok _ => Returned (patches, VpaResource, allowedResponse)
              end
            else
              Returned (Err ("expected the resource to be one of: { v1 pods}, " ++
                             "{autoscaling.k8s.io verticalpodautoscalers}")%string,
                        Unknown, allowedResponse) in
          match branch with
          | Panicked => Panicked
          | Returned (Err _, resource, response) =>
              Returned {| response := response; status := Error;
                          resource := resource; onAdmittedPod := None |}
          | Returned (Ok patches, resource, response) =>
              let applied := (0 <? List.length patches)%nat in
              match (if applied then json_Marshal patches else Ok "") with
              | Err _ =>
                  Returned {| response := response; status := Error;
                              resource := resource; onAdmittedPod := None |}
              | Ok patch =>
                  let response :=
                    if applied then
                      {| Allowed := Allowed response; Result := Result response;
                         Patch := Some patch; PatchType := Some PatchTypeJSONPatch |}
                    else response in
                  Returned {| response := response;
                              status := if applied then Applied else Skipped;
                              resource := resource;
                              onAdmittedPod :=
                                match resource with
                                | PodResource => Some applied
                                | _ => None
                                end |}
              end
          end
      end
  end.

(** An HTTP request, by what [Serve] reads of it: the content type and the
    body as decoded (a body that is missing or cannot be read does not
    decode). *)
Record Request_ := {
  ContentType : string;
  Body : result AdmissionReview
}.

(** What [Serve] leaves behind: the bytes written to the response writer, if
    any, and the status and resource it observes on its latency timer. *)
Record served := {
  written : option string;
  observed : AdmissionStatus * AdmissionResource
}.

(** Serve is a handler function of AdmissionServer. [w] is [w.Write]. *)
Definition Serve (s : AdmissionServer) (w : string -> error) (r : Request_)
    : outcome served :=
  (* verify the content type is accurate *)
  if negb (String.eqb (ContentType r) "application/json") then
    Returned {| written := None; observed := (Error, Unknown) |}
  else
    match admit_ s (Body r) with
    | Panicked => Panicked
    | Returned reviewed =>
        match json_Marshal_review (response reviewed) with
        | Err _ =>
            Returned {| written := None; observed := (Error, resource reviewed) |}
        | Ok resp =>
            match w resp with
            | Some _ =>
                Returned {| written := None; observed := (Error, resource reviewed) |}
            | None =>
                Returned {| written := Some resp;
                            observed := (status reviewed, resource reviewed) |}
            end
        end
    end.

End Server.

End Admission.

(* ================================================================== *)
(** * The admission server: what the specification says *)
(* ================================================================== *)

Module AdmissionSpec.
Import Go K8s Admission.
Local Open Scope string_scope.
Local Open Scope list_scope.

(** ** Paths of a JSON patch *)

Definition isDigit (c : ascii) : bool :=
  (48 <=? nat_of_ascii c)%nat && (nat_of_ascii c <=? 57)%nat.

Fixpoint dropDigits (s : string) : string :=
  match s with
  | String c rest => if isDigit c then dropDigits rest else s
  | EmptyString => s
  end.

Fixpoint stripPrefix (prefix s : string) : option string :=
  match prefix with
  | EmptyString => Some s
  | String a prefix' =>
      match s with
      | String b s' => if Ascii.eqb a b then stripPrefix prefix' s' else None
      | EmptyString => None
      end
  end.

(** The path is [/spec/containers/<index>/resources/limits] or goes below it. *)
Definition underLimits (path : string) : bool :=
  match stripPrefix "/spec/containers/" path with
  | Some rest =>
      match stripPrefix "/resources/limits" (dropDigits rest) with
      | Some "" => true
      | Some (String c _) => Ascii.eqb c "/"
      | None => false
      end
  | None => false
  end.

Section Statements.
Variable Quantity : Type.
Context `{QuantityOps Quantity}.

(** ** Validation of a config *)

(** Some resource has both a minimum and a maximum, the maximum below the
    minimum. *)
Definition maxBelowMin (policy : ContainerResourcePolicy Quantity) : Prop :=
  exists resource min max,
    In (resource, min) (items (MinAllowed policy)) /\
    get resource (MaxAllowed policy) = Some max /\
    Cmp max min = Lt.

Definition badUpdatePolicy (vpa : VerticalPodAutoscaler Quantity) : Prop :=
  exists updatePolicy,
    UpdatePolicy (Spec vpa) = Some updatePolicy /\
    (UpdateMode_ updatePolicy = None \/
     exists mode, UpdateMode_ updatePolicy = Some mode /\
                  ~ In mode [UpdateModeOff; UpdateModeInitial;
                             UpdateModeRecreate; UpdateModeAuto]).

Definition badContainerPolicy (vpa : VerticalPodAutoscaler Quantity) : Prop :=
  exists resourcePolicy policy,
    ResourcePolicy (Spec vpa) = Some resourcePolicy /\
    In policy (ContainerPolicies resourcePolicy) /\
    (Policy_ContainerName policy = "" \/
     (exists mode, Mode policy = Some mode /\
                   ~ In mode [ContainerScalingModeAuto; ContainerScalingModeOff]) \/
     maxBelowMin policy).

Definition missingTargetRef (vpa : VerticalPodAutoscaler Quantity) (isCreate : bool)
    : Prop :=
  isCreate = true /\ TargetRef (Spec vpa) = None.

(** The four ways in which validation of a config fails. *)
Definition invalidConfig (vpa : VerticalPodAutoscaler Quantity) (isCreate : bool)
    : Prop :=
  badUpdatePolicy vpa \/ badContainerPolicy vpa \/ missingTargetRef vpa isCreate.

(** The request is about an autoscaler config. *)
Definition isConfigRequest (request : AdmissionRequest Quantity) : Prop :=
  GroupVersionResource_eqb (Request_Resource request) podResource = false /\
  Group (Request_Resource request) = "autoscaling.k8s.io" /\
  Resource (Request_Resource request) = "verticalpodautoscalers".

(** The request is about a pod. *)
Definition isPodRequest (request : AdmissionRequest Quantity) : Prop :=
  Request_Resource request = podResource.

Definition isCreate (request : AdmissionRequest Quantity) : bool :=
  String.eqb (Operation request) Create.

(** The submitted config decodes and, as the pre-processor returns it, fails
    validation. *)
Definition submittedConfigInvalid (s : AdmissionServer Quantity)
    (request : AdmissionRequest Quantity) : Prop :=
  exists vpa processed,
    asVPA (Object request) = Ok vpa /\
    vpaPreProcessor s vpa (isCreate request) = Ok processed /\
    invalidConfig processed (isCreate request).

(** The object of the request does not decode as a config, or the
    pre-processor fails on it. *)
Definition configUnreadable (s : AdmissionServer Quantity)
    (request : AdmissionRequest Quantity) : Prop :=
  (exists err, asVPA (Object request) = Err err) \/
  (exists vpa err, asVPA (Object request) = Ok vpa /\
                   vpaPreProcessor s vpa (isCreate request) = Err err).

(** The response denies the admission and carries a message. *)
Definition denied (response : AdmissionResponse) : Prop :=
  Allowed response = false /\
  exists message,
    Result response = Some {| Status_Status := "Failure"; Message := message |}.

(** ** Failures on the pod path *)

(** The body of the request cannot be parsed, or it is a pod request whose
    processing ends in an error. *)
Definition podPathFails (s : AdmissionServer Quantity)
    (data : result (AdmissionReview Quantity)) : Prop :=
  (exists err, data = Err err) \/
  (exists request err,
     data = Ok {| Request := Some request |} /\
     isPodRequest request /\
     getPatchesForPodResourceRequest s (Object request) (Request_Namespace request)
       = Returned (Err err)).

(** The request is a pod request (or its body cannot be parsed). *)
Definition podAdmission (data : result (AdmissionReview Quantity)) : Prop :=
  (exists err, data = Err err) \/
  (exists request, data = Ok {| Request := Some request |} /\ isPodRequest request).

(** ** The patch of a pod that declares requests only *)

(** [f i x] for each element [x] of a list, [i] being its index, from [i] on. *)
Fixpoint indexedFrom (A B : Type) (f : nat -> A -> B) (i : nat) (l : list A) : list B :=
  match l with
  | [] => []
  | x :: rest => f i x :: indexedFrom f (S i) rest
  end.

(** One [add] of [/spec/containers/<i>/resources/requests/<resource>] per
    recommended resource, its value the recommended (capped) target. *)
Definition requestPatches (i : nat) (containerResources : ContainerResources Quantity)
    : list (patchRecord Quantity) :=
  map (fun entry =>
         {| Op := "add";
            Path := ("/spec/containers/" ++ itoa i ++ "/resources/requests/" ++
                     fst entry)%string;
            Value := StringValue Quantity (QString (snd entry)) |})
      (items (CR_Requests containerResources)).

(** The annotations the recommendation provider gave for the container at
    index [i] of the pod. *)
Definition providedAnnotations (annotations : ContainerToAnnotationsMap)
    (pod : Pod Quantity) (i : nat) : list string :=
  match nth_error (Containers pod) i with
  | Some container =>
      match lookup (Container_Name container) annotations with
      | Some provided => provided
      | None => []
      end
  | None => []
  end.

(** ["container <i>: ..., <resource> request, ..."]. *)
Definition requestsAnnotation (annotations : ContainerToAnnotationsMap)
    (pod : Pod Quantity) (i : nat) (containerResources : ContainerResources Quantity)
    : string :=
  ("container " ++ itoa i ++ ": " ++
   strings_Join
     (providedAnnotations annotations pod i ++
      map (fun entry => (fst entry ++ " request")%string)
          (items (CR_Requests containerResources)))%list
     ", ")%string.

(** The [vpaUpdates] annotation: which requests were set, by which config. *)
Definition vpaUpdatesPatch (pod : Pod Quantity) (vpaName : string)
    (updates : list string) : patchRecord Quantity :=
  let value :=
    ("Pod resources updated by " ++ vpaName ++ ": " ++ strings_Join updates "; ")%string in
  match Annotations pod with
  | None =>
      {| Op := "add"; Path := "/metadata/annotations";
         Value := AnnotationsValue Quantity [("vpaUpdates", value)] |}
  | Some _ =>
      {| Op := "add"; Path := "/metadata/annotations/vpaUpdates";
         Value := StringValue Quantity value |}
  end.

(** The patch of a pod whose containers are only given requests. *)
Definition requestsOnlyPatch (pod : Pod Quantity)
    (containersResources : list (ContainerResources Quantity))
    (annotations : ContainerToAnnotationsMap) (vpaName : string)
    : list (patchRecord Quantity) :=
  List.concat (indexedFrom requestPatches 0 containersResources) ++
  [vpaUpdatesPatch pod vpaName
     (indexedFrom (requestsAnnotation annotations pod) 0 containersResources)].

(** Each container that gets resources declares requests and no limits, and
    is given no limits. *)
Definition requestsOnly (pod : Pod Quantity)
    (containersResources : list (ContainerResources Quantity)) : Prop :=
  forall i containerResources,
    nth_error containersResources i = Some containerResources ->
    exists container,
      nth_error (Containers pod) i = Some container /\
      Requests (Resources container) <> None /\
      Limits (Resources container) = None /\
      items (CR_Limits containerResources) = [].

(** The patches hold an [add] of the empty [resources] object of container [i]. *)
Definition addsEmptyResources (i : nat) (patches : list (patchRecord Quantity)) : Prop :=
  exists patch,
    In patch patches /\
    Path patch = ("/spec/containers/" ++ itoa i ++ "/resources")%string.

End Statements.

End AdmissionSpec.

(* ================================================================== *)
(** * pkg/utils/limitrange/limit_range_calculator.go *)
(* ================================================================== *)

Module LimitRangeCalculator.
Import Go K8s.
Local Open Scope string_scope.
Local Open Scope list_scope.

Section Calculator.
Variable Quantity : Type.
Context `{QuantityOps Quantity}.

(** The limits checker, by what it asks of its lister:
    [limitRangeLister.LimitRanges(namespace).List(labels.Everything())]. *)
Record limitsChecker := {
  limitRangeLister : string -> result (list (LimitRange Quantity))
}.

(** The closure [updatedResult] of [getLimitRangeItem]. [lrItem.DeepCopy()]
    is a map of its own with the same entries; [result[resourceName] = q]
    updates the map that [result] is. *)
Definition updatedResult (result lrItem : ResourceList Quantity)
    (resourceName : ResourceName) (picker : Quantity -> Quantity -> Quantity)
    : ResourceList Quantity :=
  match lrItem with
  | None => result
  | Some lrEntries =>
      match result with
      | None => Some lrEntries
      | Some entries =>
          match lookup resourceName lrEntries with
          | Some lrResource =>
              match lookup resourceName entries with
              | None => Some (store resourceName lrResource entries)
              | Some resultResource =>
                  Some (store resourceName (picker resultResource lrResource) entries)
              end
          | None => result
          end
      end
  end.

Definition pickLowerMax (q1 q2 : Quantity) : Quantity :=
  match Cmp q1 q2 with
  | Lt => q1
  | _ => q2
  end.

Definition chooseHigherMin (q1 q2 : Quantity) : Quantity :=
  match Cmp q1 q2 with
  | Gt => q1
  | _ => q2
  end.

(** The test of the inner loop: the item has the type asked for and sets
    Max, Default or Min. *)
Definition considered (limitType : LimitType) (lri : LimitRangeItem Quantity) : bool :=
  String.eqb (Type_ lri) limitType &&
  (negb (is_nil (Max lri)) || negb (is_nil (Default lri)) || negb (is_nil (Min lri))).

(** The body of [for _, lri := range lr.Spec.Limits]. *)
Definition itemStep (limitType : LimitType) (result lri : LimitRangeItem Quantity)
    : LimitRangeItem Quantity :=
  if considered limitType lri then
    let default := if negb (is_nil (Default lri)) then Default lri else Default result in
    let max := updatedResult (Max result) (Max lri) ResourceCPU pickLowerMax in
    let max := updatedResult max (Max lri) ResourceMemory pickLowerMax in
    let min := updatedResult (Min result) (Min lri) ResourceCPU chooseHigherMin in
    let min := updatedResult min (Min lri) ResourceMemory chooseHigherMin in
    {| Type_ := Type_ result;
       Max := max;
       Min := min;
       Default := default;
       DefaultRequest := DefaultRequest result;
       MaxLimitRequestRatio := MaxLimitRequestRatio result |}
  else result.

Definition getLimitRangeItem (lc : limitsChecker) (namespace : string)
    (limitType : LimitType) : result (option (LimitRangeItem Quantity)) :=
  match limitRangeLister lc namespace with
  | Err err => Err ("error loading limit ranges: " ++ err)%string
  | Ok limitRanges =>
      let result :=
        fold_left
          (fun result lr => fold_left (itemStep limitType) (Spec_Limits lr) result)
          limitRanges
          {| Type_ := limitType; Max := None; Min := None; Default := None;
             DefaultRequest := None; MaxLimitRequestRatio := None |} in
      if negb (is_nil (Min result)) || negb (is_nil (Max result)) ||
         negb (is_nil (Default result))
      then Ok (Some result)
      else Ok None
  end.

Definition GetContainerLimitRangeItem (lc : limitsChecker) (namespace : string)
    : result (option (LimitRangeItem Quantity)) :=
  getLimitRangeItem lc namespace LimitTypeContainer.

Definition GetPodLimitRangeItem (lc : limitsChecker) (namespace : string)
    : result (option (LimitRangeItem Quantity)) :=
  getLimitRangeItem lc namespace LimitTypePod.

End Calculator.

End LimitRangeCalculator.

(* ================================================================== *)
(** * The limit range calculator: what the specification says *)
(* ================================================================== *)

Module LimitRangeSpec.
Import Go K8s LimitRangeCalculator.
Local Open Scope list_scope.

Section Statements.
Variable Quantity : Type.
Context `{QuantityOps Quantity}.

(** The items of the type asked for that set Min, Max or Default, in the
    order of the limit ranges and of their items. *)
Definition settingItems (limitType : LimitType) (limitRanges : list (LimitRange Quantity))
    : list (LimitRangeItem Quantity) :=
  filter (considered limitType) (flat_map (@Spec_Limits Quantity) limitRanges).

(** The values that a list of resource lists gives to a resource. *)
Definition valuesOf (r : ResourceName) (lists : list (ResourceList Quantity))
    : list Quantity :=
  flat_map (fun l => match get r l with Some q => [q] | None => [] end) lists.

(** The last resource list of a list that is not nil, nil if none is. *)
Definition lastSet (lists : list (ResourceList Quantity)) : ResourceList Quantity :=
  fold_left (fun found l => if is_nil l then found else l) lists None.

(** [q] is one of the values and is related to each of them: the smallest
    of them when [better x y] is [x <= y], the largest when it is [x >= y]. *)
Definition bestOf (better : Quantity -> Quantity -> Prop) (q : Quantity)
    (values : list Quantity) : Prop :=
  In q values /\ forall q', In q' values -> better q q'.

(** What the combined item holds for a resource: nothing when no item gives
    it a value, the best value otherwise. *)
Definition combines (better : Quantity -> Quantity -> Prop) (held : option Quantity)
    (values : list Quantity) : Prop :=
  match values with
  | [] => held = None
  | _ :: _ => exists q, held = Some q /\ bestOf better q values
  end.

Definition atMost (x y : Quantity) : Prop := Cmp x y <> Gt.
Definition atLeast (x y : Quantity) : Prop := Cmp x y <> Lt.

End Statements.

End LimitRangeSpec.

(* ================================================================== *)
(** * pkg/target/fetcher.go *)
(* ================================================================== *)

Module Target.
Import Go K8s.
Local Open Scope string_scope.
Local Open Scope list_scope.

Definition wellKnownController := string.

Definition daemonSet : wellKnownController := "DaemonSet".
Definition deployment : wellKnownController := "Deployment".
Definition replicaSet : wellKnownController := "ReplicaSet".
Definition statefulSet : wellKnownController := "StatefulSet".
Definition replicationController : wellKnownController := "ReplicationController".
Definition job : wellKnownController := "Job".
Definition cronJob : wellKnownController := "CronJob".

(** [schema.GroupVersion], [schema.GroupKind], [schema.GroupResource]. *)
Record GroupVersion := {
  GV_Group : string;
  GV_Version : string
}.

Record GroupKind := {
  GK_Group : string;
  GK_Kind : string
}.

Record GroupResource := {
  GR_Group : string;
  GR_Resource : string
}.

(** [meta.RESTMapping], by [mapping.Resource.GroupResource()]. *)
Record RESTMapping := {
  Mapping_GroupResource : GroupResource
}.

(** [autoscaling.Scale], by [scale.Status.Selector]. *)
Record Scale := {
  Status_Selector : string
}.

Section Fetcher.
Variable Quantity : Type.

(** [labels.Selector] and [metav1.LabelSelector] with the functions of
    k8s.io/apimachinery that the fetcher calls on them; a selector that one
    of them returns without an error is not nil. *)
Variable Selector : Type.
Variable LabelSelector : Type.
Variable LabelSelectorAsSelector : option LabelSelector -> result Selector.
Variable SetAsLabelSelector : option (list (string * string)) -> option LabelSelector.
Variable labels_Parse : string -> result Selector.
Variable ParseGroupVersion : string -> result GroupVersion.

(** What the store of an informer holds under a key: an object of one of
    the types of the type switch of [getLabelSelector], by the field the
    switch reads, or of another type. *)
Inductive StoreObject :=
| DaemonSetObject (selector : option LabelSelector)
| DeploymentObject (selector : option LabelSelector)
| StatefulSetObject (selector : option LabelSelector)
| ReplicaSetObject (selector : option LabelSelector)
| JobObject (selector : option LabelSelector)
| CronJobObject (templateLabels : option (list (string * string)))
| ReplicationControllerObject (selector : option (list (string * string)))
| OtherObject.

(** [cache.SharedIndexInformer], by [informer.GetStore().GetByKey(key)]: the
    object if it exists, or an error. *)
Definition SharedIndexInformer : Type := string -> result (option StoreObject).

(** vpaTargetSelectorFetcher implements VpaTargetSelectorFetcher interface
    by querying API server for the controller pointed by VPA's targetRef.
    [scaleNamespacer] is held by [Scales(namespace).Get(groupResource, name)],
    [mapper] by [RESTMappings(groupKind)]. *)
Record vpaTargetSelectorFetcher := {
  scaleNamespacer : string -> GroupResource -> string -> result Scale;
  mapper : GroupKind -> result (list RESTMapping);
  informersMap : list (wellKnownController * SharedIndexInformer)
}.

(** The informers that [NewVpaTargetSelectorFetcher] takes from the factory. *)
Record SharedInformerFactory := {
  DaemonSets : SharedIndexInformer;
  Deployments : SharedIndexInformer;
  ReplicaSets : SharedIndexInformer;
  StatefulSets : SharedIndexInformer;
  ReplicationControllers : SharedIndexInformer;
  Jobs : SharedIndexInformer;
  CronJobs : SharedIndexInformer
}.

(** NewVpaTargetSelectorFetcher returns new instance of
    VpaTargetSelectorFetcher: what it returns once the discovery client is
    made and the caches of the informers have synced (it exits the process
    otherwise), from the scale client and the mapper it makes. *)
Definition NewVpaTargetSelectorFetcher
    (scaleNamespacer : string -> GroupResource -> string -> result Scale)
    (mapper : GroupKind -> result (list RESTMapping))
    (factory : SharedInformerFactory) : vpaTargetSelectorFetcher :=
  {| scaleNamespacer := scaleNamespacer;
     mapper := mapper;
     informersMap :=
       [(daemonSet, DaemonSets factory);
        (deployment, Deployments factory);
        (replicaSet, ReplicaSets factory);
        (statefulSet, StatefulSets factory);
        (replicationController, ReplicationControllers factory);
        (job, Jobs factory);
        (cronJob, CronJobs factory)] |}.

Definition getLabelSelector (informer : SharedIndexInformer)
    (kind namespace name : string) : result Selector :=
  match informer (namespace ++ "/" ++ name)%string with
  | Err err => Err err
  | Ok None => Err (kind ++ " " ++ namespace ++ "/" ++ name ++ " does not exist")%string
  | Ok (Some obj) =>
      match obj with
      | DaemonSetObject selector => LabelSelectorAsSelector selector
      | DeploymentObject selector => LabelSelectorAsSelector selector
      | StatefulSetObject selector => LabelSelectorAsSelector selector
      | ReplicaSetObject selector => LabelSelectorAsSelector selector
      | JobObject selector => LabelSelectorAsSelector selector
      | CronJobObject templateLabels =>
          LabelSelectorAsSelector (SetAsLabelSelector templateLabels)
      | ReplicationControllerObject selector =>
          LabelSelectorAsSelector (SetAsLabelSelector selector)
      | OtherObject => Err "Don't know how to read label seletor"
      end
  end.

(** The loop [for _, mapping := range mappings] of
    [getLabelSelectorFromResource] and the return that follows it;
    [Ok None] is the nil selector returned with the nil error. *)
Fixpoint selectorOfMappings (f : vpaTargetSelectorFetcher) (namespace name : string)
    (mappings : list RESTMapping) (lastError : error) : result (option Selector) :=
  match mappings with
  | [] =>
      (* nothing found, apparently the resource does support scale (or we
         lack RBAC) *)
      match lastError with
      | Some err => Err err
      | None => Ok None
      end
  | mapping :: rest =>
      match scaleNamespacer f namespace (Mapping_GroupResource mapping) name with
      | Ok scale =>
          match labels_Parse (Status_Selector scale) with
          | Err err => Err err
          | Ok selector => Ok (Some selector)
          end
      | Err err => selectorOfMappings f namespace name rest (Some err)
      end
  end.

Definition getLabelSelectorFromResource (f : vpaTargetSelectorFetcher)
    (groupKind : GroupKind) (namespace name : string) : result (option Selector) :=
  match mapper f groupKind with
  | Err err => Err err
  | Ok mappings => selectorOfMappings f namespace name mappings None
  end.

(** Fetch returns a labelSelector used to gather Pods controlled by the
    given VPA. *)
Definition Fetch (f : vpaTargetSelectorFetcher) (vpa : VerticalPodAutoscaler Quantity)
    : result (option Selector) :=
  match TargetRef (Spec vpa) with
  | None =>
      Err "targetRef not defined. If this is a v1beta1 object switch to v1beta2."
  | Some targetRef =>
      match lookup (Kind targetRef) (informersMap f) with
      | Some informer =>
          match getLabelSelector informer (Kind targetRef) (Vpa_Namespace vpa)
                  (Ref_Name targetRef) with
          | Err err => Err err
          | Ok selector => Ok (Some selector)
          end
      | None =>
          (* not on a list of known controllers, use scale sub-resource *)
          match ParseGroupVersion (APIVersion targetRef) with
          | Err err => Err err
          | Ok groupVersion =>
              let groupKind := {| GK_Group := GV_Group groupVersion;
                                  GK_Kind := Kind targetRef |} in
              match getLabelSelectorFromResource f groupKind (Vpa_Namespace vpa)
                      (Ref_Name targetRef) with
              | Err err =>
                  Err ("Unhandled targetRef " ++ APIVersion targetRef ++ " / " ++
                       Kind targetRef ++ " / " ++ Ref_Name targetRef ++
                       ", last error " ++ err)%string
              | Ok selector => Ok selector
              end
          end
      end
  end.

End Fetcher.

End Target.

(* ================================================================== *)
(** * pkg/recommender/routines/recommender.go *)
(* ================================================================== *)

Module Recommender.
Import Go K8s.
Local Open Scope string_scope.
Local Open Scope list_scope.

(** AggregateContainerStateGCInterval defines how often expired
    AggregateContainerStates are garbage collected. *)
Definition AggregateContainerStateGCInterval : Duration := (1 * Hour)%Z.

(** The defaults of the flags [checkpoints-timeout] and [min-checkpoints]. *)
Definition checkpointsWriteTimeout_default : Duration := Minute.
Definition minCheckpointsPerRun_default : Z := 10.

(** [model.VpaID]. *)
Record VpaID := {
  Namespace : string;
  VpaName : string
}.

(** [model.Resources], a [map[ResourceName]ResourceAmount]. *)
Definition Resources : Type := list (ResourceName * Z).

(** [logic.RecommendedContainerResources]. *)
Record RecommendedContainerResources := {
  Target : Resources;
  LowerBound : Resources;
  UpperBound : Resources
}.

(** [logic.RecommendedPodResources], a map from the container name. *)
Definition RecommendedPodResources : Type := list (string * RecommendedContainerResources).

Section Routines.
Variable Quantity : Type.
Context `{QuantityOps Quantity}.

(** [model.ResourcesAsResourceList] (pkg/recommender/model). *)
Variable ResourcesAsResourceList : Resources -> ResourceList Quantity.

(** [vpa_utils.ApplyVPAPolicy] (pkg/utils/vpa): the recommendation capped
    according to the policy, or an error. *)
Variable ApplyVPAPolicy :
  K8s.RecommendedPodResources Quantity -> option (PodResourcePolicy Quantity) ->
  result (K8s.RecommendedPodResources Quantity).

(** getCappedRecommendation creates a recommendation based on recommended pod
    resources, setting the UncappedTarget to the calculated recommended target
    and if necessary, capping the Target, LowerBound and UpperBound according
    to the ResourcePolicy. *)
Definition getCappedRecommendation (vpaID : VpaID) (resources : RecommendedPodResources)
    (policy : option (PodResourcePolicy Quantity))
    : K8s.RecommendedPodResources Quantity :=
  let containerResources :=
    map (fun entry : string * RecommendedContainerResources =>
           let '(containerName, res) := entry in
           {| K8s.ContainerName := containerName;
              K8s.Target := ResourcesAsResourceList (Target res);
              K8s.LowerBound := ResourcesAsResourceList (LowerBound res);
              K8s.UpperBound := ResourcesAsResourceList (UpperBound res);
              K8s.UncappedTarget := ResourcesAsResourceList (Target res) |})
        resources in
  let recommendation := {| ContainerRecommendations := containerResources |} in
  match ApplyVPAPolicy recommendation policy with
  | Err _ => recommendation
  | Ok cappedRecommendation => cappedRecommendation
  end.

(** What a run of the recommender does to the world around it, in order. *)
Inductive Event :=
| LoadVPAs
| LoadPods
| LoadRealTimeMetrics
| ObserveStep (step : string)
| ObserveTotal
| ObserveRecommendationLatency (vpa : VpaID)
| CounterAdd (vpa : VpaID)
| CounterObserve
| WriteStatus (vpa : VpaID) (status : VerticalPodAutoscalerStatus Quantity)
| StoreCheckpoints (deadline now : Time) (minCheckpoints : Z)
| GarbageCollectCheckpoints
| GarbageCollectAggregateCollectionStates (now : Time)
| CancelContext.

(** ** The recommender and the world around it *)

(** The packages the recommender drives are not in these sources. They are
    an interface: [World] is the cluster state together with what it is fed
    from and written to, [VpaRef] a pointer to a [model.Vpa] of the cluster
    state, whose methods read or update the world. *)
Class Environment : Type := {
  World : Type;
  VpaRef : Type;
  AggregateStateMap : Type;
  (* input.ClusterStateFeeder *)
  feeder_LoadVPAs : World -> World;
  feeder_LoadPods : World -> World;
  feeder_LoadRealTimeMetrics : World -> World;
  feeder_GarbageCollectCheckpoints : World -> World;
  (* checkpoint.CheckpointWriter: StoreCheckpoints(ctx, now, minCheckpoints),
     the context held by its deadline *)
  writer_StoreCheckpoints : Time -> Time -> Z -> World -> World * error;
  (* model.ClusterState *)
  ObservedVpas : World -> list (VerticalPodAutoscaler Quantity);
  Vpas : World -> VpaID -> option VpaRef;
  VpasWithMatchingPods : World -> VpaID -> bool;
  RecordRecommendation : VpaRef -> Time -> World -> World * error;
  cluster_GarbageCollectAggregateCollectionStates : Time -> World -> World;
  (* model.Vpa *)
  ID : World -> VpaRef -> VpaID;
  HasRecommendation : World -> VpaRef -> bool;
  UpdateRecommendation : VpaRef -> K8s.RecommendedPodResources Quantity -> World -> World;
  UpdateConditions : VpaRef -> bool -> World -> World;
  AsStatus : World -> VpaRef -> VerticalPodAutoscalerStatus Quantity;
  GetContainerNameToAggregateStateMap : World -> VpaRef -> AggregateStateMap;
  (* logic.PodResourceRecommender *)
  GetRecommendedPodResources : AggregateStateMap -> RecommendedPodResources;
  (* the VPA client: the patch of the status of a config *)
  client_PatchStatus : VpaID -> VerticalPodAutoscalerStatus Quantity -> World -> World * error;
  (* apiequality.Semantic.DeepEqual on two statuses *)
  DeepEqual :
    VerticalPodAutoscalerStatus Quantity -> VerticalPodAutoscalerStatus Quantity -> bool
}.

Context `{Environment}.

(** The values [time.Now()] returns, in the order of the calls. *)
Variable clock : nat -> Time.

(** The values of the flags [checkpoints-timeout] and [min-checkpoints]. *)
Variable checkpointsWriteTimeout : Duration.
Variable minCheckpointsPerRun : Z.

(** The fields of the recommender that are not interfaces. *)
Record recommender := {
  checkpointsGCInterval : Duration;
  lastCheckpointGC : Time;
  useCheckpoints : bool;
  lastAggregateContainerStateGC : Time
}.

(** What a run threads along: the world, the number of calls of [time.Now]
    so far and the events so far. *)
Record Run := {
  world : World;
  ticks : nat;
  trace : list Event
}.

(** A computation that reads and updates the run. *)
Definition M (A : Type) : Type := Run -> A * Run.

Definition ret (A : Type) (a : A) : M A := fun s => (a, s).

Definition bind (A B : Type) (c : M A) (k : A -> M B) : M B :=
  fun s => let '(a, s') := c s in k a s'.

Notation "x <- c ;; k" := (bind c (fun x => k))
  (at level 61, c at next level, right associativity).
Notation "c ;; k" := (bind c (fun _ => k))
  (at level 61, right associativity).

Definition getWorld : M World := fun s => (world s, s).

Definition emit (e : Event) : M unit :=
  fun s => (tt, {| world := world s; ticks := ticks s; trace := trace s ++ [e] |}).

(** A call into the world, recorded by its event. *)
Definition call (e : Event) (f : World -> World) : M unit :=
  fun s => (tt, {| world := f (world s); ticks := ticks s; trace := trace s ++ [e] |}).

(** A call into the world that returns an error value. *)
Definition callE (e : Event) (f : World -> World * error) : M error :=
  fun s => (snd (f (world s)),
            {| world := fst (f (world s)); ticks := ticks s; trace := trace s ++ [e] |}).

(** An update of an object of the cluster state. *)
Definition update (f : World -> World) : M unit :=
  fun s => (tt, {| world := f (world s); ticks := ticks s; trace := trace s |}).

(** [time.Now()]. *)
Definition time_Now : M Time :=
  fun s => (clock (ticks s),
            {| world := world s; ticks := S (ticks s); trace := trace s |}).

Definition when (b : bool) (c : M unit) : M unit := if b then c else ret tt.

(** [for _, x := range l { body }]. *)
Fixpoint forEach (A : Type) (l : list A) (body : A -> M unit) : M unit :=
  match l with
  | [] => ret tt
  | x :: rest => body x ;; forEach rest body
  end.

(** Modelled from the spec: [vpa_utils.UpdateVpaStatusIfNeeded] (pkg/utils/vpa)
    is not in these sources; it writes "the resulting recommendation onto
    the config's status only if it differs from the observed status". *)
Definition UpdateVpaStatusIfNeeded (vpa : VpaID)
    (newStatus oldStatus : VerticalPodAutoscalerStatus Quantity) : M error :=
  if DeepEqual oldStatus newStatus then ret None
  else callE (WriteStatus vpa newStatus) (client_PatchStatus vpa newStatus).

(** The body of [for _, observedVpa := range r.clusterState.ObservedVpas]. *)
Definition updateVPA (observedVpa : VerticalPodAutoscaler Quantity) : M unit :=
  let key := {| Namespace := Vpa_Namespace observedVpa;
                VpaName := Vpa_Name observedVpa |} in
  w <- getWorld ;;
  match Vpas w key with
  | None => ret tt
  | Some vpa =>
      let resources :=
        GetRecommendedPodResources (GetContainerNameToAggregateStateMap w vpa) in
      let had := HasRecommendation w vpa in
      update (UpdateRecommendation vpa
                (getCappedRecommendation (ID w vpa) resources
                   (ResourcePolicy (Spec observedVpa)))) ;;
      w <- getWorld ;;
      when (HasRecommendation w vpa && negb had)
           (emit (ObserveRecommendationLatency (ID w vpa))) ;;
      let hasMatchingPods := VpasWithMatchingPods w (ID w vpa) in
      update (UpdateConditions vpa hasMatchingPods) ;;
      now <- time_Now ;;
      (* an error of RecordRecommendation is logged *)
      update (fun w => fst (RecordRecommendation vpa now w)) ;;
      w <- getWorld ;;
      emit (CounterAdd (ID w vpa)) ;;
      (* an error of the update is logged *)
      UpdateVpaStatusIfNeeded (ID w vpa) (AsStatus w vpa) (Status observedVpa) ;;
      ret tt
  end.

(** UpdateVPAs computes recommendations and sends VPAs status updates to
    the API server. The counter is observed when the method returns. *)
Definition UpdateVPAs : M unit :=
  w <- getWorld ;;
  forEach (ObservedVpas w) updateVPA ;;
  emit CounterObserve.

Definition MaintainCheckpoints (r : recommender) (ctxDeadline : Time)
    (minCheckpointsPerRun : Z) : M recommender :=
  now <- time_Now ;;
  if useCheckpoints r then
    (* an error of StoreCheckpoints is logged *)
    callE (StoreCheckpoints ctxDeadline now minCheckpointsPerRun)
          (writer_StoreCheckpoints ctxDeadline now minCheckpointsPerRun) ;;
    now' <- time_Now ;;
    if (checkpointsGCInterval r <? Time_Sub now' (lastCheckpointGC r))%Z then
      call GarbageCollectCheckpoints feeder_GarbageCollectCheckpoints ;;
      ret {| checkpointsGCInterval := checkpointsGCInterval r;
             lastCheckpointGC := now;
             useCheckpoints := useCheckpoints r;
             lastAggregateContainerStateGC := lastAggregateContainerStateGC r |}
    else ret r
  else ret r.

Definition GarbageCollect (r : recommender) : M recommender :=
  gcTime <- time_Now ;;
  if (AggregateContainerStateGCInterval
        <? Time_Sub gcTime (lastAggregateContainerStateGC r))%Z then
    call (GarbageCollectAggregateCollectionStates gcTime)
         (cluster_GarbageCollectAggregateCollectionStates gcTime) ;;
    ret {| checkpointsGCInterval := checkpointsGCInterval r;
           lastCheckpointGC := lastCheckpointGC r;
           useCheckpoints := useCheckpoints r;
           lastAggregateContainerStateGC := gcTime |}
  else ret r.

(** RunOnce performs one iteration of the recommender. The two deferred
    calls, [cancelFunc] and [timer.ObserveTotal], run last. *)
Definition RunOnce (r : recommender) : M recommender :=
  start <- time_Now ;;
  let ctxDeadline := Time_Add start checkpointsWriteTimeout in
  call LoadVPAs feeder_LoadVPAs ;;
  emit (ObserveStep "LoadVPAs") ;;
  call LoadPods feeder_LoadPods ;;
  emit (ObserveStep "LoadPods") ;;
  call LoadRealTimeMetrics feeder_LoadRealTimeMetrics ;;
  emit (ObserveStep "LoadMetrics") ;;
  UpdateVPAs ;;
  emit (ObserveStep "UpdateVPAs") ;;
  r <- MaintainCheckpoints r ctxDeadline minCheckpointsPerRun ;;
  emit (ObserveStep "MaintainCheckpoints") ;;
  r <- GarbageCollect r ;;
  emit (ObserveStep "GarbageCollect") ;;
  emit CancelContext ;;
  emit ObserveTotal ;;
  ret r.

End Routines.

End Recommender.

(* ================================================================== *)
(** * pkg/recommender: the factory and the main loop *)
(* ================================================================== *)

Module RecommenderMain.
Import Go K8s Recommender.
Local Open Scope string_scope.
Local Open Scope list_scope.

Section Main.
Variable Quantity : Type.
Context `{QuantityOps Quantity}.
Variable ResourcesAsResourceList : Resources -> ResourceList Quantity.
Variable ApplyVPAPolicy :
  K8s.RecommendedPodResources Quantity -> option (PodResourcePolicy Quantity) ->
  result (K8s.RecommendedPodResources Quantity).
Context `{Environment Quantity}.
Variable clock : nat -> Time.
Variable checkpointsWriteTimeout : Duration.
Variable minCheckpointsPerRun : Z.

(** [ClusterStateFeeder.InitFromCheckpoints] and
    [ClusterStateFeeder.InitFromHistoryProvider] (pkg/recommender/input). *)
Variable feeder_InitFromCheckpoints : @World Quantity _ -> @World Quantity _.
Variable feeder_InitFromHistoryProvider : @World Quantity _ -> @World Quantity _.

Local Notation "x <- c ;; k" := (bind c (fun x => k))
  (at level 61, c at next level, right associativity).
Local Notation "c ;; k" := (bind c (fun _ => k))
  (at level 61, right associativity).

(** RecommenderFactory makes instances of Recommender; here by the fields
    that are not interfaces. *)
Record RecommenderFactory := {
  CheckpointsGCInterval : Duration;
  UseCheckpoints : bool
}.

(** Make creates a new recommender instance. The two times are read in the
    order of the fields of the literal. *)
Definition Make (c : RecommenderFactory) : M recommender :=
  lastAggregateContainerStateGC <- time_Now clock ;;
  lastCheckpointGC <- time_Now clock ;;
  ret {| checkpointsGCInterval := CheckpointsGCInterval c;
         lastCheckpointGC := lastCheckpointGC;
         useCheckpoints := UseCheckpoints c;
         lastAggregateContainerStateGC := lastAggregateContainerStateGC |}.

(** NewRecommender creates a new recommender instance, its dependencies
    made from the config. *)
Definition NewRecommender (checkpointsGCInterval : Duration) (useCheckpoints : bool)
    : M recommender :=
  Make {| CheckpointsGCInterval := checkpointsGCInterval;
          UseCheckpoints := useCheckpoints |}.

(** The loop of [main],
    [for range ticker { recommender.RunOnce(); healthCheck.UpdateLastActivity() }],
    for the first [n] ticks. The health check is not part of the run. *)
Fixpoint runLoop (n : nat) (r : recommender) : M recommender :=
  match n with
  | O => ret r
  | S n' =>
      r <- RunOnce ResourcesAsResourceList ApplyVPAPolicy clock
             checkpointsWriteTimeout minCheckpointsPerRun r ;;
      runLoop n' r
  end.

(** [main] of the recommender, from the making of the recommender to the
    [n]th tick; [storage] and [checkpointsGCInterval] are the values of the
    flags [storage] and [checkpoints-gc-interval]. *)
Definition main (storage : string) (checkpointsGCInterval : Duration) (n : nat)
    : M recommender :=
  let useCheckpoints := negb (String.eqb storage "prometheus") in
  r <- NewRecommender checkpointsGCInterval useCheckpoints ;;
  (if useCheckpoints then update feeder_InitFromCheckpoints
   else update feeder_InitFromHistoryProvider) ;;
  runLoop n r.

End Main.

End RecommenderMain.

(* ================================================================== *)
(** * The capping pipeline, and what the specification says of a run *)
(* ================================================================== *)

Module Capping.
Import Go K8s.
Local Open Scope string_scope.
Local Open Scope list_scope.

Section Policy.
Variable Quantity : Type.
Context `{QuantityOps Quantity}.

(** The policy of the config for a container, if it has one. *)
Definition policyFor (policy : option (PodResourcePolicy Quantity))
    (containerName : string) : option (ContainerResourcePolicy Quantity) :=
  match policy with
  | None => None
  | Some p =>
      find (fun cp => String.eqb (Policy_ContainerName cp) containerName)
           (ContainerPolicies p)
  end.

(** A value clamped to [[min, max]], each bound applying when it is set. *)
Definition clamp (minAllowed maxAllowed : ResourceList Quantity)
    (r : ResourceName) (q : Quantity) : Quantity :=
  let q :=
    match get r minAllowed with
    | Some min => match Cmp q min with Lt => min | _ => q end
    | None => q
    end in
  match get r maxAllowed with
  | Some max => match Cmp q max with Gt => max | _ => q end
  | None => q
  end.

Definition clampAll (cp : ContainerResourcePolicy Quantity)
    (l : ResourceList Quantity) : ResourceList Quantity :=
  option_map (map (fun entry : ResourceName * Quantity =>
                     (fst entry, clamp (MinAllowed cp) (MaxAllowed cp)
                                       (fst entry) (snd entry))))
             l.

(** An upper bound that ends up below the lower bound is raised to it. *)
Definition raisedTo (lower upper : ResourceList Quantity) : ResourceList Quantity :=
  option_map (map (fun entry : ResourceName * Quantity =>
                     match get (fst entry) lower with
                     | Some low =>
                         match Cmp (snd entry) low with
                         | Lt => (fst entry, low)
                         | _ => entry
                         end
                     | None => entry
                     end))
             upper.

Definition capped (cp : ContainerResourcePolicy Quantity)
    (c : RecommendedContainerResources Quantity)
    : RecommendedContainerResources Quantity :=
  let lower := clampAll cp (LowerBound c) in
  {| ContainerName := ContainerName c;
     Target := clampAll cp (Target c);
     LowerBound := lower;
     UpperBound := raisedTo lower (clampAll cp (UpperBound c));
     UncappedTarget := UncappedTarget c |}.

(** Modelled from the spec: [vpa_utils.ApplyVPAPolicy] (pkg/utils/vpa) is
    not in these sources. Of the capping pipeline it runs the steps that
    depend on the policy alone: "1. Drop containers whose scaling mode is
    Off. 2. Clamp Target, LowerBound, UpperBound to [policy.min, policy.max]
    per resource. Clamping is monotone: if upper bound ends up below lower
    bound after clamping, upper bound is raised to equal lower bound."
    UncappedTarget is the "Target before policy capping (preserved for
    reporting)". *)
Definition ApplyVPAPolicy (recommendation : RecommendedPodResources Quantity)
    (policy : option (PodResourcePolicy Quantity))
    : result (RecommendedPodResources Quantity) :=
  Ok {| ContainerRecommendations :=
          flat_map
            (fun c =>
               match policyFor policy (ContainerName c) with
               | None => [c]
               | Some cp =>
                   match Mode cp with
                   | Some mode =>
                       if String.eqb mode ContainerScalingModeOff then []
                       else [capped cp c]
                   | None => [capped cp c]
                   end
               end)
            (ContainerRecommendations recommendation) |}.

(** Capping leaves the uncapped targets alone: each container of the
    capped recommendation is a container of the recommendation, with the
    same name and the same UncappedTarget. *)
Definition keepsUncappedTarget
    (capping : RecommendedPodResources Quantity -> option (PodResourcePolicy Quantity) ->
               result (RecommendedPodResources Quantity)) : Prop :=
  forall recommendation policy cappedRecommendation,
    capping recommendation policy = Ok cappedRecommendation ->
    Forall (fun c' =>
              exists c,
                In c (ContainerRecommendations recommendation) /\
                ContainerName c' = ContainerName c /\
                UncappedTarget c' = UncappedTarget c)
           (ContainerRecommendations cappedRecommendation).

End Policy.

End Capping.

Module RecommenderSpec.
Import Go K8s Recommender.
Local Open Scope string_scope.
Local Open Scope list_scope.

Section Statements.
Variable Quantity : Type.
Context `{QuantityOps Quantity}.
Variable ResourcesAsResourceList : Resources -> ResourceList Quantity.

(** The UncappedTarget of the container is the raw recommended target of
    the container of that name. *)
Definition uncappedIsRawTarget (resources : Recommender.RecommendedPodResources)
    (c : K8s.RecommendedContainerResources Quantity) : Prop :=
  exists res,
    In (ContainerName c, res) resources /\
    UncappedTarget c = ResourcesAsResourceList (Recommender.Target res).

Context `{Environment Quantity}.

(** The events of the first phase of a run: the three loads, each followed
    by the observation of its step. *)
Definition loads : list (Event Quantity) :=
  [LoadVPAs _; ObserveStep _ "LoadVPAs";
   LoadPods _; ObserveStep _ "LoadPods";
   LoadRealTimeMetrics _; ObserveStep _ "LoadMetrics"].



(** The events of [MaintainCheckpoints]: with checkpoints in use, the
    checkpoints are stored under the deadline of the run, and the
    checkpoints are garbage collected if their interval has elapsed. *)
Definition checkpointEvents (r : recommender) (deadline now now' : Time)
    (minCheckpoints : Z) : list (Event Quantity) :=
  if useCheckpoints r then
    StoreCheckpoints _ deadline now minCheckpoints ::
    (if (checkpointsGCInterval r <? Time_Sub now' (lastCheckpointGC r))%Z
     then [GarbageCollectCheckpoints _] else [])
  else [].

(** More than the interval has elapsed since the previous collection. *)
Definition gcDue (r : recommender) (gcTime : Time) : bool :=
  (AggregateContainerStateGCInterval
     <? Time_Sub gcTime (lastAggregateContainerStateGC r))%Z.

(** The events of [GarbageCollect]. *)
Definition gcEvents (r : recommender) (gcTime : Time) : list (Event Quantity) :=
  if gcDue r gcTime then [GarbageCollectAggregateCollectionStates _ gcTime] else [].

End Statements.

End RecommenderSpec.

(* ================================================================== *)
(** * Concrete values: an instance of the interfaces and sample inputs *)
(* ================================================================== *)

Module Samples.
Import Go K8s.
Local Open Scope Z_scope.
Local Open Scope string_scope.

(** A quantity held as a whole number of thousandths: "300m" is [300]. *)
Definition MilliQuantity : Type := Z.

#[global] Instance milliQuantityOps : QuantityOps MilliQuantity := {|
  MilliValue := fun q => q;
  Cmp := Z.compare;
  QString := fun q => itoa (Z.to_nat q) ++ "m"
|}.

(** The recommendation whose container name is the given one, the first one
    if several are. *)
Definition lookupRecommendation (containerName : string)
    (rec : option (RecommendedPodResources MilliQuantity))
    : option (RecommendedContainerResources MilliQuantity) :=
  match rec with
  | None => None
  | Some r =>
      find (fun c => String.eqb (ContainerName c) containerName)
           (ContainerRecommendations r)
  end.

(** A processor that returns the recommendation as it is. *)
Definition identityProcessor : RecommendationProcessor MilliQuantity :=
  fun rec _ _ _ => Ok (rec, []).

(** A processor that always fails. *)
Definition failingProcessor : RecommendationProcessor MilliQuantity :=
  fun _ _ _ _ => Err "cannot apply".

Definition container (name : string) (requests limits : ResourceList MilliQuantity)
    : Container MilliQuantity :=
  {| Container_Name := name;
     Resources := {| Limits := limits; Requests := requests |} |}.

Definition podOf (name : string) (containers : list (Container MilliQuantity))
    (startTime : option Time) : Pod MilliQuantity :=
  {| Pod_Name := name; GenerateName := ""; Pod_Namespace := "default";
     Annotations := None; Containers := containers;
     ContainerStatuses := []; StartTime := startTime |}.

Definition recommend (name : string) (lower target upper : ResourceList MilliQuantity)
    : RecommendedContainerResources MilliQuantity :=
  {| ContainerName := name; Target := target; LowerBound := lower;
     UpperBound := upper; UncappedTarget := target |}.

Definition cpu (milli : Z) : ResourceList MilliQuantity := Some [(ResourceCPU, milli)].

(** Scenario 4 of the specification: P1 requests 100m and is recommended
    300m, P2 requests 500m and is recommended 450m. *)
Definition P1 : Pod MilliQuantity := podOf "P1" [container "app" (cpu 100) None] (Some 0).
Definition P2 : Pod MilliQuantity := podOf "P2" [container "app" (cpu 500) None] (Some 0).
Definition rec1 : option (RecommendedPodResources MilliQuantity) :=
  Some {| ContainerRecommendations := [recommend "app" (cpu 200) (cpu 300) (cpu 400)] |}.
Definition rec2 : option (RecommendedPodResources MilliQuantity) :=
  Some {| ContainerRecommendations := [recommend "app" (cpu 400) (cpu 450) (cpu 600)] |}.

(** A pod whose only container declares no request, recommended 5m. *)
Definition podNoRequest : Pod MilliQuantity := podOf "bare" [container "app" None None] None.
Definition rec5 : option (RecommendedPodResources MilliQuantity) :=
  Some {| ContainerRecommendations := [recommend "app" None (cpu 5) None] |}.

(** A pod of two containers: one requests 100m and is recommended 200m, the
    other requests 200m and is recommended 100m. *)
Definition podTwo : Pod MilliQuantity :=
  podOf "two" [container "a" (cpu 100) None; container "b" (cpu 200) None] None.
Definition recTwo : option (RecommendedPodResources MilliQuantity) :=
  Some {| ContainerRecommendations :=
            [recommend "a" None (cpu 200) None; recommend "b" None (cpu 100) None] |}.

(** One day, in nanoseconds since the start time of the sample pods. *)
Definition oneDay : Time := 24 * Hour.

Definition defaultCalculator : Priority.UpdatePriorityCalculator MilliQuantity :=
  Priority.NewUpdatePriorityCalculator None [] None identityProcessor.

(** ** The admission server *)

(** Marshallers that succeed. *)
Definition marshal (patches : list (Admission.patchRecord MilliQuantity)) : result string :=
  Ok "[...]".
Definition marshalReview (response : Admission.AdmissionResponse) : result string :=
  Ok "{...}".

(** A server whose provider recommends 300m of cpu for the only container,
    on behalf of the config [my-vpa], and whose pre-processors change nothing. *)
Definition server : Admission.AdmissionServer MilliQuantity :=
  {| Admission.recommendationProvider :=
       fun _ => Ok ([{| CR_Limits := None; CR_Requests := cpu 300 |}], None, "my-vpa");
     Admission.podPreProcessor := fun pod => Ok pod;
     Admission.vpaPreProcessor := fun vpa _ => Ok vpa |}.

Definition configResource : Admission.GroupVersionResource :=
  {| Admission.Group := "autoscaling.k8s.io"; Admission.Version := "v1";
     Admission.Resource := "verticalpodautoscalers" |}.

(** A config that names its target and sets no policy. *)
Definition validConfig : VerticalPodAutoscaler MilliQuantity :=
  {| Vpa_Namespace := "default"; Vpa_Name := "my-vpa";
     Spec := {| TargetRef := Some {| Kind := "Deployment"; Ref_Name := "app";
                                     APIVersion := "apps/v1" |};
                UpdatePolicy := None; ResourcePolicy := None |};
     Status := {| Recommendation := None; Conditions := [] |} |}.

Definition configRequest : Admission.AdmissionRequest MilliQuantity :=
  {| Admission.Request_Resource := configResource;
     Admission.Request_Namespace := "default";
     Admission.Operation := Admission.Create;
     Admission.Object := {| Admission.asPod := Err "not a pod";
                            Admission.asVPA := Ok validConfig |} |}.

(** A request about a config whose object does not decode as one. *)
Definition undecodableConfigRequest : Admission.AdmissionRequest MilliQuantity :=
  {| Admission.Request_Resource := configResource;
     Admission.Request_Namespace := "default";
     Admission.Operation := Admission.Create;
     Admission.Object :=
       {| Admission.asPod := Err "not a pod";
          Admission.asVPA :=
            Err "json: cannot unmarshal string into Go struct field VerticalPodAutoscaler.spec" |} |}.

(** Scenario 6 of the specification: the pod [P1] is created. *)
Definition podRequest : Admission.AdmissionRequest MilliQuantity :=
  {| Admission.Request_Resource := Admission.podResource;
     Admission.Request_Namespace := "default";
     Admission.Operation := Admission.Create;
     Admission.Object := {| Admission.asPod := Ok P1;
                            Admission.asVPA := Err "not a config" |} |}.

(** A pod request whose object does not decode as a pod. *)
Definition undecodablePodRequest : Admission.AdmissionRequest MilliQuantity :=
  {| Admission.Request_Resource := Admission.podResource;
     Admission.Request_Namespace := "default";
     Admission.Operation := Admission.Create;
     Admission.Object := {| Admission.asPod := Err "unexpected end of JSON input";
                            Admission.asVPA := Err "unexpected end of JSON input" |} |}.

(** ** Limit ranges *)

Definition limits (limitType : LimitType) (max min default : ResourceList MilliQuantity)
    : LimitRangeItem MilliQuantity :=
  {| Type_ := limitType; Max := max; Min := min; Default := default;
     DefaultRequest := None; MaxLimitRequestRatio := None |}.

(** Two limit ranges of a namespace: container limits in both, pod limits
    in the first. *)
Definition limitRanges : list (LimitRange MilliQuantity) :=
  [{| LimitRange_Name := "first";
      Spec_Limits :=
        [limits LimitTypeContainer
           (Some [(ResourceCPU, 2000); (ResourceMemory, 4000)])
           (Some [(ResourceCPU, 100)]) None;
         limits LimitTypePod (Some [(ResourceCPU, 8000)]) None None] |};
   {| LimitRange_Name := "second";
      Spec_Limits :=
        [limits LimitTypeContainer
           (Some [(ResourceCPU, 1000)])
           (Some [(ResourceCPU, 200)])
           (Some [(ResourceCPU, 500)])] |}].

Definition checker : LimitRangeCalculator.limitsChecker MilliQuantity :=
  {| LimitRangeCalculator.limitRangeLister :=
       fun namespace => if String.eqb namespace "default" then Ok limitRanges else Ok [] |}.

(** ** The recommender *)

(** Amounts are milli-units already. *)
Definition resourcesAsResourceList (resources : Recommender.Resources)
    : ResourceList MilliQuantity :=
  Some resources.

(** A raw recommendation for one container: target cpu 50m. *)
Definition rawResources : Recommender.RecommendedPodResources :=
  [("app", {| Recommender.Target := [(ResourceCPU, 50)];
              Recommender.LowerBound := [(ResourceCPU, 25)];
              Recommender.UpperBound := [(ResourceCPU, 2000)] |})].

(** A policy for the container: cpu between 100m and 1000m. *)
Definition cpuPolicy : PodResourcePolicy MilliQuantity :=
  {| ContainerPolicies :=
       [{| Policy_ContainerName := "app"; Mode := None;
           MinAllowed := cpu 100; MaxAllowed := cpu 1000 |}] |}.

Definition cappedConfig : VerticalPodAutoscaler MilliQuantity :=
  {| Vpa_Namespace := "default"; Vpa_Name := "my-vpa";
     Spec := {| TargetRef := TargetRef (Spec validConfig);
                UpdatePolicy := None; ResourcePolicy := Some cpuPolicy |};
     Status := {| Recommendation := None; Conditions := [] |} |}.

Definition configID : Recommender.VpaID :=
  {| Recommender.Namespace := "default"; Recommender.VpaName := "my-vpa" |}.

(** A world of the configs the feeder loads and the recommendation the
    model holds for them. *)
Record SampleWorld := {
  loaded : list (VerticalPodAutoscaler MilliQuantity);
  held : option (RecommendedPodResources MilliQuantity)
}.

Fixpoint sameList (A : Type) (same : A -> A -> bool) (l l' : list A) : bool :=
  match l, l' with
  | [], [] => true
  | x :: rest, x' :: rest' => same x x' && sameList same rest rest'
  | _, _ => false
  end.

Definition sameOption (A : Type) (same : A -> A -> bool) (o o' : option A) : bool :=
  match o, o' with
  | None, None => true
  | Some x, Some x' => same x x'
  | _, _ => false
  end.

Definition sameResources : ResourceList MilliQuantity -> ResourceList MilliQuantity -> bool :=
  sameOption (sameList (fun e e' : ResourceName * MilliQuantity =>
                          String.eqb (fst e) (fst e') && Z.eqb (snd e) (snd e'))).

Definition sameContainer (c c' : RecommendedContainerResources MilliQuantity) : bool :=
  String.eqb (ContainerName c) (ContainerName c') &&
  sameResources (Target c) (Target c') &&
  sameResources (LowerBound c) (LowerBound c') &&
  sameResources (UpperBound c) (UpperBound c') &&
  sameResources (UncappedTarget c) (UncappedTarget c').

Definition sameStatus (status status' : VerticalPodAutoscalerStatus MilliQuantity) : bool :=
  sameOption (fun r r' => sameList sameContainer (ContainerRecommendations r)
                                                 (ContainerRecommendations r'))
             (Recommendation status) (Recommendation status') &&
  sameList (fun c c' => String.eqb (Condition_Type c) (Condition_Type c') &&
                        String.eqb (Condition_Status c) (Condition_Status c'))
           (Conditions status) (Conditions status').

Definition sampleEnvironment (observed : list (VerticalPodAutoscaler MilliQuantity))
    : Recommender.Environment MilliQuantity :=
  {| Recommender.World := SampleWorld;
     Recommender.VpaRef := Recommender.VpaID;
     Recommender.AggregateStateMap := unit;
     Recommender.feeder_LoadVPAs := fun w => {| loaded := observed; held := held w |};
     Recommender.feeder_LoadPods := fun w => w;
     Recommender.feeder_LoadRealTimeMetrics := fun w => w;
     Recommender.feeder_GarbageCollectCheckpoints := fun w => w;
     Recommender.writer_StoreCheckpoints := fun _ _ _ w => (w, None);
     Recommender.ObservedVpas := loaded;
     Recommender.Vpas := fun w key =>
       if existsb (fun v => String.eqb (Vpa_Namespace v) (Recommender.Namespace key) &&
                            String.eqb (Vpa_Name v) (Recommender.VpaName key))
                  (loaded w)
       then Some key else None;
     Recommender.VpasWithMatchingPods := fun _ _ => true;
     Recommender.RecordRecommendation := fun _ _ w => (w, None);
     Recommender.cluster_GarbageCollectAggregateCollectionStates := fun _ w => w;
     Recommender.ID := fun _ vpa => vpa;
     Recommender.HasRecommendation := fun w _ =>
       match held w with Some _ => true | None => false end;
     Recommender.UpdateRecommendation := fun _ recommendation w =>
       {| loaded := loaded w; held := Some recommendation |};
     Recommender.UpdateConditions := fun _ _ w => w;
     Recommender.AsStatus := fun w _ => {| Recommendation := held w; Conditions := [] |};
     Recommender.GetContainerNameToAggregateStateMap := fun _ _ => tt;
     Recommender.GetRecommendedPodResources := fun _ => rawResources;
     Recommender.client_PatchStatus := fun _ _ w => (w, None);
     Recommender.DeepEqual := sameStatus |}.

(** The capped recommendation of the sample: the target raised to 100m. *)
Definition cappedRecommendation : RecommendedPodResources MilliQuantity :=
  {| ContainerRecommendations :=
       [{| ContainerName := "app";
           Target := cpu 100; LowerBound := cpu 100; UpperBound := cpu 1000;
           UncappedTarget := cpu 50 |}] |}.

(** The clock of the samples: a reading every second, from two hours on. *)
Definition sampleClock (n : nat) : Time := 2 * Hour + Z.of_nat n * Second.

Definition sampleRecommender (lastGC : Time) : Recommender.recommender :=
  {| Recommender.checkpointsGCInterval := 10 * Minute;
     Recommender.lastCheckpointGC := 2 * Hour;
     Recommender.useCheckpoints := true;
     Recommender.lastAggregateContainerStateGC := lastGC |}.

Definition emptyRun (observed : list (VerticalPodAutoscaler MilliQuantity))
    : Recommender.Run (H0 := sampleEnvironment observed) :=
  @Recommender.Build_Run MilliQuantity (sampleEnvironment observed)
    {| loaded := []; held := None |} 0 [].

(** One run of the sample recommender from an empty world. *)
Definition sampleRun (observed : list (VerticalPodAutoscaler MilliQuantity))
    (lastGC : Time)
    : Recommender.recommender * Recommender.Run (H0 := sampleEnvironment observed) :=
  Recommender.RunOnce (H0 := sampleEnvironment observed)
    resourcesAsResourceList (@Capping.ApplyVPAPolicy MilliQuantity _)
    sampleClock Recommender.checkpointsWriteTimeout_default
    Recommender.minCheckpointsPerRun_default
    (sampleRecommender lastGC) (emptyRun observed).

End Samples.
(* ================================================================== *)
(** * Classes of values and loop invariants *)
(* ================================================================== *)

Unset Implicit Arguments.

Module Invariants.
Import Go K8s.

(** ** float64: classes of values *)

(** Not a NaN, and with the given sign bit. *)
Definition signed_as (s : bool) (f : float64) : Prop :=
  match f with
  | S754_nan => False
  | S754_zero s' | S754_infinity s' | S754_finite s' _ _ => s' = s
  end.

(** Not a NaN, sign bit clear: [+0], a positive number or [+Inf]. *)
Definition nonneg (f : float64) : Prop := signed_as false f.

Definition finite_or_zero (f : float64) : Prop :=
  match f with
  | S754_zero _ | S754_finite _ _ _ => True
  | _ => False
  end.

(** ** [sort.Sort] *)

(** The reversed prefix is sorted when each element comes after all the
    elements that follow it in the list. *)
Definition after (A : Type) (before : A -> A -> Prop) (x y : A) : Prop := before y x.

(** ** The update priority calculator *)

Section Priority.
Import Priority PrioritySpec.
Local Open Scope Z_scope.
Variable Quantity : Type.
Context `{QuantityOps Quantity}.

Local Abbreviation target := (target Quantity).
Local Abbreviation targetResource := (@targetResource Quantity).
Local Abbreviation recommendedMilli := (@recommendedMilli Quantity _).
Local Abbreviation requestMilli := (@requestMilli Quantity _).

(** The totals are int64 values. *)
Definition int64_values (m : list (ResourceName * Z)) : Prop :=
  Forall (fun kv => minInt64 <= snd kv <= maxInt64) m.

Definition int64_totals (st : loopState) : Prop :=
  int64_values (totalRequestPerResource st) /\
  int64_values (totalRecommendedPerResource st).

(** The resource difference of the pod orders it against the others. *)
Definition comparable (pp : podPriority Quantity) : Prop := is_nan (resourceDiff pp) = false.

(** [a] has a priority at least that of [b]: a scale-up against a
    scale-down, or the same direction and a resource difference at least
    as large. *)
Definition before (a b : podPriority Quantity) : Prop :=
  (scaleUp a = true /\ scaleUp b = false) \/
  (scaleUp a = scaleUp b /\ f_ge (resourceDiff a) (resourceDiff b) = true).

(** The loops of [getUpdatePriority] visit the recommended targets one by one. *)
Definition visitStep (st : loopState) (t : target) : loopState :=
  resourceStep (fst (fst t)) (snd (fst t)) st (snd t).

(** What the loop state holds once the targets [ts] have been visited. *)
Definition totalsOf (ts : list target) (st : loopState) : Prop :=
  keys (totalRecommendedPerResource st) = firstOccurrences (map targetResource ts) /\
  NoDup (keys (totalRecommendedPerResource st)) /\
  (forall r, lookup0 r (totalRecommendedPerResource st) =
             wrap64 (sumZ (map recommendedMilli (about r ts)))) /\
  (forall r, lookup0 r (totalRequestPerResource st) =
             wrap64 (sumZ (map requestMilli (about r ts)))).

End Priority.

(** ** The admission server *)

Section Admission.
Import Admission AdmissionSpec.
Local Open Scope string_scope.
Local Open Scope list_scope.
Variable Quantity : Type.
Context `{QuantityOps Quantity}.

(** A container policy that [validateVPA] refuses. *)
Definition refused (policy : ContainerResourcePolicy Quantity) : Prop :=
  Policy_ContainerName policy = "" \/
  (exists mode, Mode policy = Some mode /\
                ~ In mode [ContainerScalingModeAuto; ContainerScalingModeOff]) \/
  maxBelowMin policy.

(** The paths that [appendPatchesAndAnnotations] adds go below the
    [resources] object of the container. *)
Definition belowResources (i : nat) (patch : patchRecord Quantity) : Prop :=
  exists rest,
    Path patch = ("/spec/containers/" ++ itoa i ++ "/resources/" ++ rest)%string.

End Admission.

(** ** The limit range calculator *)

Section LimitRange.
Import LimitRangeCalculator LimitRangeSpec.
Local Open Scope list_scope.
Variable Quantity : Type.
Context `{QuantityOps Quantity}.

Local Abbreviation atMost := (@atMost Quantity _).
Local Abbreviation atLeast := (@atLeast Quantity _).

Section Picking.
Variable picker : Quantity -> Quantity -> Quantity.

(** What one item does to the value held for a resource. *)
Definition combineOne (held given : option Quantity) : option Quantity :=
  match given with
  | Some q => Some match held with Some a => picker a q | None => q end
  | None => held
  end.

(** The two calls of [updatedResult] on one item, for cpu and for memory. *)
Definition bothUpdated (result lrItem : ResourceList Quantity) : ResourceList Quantity :=
  updatedResult (updatedResult result lrItem ResourceCPU picker)
                lrItem ResourceMemory picker.

End Picking.

(** What the result holds once the items [seen] have been combined. *)
Definition combinedSoFar (limitType : LimitType) (result : LimitRangeItem Quantity)
    (seen : list (LimitRangeItem Quantity)) : Prop :=
  Type_ result = limitType /\
  Default result = lastSet (map (@Default Quantity) seen) /\
  is_nil (Max result) = forallb (@is_nil Quantity) (map (@Max Quantity) seen) /\
  is_nil (Min result) = forallb (@is_nil Quantity) (map (@Min Quantity) seen) /\
  forall r, r = ResourceCPU \/ r = ResourceMemory ->
    combines atMost (get r (Max result)) (valuesOf r (map (@Max Quantity) seen)) /\
    combines atLeast (get r (Min result)) (valuesOf r (map (@Min Quantity) seen)).

End LimitRange.

End Invariants.

(* ================================================================== *)
(** * Further properties: what they are stated with *)
(* ================================================================== *)

Module PriorityProperties.
Import Go K8s Priority PrioritySpec.
Local Open Scope Z_scope.

Section Statements.
Variable Quantity : Type.
Context `{QuantityOps Quantity}.

Local Abbreviation target := (target Quantity).

(** The target asks for more than its container requests: the request is
    missing, or the recommended value is above it. *)
Definition growing (t : target) : bool :=
  match get (fst (snd t)) (Requests (Resources (fst (fst t)))) with
  | Some request => MilliValue (snd (snd t)) >? MilliValue request
  | None => true
  end.

(** The request of the target's container is missing, or below the lower
    bound or above the upper bound that its recommendation gives for the
    resource. *)
Definition outOfRange (t : target) : bool :=
  let resourceName := fst (snd t) in
  match get resourceName (Requests (Resources (fst (fst t)))) with
  | Some request =>
      match get resourceName (LowerBound (snd (fst t))) with
      | Some lowerBound => match Cmp request lowerBound with Lt => true | _ => false end
      | None => false
      end ||
      match get resourceName (UpperBound (snd (fst t))) with
      | Some upperBound => match Cmp request upperBound with Gt => true | _ => false end
      | None => false
      end
  | None => true
  end.

End Statements.

End PriorityProperties.

Module AdmissionProperties.
Import Go K8s Admission AdmissionSpec.
Local Open Scope string_scope.
Local Open Scope list_scope.

Section Statements.
Variable Quantity : Type.
Context `{QuantityOps Quantity}.

(** One [add] of [/spec/containers/<i>/resources/<kind>/<resource>] per
    resource of the list. *)
Definition valuePatches (i : nat) (kind : string) (resources : ResourceList Quantity)
    : list (patchRecord Quantity) :=
  map (fun entry => getAddResourceRequirementValuePatch i kind (fst entry) (snd entry))
      (items resources).

(** The patches for one kind (requests or limits) of a container: the empty
    object first if the container has none and there is a value to add,
    then the values. *)
Definition fieldPatches (i : nat) (kind : string)
    (current resources : ResourceList Quantity) : list (patchRecord Quantity) :=
  (if is_nil current && negb (Nat.eqb (List.length (items resources)) 0)
   then [getPatchInitializingEmptyResourcesSubfield Quantity i kind]
   else []) ++
  valuePatches i kind resources.

(** The patches of the container at index [i]: the empty resources object
    if the container declares neither limits nor requests, then the
    requests, then the limits. *)
Definition containerPatches (pod : Pod Quantity) (i : nat)
    (containerResources : ContainerResources Quantity) : list (patchRecord Quantity) :=
  match nth_error (Containers pod) i with
  | Some container =>
      (if is_nil (Limits (Resources container)) &&
          is_nil (Requests (Resources container))
       then [getPatchInitializingEmptyResources Quantity i]
       else []) ++
      fieldPatches i "requests" (Requests (Resources container))
        (CR_Requests containerResources) ++
      fieldPatches i "limits" (Limits (Resources container))
        (CR_Limits containerResources)
  | None => []
  end.

(** ["container <i>: "] and then, joined by [", "]: the annotations the
    provider gave for the container, ["<resource> request"] for each request
    set and ["<resource> limit"] for each limit set. *)
Definition containerAnnotation (annotations : ContainerToAnnotationsMap)
    (pod : Pod Quantity) (i : nat) (containerResources : ContainerResources Quantity)
    : string :=
  ("container " ++ itoa i ++ ": " ++
   strings_Join
     (providedAnnotations annotations pod i ++
      map (fun entry => (fst entry ++ " request")%string)
          (items (CR_Requests containerResources)) ++
      map (fun entry => (fst entry ++ " limit")%string)
          (items (CR_Limits containerResources)))%list
     ", ")%string.

(** The patch of a pod: nothing if the provider gave resources for no
    container; else the patches of the containers in order, and last the
    [vpaUpdates] annotation. *)
Definition podPatches (pod : Pod Quantity)
    (containersResources : list (ContainerResources Quantity))
    (annotations : ContainerToAnnotationsMap) (vpaName : string)
    : list (patchRecord Quantity) :=
  match containersResources with
  | [] => []
  | _ :: _ =>
      List.concat (indexedFrom (containerPatches pod) 0 containersResources) ++
      [vpaUpdatesPatch pod vpaName
         (indexedFrom (containerAnnotation annotations pod) 0 containersResources)]
  end.

(** The two servers call the same provider and the same pod pre-processor
    on every pod that has a name. *)
Definition agreeOnNamedPods (s s' : AdmissionServer Quantity) : Prop :=
  forall pod : Pod Quantity,
    Pod_Name pod <> "" ->
    recommendationProvider s pod = recommendationProvider s' pod /\
    podPreProcessor s pod = podPreProcessor s' pod.

(** The default update policy that a config without one is patched with. *)
Definition defaultUpdatePolicyPatch : patchRecord Quantity :=
  {| Op := "add"; Path := "/spec/updatePolicy";
     Value := PodUpdatePolicyValue Quantity {| UpdateMode_ := Some UpdateModeAuto |} |}.

End Statements.

End AdmissionProperties.

Module LimitRangeProperties.
Import Go K8s LimitRangeCalculator LimitRangeSpec.
Local Open Scope list_scope.

Section Statements.
Variable Quantity : Type.
Context `{QuantityOps Quantity}.

(** The first resource list of a list that is not nil, nil if none is. *)
Definition firstSet (lists : list (ResourceList Quantity)) : ResourceList Quantity :=
  match find (fun l => negb (is_nil l)) lists with
  | Some l => l
  | None => None
  end.

(** Both absent, or both present and equal in the order of [Cmp]. *)
Definition sameValue (a b : option Quantity) : Prop :=
  match a, b with
  | None, None => True
  | Some x, Some y => Cmp x y = Eq
  | _, _ => False
  end.

(** The item that the loop of [getLimitRangeItem] starts from. *)
Definition initialItem (limitType : LimitType) : LimitRangeItem Quantity :=
  {| Type_ := limitType; Max := None; Min := None; Default := None;
     DefaultRequest := None; MaxLimitRequestRatio := None |}.

(** The fields that the loop never writes. *)
Definition untouched (limitType : LimitType) (result : LimitRangeItem Quantity) : Prop :=
  Type_ result = limitType /\
  DefaultRequest result = None /\
  MaxLimitRequestRatio result = None.

(** What the result holds, once the items [seen] have been combined, for
    the resources that are neither cpu nor memory. *)
Definition othersSoFar (result : LimitRangeItem Quantity)
    (seen : list (LimitRangeItem Quantity)) : Prop :=
  is_nil (Max result) = forallb (@is_nil Quantity) (map (@Max Quantity) seen) /\
  is_nil (Min result) = forallb (@is_nil Quantity) (map (@Min Quantity) seen) /\
  forall r, r <> ResourceCPU -> r <> ResourceMemory ->
    get r (Max result) = get r (firstSet (map (@Max Quantity) seen)) /\
    get r (Min result) = get r (firstSet (map (@Min Quantity) seen)).

End Statements.

End LimitRangeProperties.

Module RecommenderProperties.
Import Go K8s Recommender.
Local Open Scope list_scope.

Section Statements.
Variable Quantity : Type.

(** The times at which the aggregate states were collected, in order. *)
Definition gcTimes (events : list (Event Quantity)) : list Time :=
  flat_map (fun e => match e with
                     | GarbageCollectAggregateCollectionStates _ now => [now]
                     | _ => []
                     end)
           events.

(** Each time is more than the collection interval after the one before,
    the first one after [last]. *)
Fixpoint apart (last : Time) (times : list Time) : Prop :=
  match times with
  | [] => True
  | now :: rest => (AggregateContainerStateGCInterval < now - last)%Z /\ apart now rest
  end.

Definition storesCheckpoints (e : Event Quantity) : bool :=
  match e with
  | StoreCheckpoints _ _ _ _ => true
  | _ => false
  end.

(** The event stores or garbage collects checkpoints. *)
Definition touchesCheckpoints (e : Event Quantity) : bool :=
  match e with
  | StoreCheckpoints _ _ _ _ | GarbageCollectCheckpoints _ => true
  | _ => false
  end.

(** The event is part of the maintenance that follows [UpdateVPAs]. *)
Definition maintenance (e : Event Quantity) : bool :=
  match e with
  | StoreCheckpoints _ _ _ _ | GarbageCollectCheckpoints _
  | GarbageCollectAggregateCollectionStates _ _ => true
  | _ => false
  end.

End Statements.

End RecommenderProperties.

(* ================================================================== *)
(** * Further sample inputs *)
(* ================================================================== *)

Module MoreSamples.
Import Go K8s Samples.
Local Open Scope Z_scope.
Local Open Scope string_scope.
Local Open Scope list_scope.

(** A recommendation that names a container the sample pods do not have. *)
Definition recOther : option (RecommendedPodResources MilliQuantity) :=
  Some {| ContainerRecommendations := [recommend "sidecar" (cpu 200) (cpu 300) (cpu 400)] |}.

(** A pod that requests 100m of cpu and 1000 of memory, recommended 300m
    and 2000. *)
Definition podBoth : Pod MilliQuantity :=
  podOf "both"
    [container "app" (Some [(ResourceCPU, 100); (ResourceMemory, 1000)]) None] (Some 0).
Definition recBoth : option (RecommendedPodResources MilliQuantity) :=
  Some {| ContainerRecommendations :=
            [recommend "app" None
               (Some [(ResourceCPU, 300); (ResourceMemory, 2000)]) None] |}.

(** A pod that requests 1000 of cpu, of memory and of ephemeral storage,
    recommended 1100, 1200 and 1300: relative differences of 0.1, 0.2 and
    0.3. *)
Definition podThree : Pod MilliQuantity :=
  podOf "three"
    [container "app"
       (Some [(ResourceCPU, 1000); (ResourceMemory, 1000); ("ephemeral-storage", 1000)])
       None] (Some 0).
Definition recThree : option (RecommendedPodResources MilliQuantity) :=
  Some {| ContainerRecommendations :=
            [recommend "app" None
               (Some [(ResourceCPU, 1100); (ResourceMemory, 1200);
                      ("ephemeral-storage", 1300)]) None] |}.

(** The totals of the recommendations of [podThree], memory first and cpu
    last. *)
Definition visitedThree : list (ResourceName * Z) :=
  [(ResourceMemory, 1200); ("ephemeral-storage", 1300); (ResourceCPU, 1100)].

(** Two containers that request cpu, the first one only recommended. *)
Definition podPartly : Pod MilliQuantity :=
  podOf "partly" [container "a" (cpu 100) None; container "b" (cpu 1000) None] None.
Definition recPartly : option (RecommendedPodResources MilliQuantity) :=
  Some {| ContainerRecommendations := [recommend "a" None (cpu 200) None] |}.

(** ** The admission server *)

(** A server whose provider recommends a request of 300m and a limit of
    600m of cpu for the only container. *)
Definition serverWithLimits : Admission.AdmissionServer MilliQuantity :=
  {| Admission.recommendationProvider :=
       fun _ => Ok ([{| CR_Limits := cpu 600; CR_Requests := cpu 300 |}], None, "my-vpa");
     Admission.podPreProcessor := fun pod => Ok pod;
     Admission.vpaPreProcessor := fun vpa _ => Ok vpa |}.

(** The pod whose container declares neither requests nor limits, as the
    object of a request. *)
Definition bareObject : Admission.RawExtension MilliQuantity :=
  {| Admission.asPod := Ok podNoRequest;
     Admission.asVPA := Err "not a config" |}.

(** What [admit] returns for the sample pod request. *)
Definition admittedPod : Admission.admitted :=
  {| Admission.response :=
       {| Admission.Allowed := true; Admission.Result := None;
          Admission.Patch := Some "[...]";
          Admission.PatchType := Some Admission.PatchTypeJSONPatch |};
     Admission.status := Admission.Applied;
     Admission.resource := Admission.PodResource;
     Admission.onAdmittedPod := Some true |}.

(** ** Limit ranges *)

(** The container limits of the sample limit ranges in one limit range,
    among items that set nothing the calculator reads. *)
Definition limitRangesRegrouped : list (LimitRange MilliQuantity) :=
  [{| LimitRange_Name := "merged";
      Spec_Limits :=
        [limits LimitTypeContainer
           (Some [(ResourceCPU, 2000); (ResourceMemory, 4000)])
           (Some [(ResourceCPU, 100)]) None;
         {| Type_ := LimitTypeContainer; Max := None; Min := None; Default := None;
            DefaultRequest := Some [(ResourceCPU, 50)];
            MaxLimitRequestRatio := Some [(ResourceCPU, 4)] |};
         limits LimitTypePod (Some [(ResourceCPU, 16000)]) None None;
         limits LimitTypeContainer
           (Some [(ResourceCPU, 1000)])
           (Some [(ResourceCPU, 200)])
           (Some [(ResourceCPU, 500)])] |}].

Definition checkerRegrouped : LimitRangeCalculator.limitsChecker MilliQuantity :=
  {| LimitRangeCalculator.limitRangeLister := fun _ => Ok limitRangesRegrouped |}.

(** The sample limit ranges, listed in the opposite order. *)
Definition checkerReversed : LimitRangeCalculator.limitsChecker MilliQuantity :=
  {| LimitRangeCalculator.limitRangeLister := fun _ => Ok (rev limitRanges) |}.

(** Two limit ranges that bound the ephemeral storage of a container. *)
Definition storageLimitRanges : list (LimitRange MilliQuantity) :=
  [{| LimitRange_Name := "first";
      Spec_Limits :=
        [limits LimitTypeContainer
           (Some [(ResourceCPU, 2000); ("ephemeral-storage", 8000)]) None None] |};
   {| LimitRange_Name := "second";
      Spec_Limits :=
        [limits LimitTypeContainer
           (Some [(ResourceCPU, 1000); ("ephemeral-storage", 2000)]) None None] |}].

Definition storageChecker : LimitRangeCalculator.limitsChecker MilliQuantity :=
  {| LimitRangeCalculator.limitRangeLister := fun _ => Ok storageLimitRanges |}.

(** ** The recommender *)

(** A feeder that observes the sample config, over a cluster state that
    does not hold it. *)
Definition staleEnvironment : Recommender.Environment MilliQuantity :=
  {| Recommender.World := SampleWorld;
     Recommender.VpaRef := Recommender.VpaID;
     Recommender.AggregateStateMap := unit;
     Recommender.feeder_LoadVPAs := fun w => w;
     Recommender.feeder_LoadPods := fun w => w;
     Recommender.feeder_LoadRealTimeMetrics := fun w => w;
     Recommender.feeder_GarbageCollectCheckpoints := fun w => w;
     Recommender.writer_StoreCheckpoints := fun _ _ _ w => (w, None);
     Recommender.ObservedVpas := fun _ => [cappedConfig];
     Recommender.Vpas := fun _ _ => None;
     Recommender.VpasWithMatchingPods := fun _ _ => true;
     Recommender.RecordRecommendation := fun _ _ w => (w, None);
     Recommender.cluster_GarbageCollectAggregateCollectionStates := fun _ w => w;
     Recommender.ID := fun _ vpa => vpa;
     Recommender.HasRecommendation := fun w _ =>
       match held w with Some _ => true | None => false end;
     Recommender.UpdateRecommendation := fun _ recommendation w =>
       {| loaded := loaded w; held := Some recommendation |};
     Recommender.UpdateConditions := fun _ _ w => w;
     Recommender.AsStatus := fun w _ => {| Recommendation := held w; Conditions := [] |};
     Recommender.GetContainerNameToAggregateStateMap := fun _ _ => tt;
     Recommender.GetRecommendedPodResources := fun _ => rawResources;
     Recommender.client_PatchStatus := fun _ _ w => (w, None);
     Recommender.DeepEqual := sameStatus |}.

Definition staleRun : Recommender.Run (H0 := staleEnvironment) :=
  @Recommender.Build_Run MilliQuantity staleEnvironment
    {| loaded := []; held := None |} 0 [].

(** A clock that is read every ten minutes. *)
Definition coarseClock (n : nat) : Time := Z.of_nat n * (10 * Minute).

(** [main] with the default storage over an empty cluster, up to the [n]th
    tick. *)
Definition sampleMain (storage : string) (n : nat)
    : Recommender.recommender * Recommender.Run (H0 := sampleEnvironment []) :=
  RecommenderMain.main (H0 := sampleEnvironment [])
    resourcesAsResourceList (@Capping.ApplyVPAPolicy MilliQuantity _)
    coarseClock Recommender.checkpointsWriteTimeout_default
    Recommender.minCheckpointsPerRun_default
    (fun w => w) (fun w => w)
    storage (10 * Minute) n (emptyRun []).

(** ** The target selector fetcher *)

(** Selectors held as the labels they ask for. *)
Definition LabelSet : Type := list (string * string).

Definition asSelector (selector : option LabelSet) : result LabelSet :=
  match selector with
  | Some labels => Ok labels
  | None => Ok []
  end.

Definition parseSelector (s : string) : result LabelSet :=
  if String.eqb s "" then Ok [] else Ok [("selector", s)].

(** The group of an API version that has one, read up to the slash. *)
Fixpoint groupOf (apiVersion : string) : string :=
  match apiVersion with
  | String c rest => if Ascii.eqb c "/" then "" else String c (groupOf rest)
  | EmptyString => ""
  end.

Definition parseGroupVersion (apiVersion : string) : result Target.GroupVersion :=
  Ok {| Target.GV_Group := groupOf apiVersion; Target.GV_Version := "" |}.

Definition emptyStore : Target.SharedIndexInformer LabelSet := fun _ => Ok None.

(** A cluster with one deployment, [default/app]. *)
Definition informers : Target.SharedInformerFactory LabelSet :=
  {| Target.DaemonSets := emptyStore;
     Target.Deployments := fun key =>
       if String.eqb key "default/app"
       then Ok (Some (Target.DeploymentObject (Some [("app", "web")])))
       else Ok None;
     Target.ReplicaSets := emptyStore;
     Target.StatefulSets := emptyStore;
     Target.ReplicationControllers := emptyStore;
     Target.Jobs := emptyStore;
     Target.CronJobs := emptyStore |}.

(** A fetcher whose mapper knows no kind and whose scale client finds nothing. *)
Definition fetcher : Target.vpaTargetSelectorFetcher LabelSet :=
  Target.NewVpaTargetSelectorFetcher
    (fun _ _ _ => Err "the server could not find the requested resource")
    (fun _ => Ok [])
    informers.

(** A fetcher over an empty cluster, its mapper failing. *)
Definition otherFetcher : Target.vpaTargetSelectorFetcher LabelSet :=
  Target.NewVpaTargetSelectorFetcher
    (fun _ _ _ => Err "forbidden")
    (fun _ => Err "no matches for kind")
    {| Target.DaemonSets := emptyStore; Target.Deployments := emptyStore;
       Target.ReplicaSets := emptyStore; Target.StatefulSets := emptyStore;
       Target.ReplicationControllers := emptyStore; Target.Jobs := emptyStore;
       Target.CronJobs := emptyStore |}.

(** A config whose target is of a kind of its own. *)
Definition customConfig : VerticalPodAutoscaler MilliQuantity :=
  {| Vpa_Namespace := "default"; Vpa_Name := "custom-vpa";
     Spec := {| TargetRef := Some {| Kind := "Workload"; Ref_Name := "app";
                                     APIVersion := "example.com/v1" |};
                UpdatePolicy := None; ResourcePolicy := None |};
     Status := {| Recommendation := None; Conditions := [] |} |}.

Definition fetch (f : Target.vpaTargetSelectorFetcher LabelSet)
    (vpa : VerticalPodAutoscaler MilliQuantity) : result (option LabelSet) :=
  Target.Fetch asSelector (fun labels => labels) parseSelector parseGroupVersion f vpa.

End MoreSamples.

(* ================================================================== *)
(** * Facts about the Go primitives *)
(* ================================================================== *)

Module GoFacts.
Import Go Invariants.
Local Open Scope Z_scope.

(** ** int64 *)

Lemma wrap64_range z : minInt64 <= wrap64 z <= maxInt64.
Proof.
  unfold wrap64, minInt64, maxInt64.
  pose proof (Z.mod_pos_bound (z + 2 ^ 63) (2 ^ 64) ltac:(lia)). lia.
Qed.

Lemma wrap64_id z : minInt64 <= z <= maxInt64 -> wrap64 z = z.
Proof.
  unfold wrap64, minInt64, maxInt64. intros Hz.
  rewrite Z.mod_small by lia. lia.
Qed.

Lemma wrap64_add_l a b : wrap64 (wrap64 a + b) = wrap64 (a + b).
Proof.
  unfold wrap64.
  replace ((a + 2 ^ 63) mod 2 ^ 64 - 2 ^ 63 + b + 2 ^ 63)
    with ((a + 2 ^ 63) mod 2 ^ 64 + b) by lia.
  rewrite Zplus_mod_idemp_l. f_equal. f_equal. lia.
Qed.

Lemma wrap64_add_r a b : wrap64 (a + wrap64 b) = wrap64 (a + b).
Proof. rewrite Z.add_comm, wrap64_add_l. f_equal. lia. Qed.

(** ** float64: classes of values *)

Lemma signed_as_not_nan s f : signed_as s f -> is_nan f = false.
Proof. destruct f; simpl; intros Hs; [reflexivity|reflexivity|contradiction|reflexivity]. Qed.

Lemma nonneg_not_nan f : nonneg f -> is_nan f = false.
Proof. apply signed_as_not_nan. Qed.

(** ** float64: the number of binary digits *)

Lemma digits2_pos_size p : digits2_pos p = Pos.size p.
Proof. induction p; simpl; congruence. Qed.

Lemma Zdigits2_nonneg z : 0 <= Zdigits2 z.
Proof. destruct z; simpl; lia. Qed.

Lemma Zdigits2_bound z k : 0 <= z < 2 ^ k -> 0 <= k -> Zdigits2 z <= k.
Proof.
  intros [Hz Hk] Hk0. destruct z as [|p|p]; simpl; try lia.
  rewrite digits2_pos_size.
  destruct (Z_lt_le_dec k (Z.pos (Pos.size p))) as [Hlt|]; [|lia].
  exfalso.
  pose proof (Pos.size_le p) as H2.
  apply Pos2Z.pos_le_pos in H2. rewrite Pos2Z.inj_pow in H2.
  assert (H : 2 ^ (k + 1) <= 2 ^ Z.pos (Pos.size p)) by (apply Z.pow_le_mono_r; lia).
  rewrite Z.pow_add_r in H by lia. change (2 ^ 1) with 2 in H.
  change (Z.pos p~0) with (2 * Z.pos p) in H2. lia.
Qed.

Lemma Zdigits2_gt z : 0 <= z -> z < 2 ^ Zdigits2 z.
Proof.
  intros Hz. destruct z as [|p|p]; simpl; try lia.
  rewrite digits2_pos_size.
  pose proof (Pos.size_gt p) as Hs.
  apply Pos2Z.pos_lt_pos in Hs. rewrite Pos2Z.inj_pow in Hs. exact Hs.
Qed.

Lemma Zdigits2_le a b : 0 <= a <= b -> Zdigits2 a <= Zdigits2 b.
Proof.
  intros [Ha Hab]. apply Zdigits2_bound; [|apply Zdigits2_nonneg].
  pose proof (Zdigits2_gt b). lia.
Qed.

Lemma Zdigits2_succ a : 0 <= a -> Zdigits2 (a + 1) <= Zdigits2 a + 1.
Proof.
  intros Ha. apply Zdigits2_bound; [|pose proof (Zdigits2_nonneg a); lia].
  pose proof (Zdigits2_gt a Ha). pose proof (Zdigits2_nonneg a).
  rewrite Z.pow_add_r by lia. change (2 ^ 1) with 2. lia.
Qed.

Lemma digits2_pos_iter_xO d : forall m,
  Z.pos (digits2_pos (Pos.iter xO m d)) = Z.pos (digits2_pos m) + Z.pos d.
Proof.
  induction d using Pos.peano_ind; intros m.
  - simpl. lia.
  - rewrite Pos.iter_succ. simpl. rewrite Pos2Z.inj_succ, IHd. lia.
Qed.

(** ** float64: rounding *)

Lemma shr_1_bounds mrs : 0 <= shr_m mrs -> 0 <= shr_m (shr_1 mrs) <= shr_m mrs.
Proof.
  destruct mrs as [m r s]; simpl. intros Hm.
  destruct m as [|[p|p|]|p]; simpl; lia.
Qed.

Lemma iter_shr_1_bounds p : forall mrs,
  0 <= shr_m mrs -> 0 <= shr_m (iter_pos shr_1 p mrs) <= shr_m mrs.
Proof.
  induction p as [p IH|p IH|]; intros mrs Hm; simpl.
  - pose proof (shr_1_bounds mrs Hm) as H1.
    pose proof (IH _ (proj1 H1)) as H2.
    pose proof (IH _ (proj1 H2)) as H3. lia.
  - pose proof (IH _ Hm) as H2.
    pose proof (IH _ (proj1 H2)) as H3. lia.
  - apply shr_1_bounds; assumption.
Qed.

Lemma shr_m_of_loc m l : shr_m (shr_record_of_loc m l) = m.
Proof. destruct l as [|[]]; reflexivity. Qed.

Lemma shr_fexp_bounds prec emax m e l :
  0 <= m ->
  0 <= shr_m (fst (shr_fexp prec emax m e l)) <= m /\
  snd (shr_fexp prec emax m e l) = Z.max e (fexp prec emax (Zdigits2 m + e)).
Proof.
  intros Hm. unfold shr_fexp, shr.
  destruct (fexp prec emax (Zdigits2 m + e) - e) as [|p|p] eqn:E; simpl.
  - rewrite shr_m_of_loc. lia.
  - pose proof (iter_shr_1_bounds p (shr_record_of_loc m l)) as Hb.
    rewrite shr_m_of_loc in Hb. specialize (Hb Hm). lia.
  - rewrite shr_m_of_loc. lia.
Qed.

Lemma round_nearest_even_bounds m l :
  m <= round_nearest_even m l <= m + 1.
Proof.
  unfold round_nearest_even. destruct l as [|[]]; try lia.
  destruct (Z.even m); lia.
Qed.

(** Rounding a non-negative mantissa keeps the sign and never gives a NaN. *)
Lemma binary_round_aux_signed prec emax sx mx ex lx :
  0 <= mx -> signed_as sx (binary_round_aux prec emax sx mx ex lx).
Proof.
  intros Hm. unfold binary_round_aux.
  destruct (shr_fexp prec emax mx ex lx) as [mrs' e'] eqn:E1.
  pose proof (shr_fexp_bounds prec emax mx ex lx Hm) as [B1 _].
  rewrite E1 in B1; simpl in B1.
  pose proof (round_nearest_even_bounds (shr_m mrs') (loc_of_shr_record mrs')) as B2.
  set (m1 := round_nearest_even (shr_m mrs') (loc_of_shr_record mrs')) in *.
  destruct (shr_fexp prec emax m1 e' loc_Exact) as [mrs'' e''] eqn:E2.
  assert (Hm1 : 0 <= m1) by lia.
  pose proof (shr_fexp_bounds prec emax m1 e' loc_Exact Hm1) as [B3 _].
  rewrite E2 in B3; simpl in B3.
  destruct (shr_m mrs'') as [|p|p]; simpl; try reflexivity; try lia.
  destruct (e'' <=? emax - prec); reflexivity.
Qed.

(** Rounding does not overflow when the mantissa and the exponent are small. *)
Lemma binary_round_aux_finite sx mx ex lx dg :
  0 <= mx -> Zdigits2 mx <= dg -> -1074 <= ex <= 900 -> 2 * dg + ex <= 1000 ->
  finite_or_zero (binary_round_aux prec64 emax64 sx mx ex lx).
Proof.
  intros Hm Hdg Hex Hsum. unfold binary_round_aux.
  destruct (shr_fexp prec64 emax64 mx ex lx) as [mrs' e'] eqn:E1.
  pose proof (shr_fexp_bounds prec64 emax64 mx ex lx Hm) as [B1 B1e].
  rewrite E1 in B1, B1e; simpl in B1, B1e.
  pose proof (round_nearest_even_bounds (shr_m mrs') (loc_of_shr_record mrs')) as B2.
  set (m1 := round_nearest_even (shr_m mrs') (loc_of_shr_record mrs')) in *.
  destruct (shr_fexp prec64 emax64 m1 e' loc_Exact) as [mrs'' e''] eqn:E2.
  assert (Hm1 : 0 <= m1) by lia.
  pose proof (shr_fexp_bounds prec64 emax64 m1 e' loc_Exact Hm1) as [B3 B3e].
  rewrite E2 in B3, B3e; simpl in B3, B3e.
  assert (Hd1 : Zdigits2 m1 <= Zdigits2 (shr_m mrs') + 1).
  { destruct (Z.eq_dec m1 (shr_m mrs')) as [->|]; [lia|].
    replace m1 with (shr_m mrs' + 1) by lia. apply Zdigits2_succ; lia. }
  assert (Hd0 : Zdigits2 (shr_m mrs') <= Zdigits2 mx) by (apply Zdigits2_le; lia).
  unfold fexp, emin, prec64, emax64 in *.
  pose proof (Zdigits2_nonneg mx) as Hd2.
  destruct (shr_m mrs'') as [|p|p]; try exact I; try lia.
  destruct (Z.leb_spec e'' (1024 - 53)) as [El|El]; [exact I|].
  exfalso. lia.
Qed.

Lemma binary_round_signed prec emax sx m e :
  signed_as sx (binary_round prec emax sx m e).
Proof.
  unfold binary_round.
  destruct (shl_align m e (fexp prec emax (Z.pos (digits2_pos m) + e))) as [mz ez].
  apply binary_round_aux_signed. lia.
Qed.

Lemma binary_round_finite sx m :
  Z.pos m < 2 ^ 64 -> finite_or_zero (binary_round prec64 emax64 sx m 0).
Proof.
  intros Hm. unfold binary_round, shl_align.
  assert (Hd : Z.pos (digits2_pos m) <= 64).
  { apply (Zdigits2_bound (Z.pos m)); lia. }
  unfold fexp, emin, prec64, emax64.
  destruct (Z.max (Z.pos (digits2_pos m) + 0 - 53) (3 - 1024 - 53) - 0) as [|d|d] eqn:E.
  - apply binary_round_aux_finite with (dg := 64); simpl; lia.
  - apply binary_round_aux_finite with (dg := 64); simpl; lia.
  - apply binary_round_aux_finite with (dg := 53).
    + lia.
    + simpl. rewrite digits2_pos_iter_xO. lia.
    + lia.
    + lia.
Qed.

Lemma binary_normalize_not_nan prec emax m e s :
  is_nan (binary_normalize prec emax m e s) = false.
Proof.
  destruct m as [|p|p]; simpl; [reflexivity| |];
    eapply signed_as_not_nan, binary_round_signed.
Qed.

(** ** float64: conversion and arithmetic *)

Lemma float64_of_int64_not_nan z : is_nan (float64_of_int64 z) = false.
Proof. apply binary_normalize_not_nan. Qed.

(** The conversion of an int64 never overflows. *)
Lemma float64_of_int64_finite z :
  minInt64 <= z <= maxInt64 -> finite_or_zero (float64_of_int64 z).
Proof.
  unfold minInt64, maxInt64. intros Hz. unfold float64_of_int64, binary_normalize.
  destruct z as [|p|p]; [exact I| |]; apply binary_round_finite; lia.
Qed.

(** [math.Max(float64(z), 1)] is a positive finite number. *)
Lemma math_Max_one_positive z :
  minInt64 <= z <= maxInt64 ->
  exists m e, math_Max (float64_of_int64 z) f_one = S754_finite false m e.
Proof.
  intros Hz. pose proof (float64_of_int64_finite z Hz) as Hf.
  destruct (float64_of_int64 z) as [s|s| |s m e] eqn:E; try contradiction.
  - destruct s; unfold f_one; simpl; eauto.
  - destruct s.
    + unfold f_one; simpl. eauto.
    + unfold math_Max, f_one.
      destruct (f_gt (S754_finite false m e)
                  (S754_finite false 4503599627370496 (-52))); eauto.
Qed.

Lemma f_sub_finite_not_nan s m e y :
  is_nan y = false -> is_nan (f_sub (S754_finite s m e) y) = false.
Proof.
  intros Hy. destruct y as [sy|sy| |sy my ey]; simpl in *; try reflexivity; try discriminate.
  apply binary_normalize_not_nan.
Qed.

Lemma math_Abs_nonneg x : is_nan x = false -> nonneg (math_Abs x).
Proof. destruct x; simpl; intros; try reflexivity; discriminate. Qed.

Lemma div_eucl_nonneg a b : 0 <= a -> 0 < b -> 0 <= fst (Z.div_eucl a b).
Proof. intros Ha Hb. change (fst (Z.div_eucl a b)) with (a / b). apply Z.div_pos; lia. Qed.

(** Dividing by a positive finite number keeps [+0], positive numbers and
    [+Inf] in that class. *)
Lemma f_div_nonneg x m e : nonneg x -> nonneg (f_div x (S754_finite false m e)).
Proof.
  intros Hx. destruct x as [s|s| |s mx ex]; simpl in *; try contradiction; subst;
    try reflexivity.
  unfold SFdiv_core_binary.
  set (e' := Z.min _ _). set (mm := match _ with Z0 => _ | Z.pos _ => _ | Z.neg _ => _ end).
  assert (Hmm : 0 <= mm).
  { subst mm. destruct (ex - e - e') eqn:Es; try lia.
    apply Z.shiftl_nonneg. lia. }
  pose proof (div_eucl_nonneg mm (Z.pos m) Hmm (Pos2Z.is_pos m)) as Hq.
  destruct (Z.div_eucl mm (Z.pos m)) as [q r]. simpl in Hq.
  apply binary_round_aux_signed. exact Hq.
Qed.

Lemma shl_align_fst_pos m e e' : 0 < Z.pos (fst (shl_align m e e')).
Proof. lia. Qed.

(** A sum of two values of that class stays in it. *)
Lemma f_add_nonneg x y : nonneg x -> nonneg y -> nonneg (f_add x y).
Proof.
  intros Hx Hy.
  destruct x as [sx|sx| |sx mx ex]; destruct y as [sy|sy| |sy my ey];
    simpl in *; try contradiction; subst; simpl; try reflexivity.
  unfold binary_normalize.
  set (a := fst (shl_align mx ex (Z.min ex ey))).
  set (b := fst (shl_align my ey (Z.min ex ey))).
  change (Z.pos a + Z.pos b) with (Z.pos (a + b)).
  apply binary_round_signed.
Qed.

(** ** float64: the order on values that are not NaN *)

Ltac compare_cases :=
  repeat match goal with
  | H : context [Pos.compare_cont Eq ?a ?b] |- _ =>
      change (Pos.compare_cont Eq a b) with (Pos.compare a b) in H
  | |- context [Pos.compare_cont Eq ?a ?b] =>
      change (Pos.compare_cont Eq a b) with (Pos.compare a b)
  end;
  repeat match goal with
  | H : context [Z.compare ?a ?b] |- _ => destruct (Z.compare_spec a b); simpl in H
  | |- context [Z.compare ?a ?b] => destruct (Z.compare_spec a b); simpl
  | H : context [Pos.compare ?a ?b] |- _ => destruct (Pos.compare_spec a b); simpl in H
  | |- context [Pos.compare ?a ?b] => destruct (Pos.compare_spec a b); simpl
  end.

Lemma f_lt_total a b :
  is_nan a = false -> is_nan b = false -> f_lt a b = false -> f_ge a b = true.
Proof.
  unfold f_lt, f_ge, SFltb, SFleb.
  destruct a as [sa|sa| |sa ma ea]; destruct b as [sb|sb| |sb mb eb];
    simpl; intros Ha Hb; try discriminate;
    try (destruct sa); try (destruct sb); simpl; try reflexivity; try discriminate;
    compare_cases; intros; try reflexivity; try discriminate; try lia.
Qed.

Lemma f_ge_trans a b c : f_ge a b = true -> f_ge b c = true -> f_ge a c = true.
Proof.
  unfold f_ge, SFleb.
  destruct a as [sa|sa| |sa ma ea]; destruct b as [sb|sb| |sb mb eb];
    destruct c as [sc|sc| |sc mc ec];
    simpl; try discriminate;
    try (destruct sa); try (destruct sb); try (destruct sc);
    simpl; try reflexivity; try discriminate;
    compare_cases; intros; try reflexivity; try discriminate; try lia.
Qed.

Lemma f_ge_not_lt a b : f_ge a b = true -> f_lt a b = false.
Proof.
  unfold f_lt, f_ge, SFltb, SFleb.
  destruct a as [sa|sa| |sa ma ea]; destruct b as [sb|sb| |sb mb eb];
    simpl; try discriminate;
    try (destruct sa); try (destruct sb); simpl; try reflexivity; try discriminate;
    compare_cases; intros; try reflexivity; try discriminate; try lia.
Qed.

Lemma f_ge_refl a : is_nan a = false -> f_ge a a = true.
Proof.
  unfold f_ge, SFleb.
  destruct a as [sa|sa| |sa ma ea]; simpl; try discriminate;
    try (destruct sa); simpl; try reflexivity;
    compare_cases; intros; try reflexivity; try lia.
Qed.

End GoFacts.

(* ================================================================== *)
(** * Facts about [sort.Sort] and about maps *)
(* ================================================================== *)

Module SortFacts.
Import Go.

Section Sorting.
Variable A : Type.
Variable less : A -> A -> bool.
(** The elements [less] orders well, and the order it induces on them. *)
Variable good : A -> Prop.
Variable before : A -> A -> Prop.
Hypothesis less_before : forall x y, less x y = true -> before x y.
Hypothesis not_less_before :
  forall x y, good x -> good y -> less x y = false -> before y x.
Hypothesis before_trans :
  forall x y z, good x -> good y -> good z ->
                before x y -> before y z -> before x z.

Local Abbreviation after := (Invariants.after A before).

Lemma insertBack_perm x rp : Permutation (insertBack less x rp) (x :: rp).
Proof.
  induction rp as [|y rest IH]; simpl.
  - apply Permutation_refl.
  - destruct (less x y).
    + eapply Permutation_trans; [apply perm_skip, IH|apply perm_swap].
    + apply Permutation_refl.
Qed.

Lemma insertBack_good x rp :
  good x -> Forall good rp -> Forall good (insertBack less x rp).
Proof.
  intros Hx Hrp.
  eapply Permutation_Forall; [apply Permutation_sym, insertBack_perm|].
  constructor; assumption.
Qed.

Lemma insertBack_sorted x rp :
  good x -> Forall good rp ->
  StronglySorted after rp -> StronglySorted after (insertBack less x rp).
Proof.
  intros Hx. induction rp as [|y rest IH]; intros Hg Hs; simpl.
  - constructor; constructor.
  - inversion Hg as [|? ? Hy Hrest]; subst.
    apply StronglySorted_inv in Hs. destruct Hs as [Hs Hall].
    destruct (less x y) eqn:E.
    + constructor; [apply IH; assumption|].
      eapply Permutation_Forall; [apply Permutation_sym, insertBack_perm|].
      constructor; [apply less_before; exact E|exact Hall].
    + constructor; [constructor; assumption|].
      assert (Hyx : before y x) by (apply not_less_before; assumption).
      constructor; [exact Hyx|].
      rewrite Forall_forall in Hall, Hrest |- *.
      intros z Hz. unfold Invariants.after in *.
      apply before_trans with (y := y); auto.
Qed.

Lemma fold_insertBack data : forall rp,
  Forall good data -> Forall good rp -> StronglySorted after rp ->
  let out := fold_left (fun rp x => insertBack less x rp) data rp in
  StronglySorted after out /\ Forall good out /\ Permutation out (rev data ++ rp).
Proof.
  induction data as [|x data IH]; intros rp Hd Hg Hs; simpl.
  - repeat split; auto.
  - inversion Hd as [|? ? Hx Hd']; subst.
    destruct (IH (insertBack less x rp) Hd'
                (insertBack_good x rp Hx Hg) (insertBack_sorted x rp Hx Hg Hs))
      as (S1 & G1 & P1).
    repeat split; auto.
    eapply Permutation_trans; [exact P1|].
    rewrite <- app_assoc. simpl.
    apply Permutation_app_head, insertBack_perm.
Qed.

Lemma StronglySorted_app_inv (R : A -> A -> Prop) l1 l2 :
  StronglySorted R l1 -> StronglySorted R l2 ->
  (forall x y, In x l1 -> In y l2 -> R x y) ->
  StronglySorted R (l1 ++ l2).
Proof.
  induction l1 as [|a l1 IH]; simpl; intros H1 H2 H12; [exact H2|].
  apply StronglySorted_inv in H1. destruct H1 as [H1 Ha].
  constructor.
  - apply IH; auto.
  - apply Forall_app. split; [exact Ha|].
    rewrite Forall_forall. intros y Hy. apply H12; auto.
Qed.

Lemma StronglySorted_rev l :
  StronglySorted after l -> StronglySorted before (rev l).
Proof.
  induction l as [|a l IH]; simpl; intros Hs; [constructor|].
  apply StronglySorted_inv in Hs. destruct Hs as [Hs Ha].
  apply StronglySorted_app_inv.
  - apply IH, Hs.
  - constructor; constructor.
  - intros x y Hx [<-|[]]. rewrite Forall_forall in Ha.
    apply Ha. apply in_rev. exact Hx.
Qed.

(** [sort.Sort] returns its input reordered, each element before all the
    elements that follow it. *)
Lemma sort_Sort_sorted data :
  Forall good data ->
  StronglySorted before (sort_Sort less data) /\
  Permutation (sort_Sort less data) data.
Proof.
  intros Hd. unfold sort_Sort.
  destruct (fold_insertBack data [] Hd (Forall_nil _) (SSorted_nil _))
    as (S1 & _ & P1).
  split.
  - apply StronglySorted_rev, S1.
  - eapply Permutation_trans; [apply Permutation_sym, Permutation_rev|].
    eapply Permutation_trans; [exact P1|].
    rewrite app_nil_r. apply Permutation_sym, Permutation_rev.
Qed.

Lemma StronglySorted_filter (R : A -> A -> Prop) (f : A -> bool) l :
  StronglySorted R l -> StronglySorted R (filter f l).
Proof.
  induction l as [|a l IH]; simpl; intros Hs; [constructor|].
  apply StronglySorted_inv in Hs. destruct Hs as [Hs Ha].
  destruct (f a); [|apply IH, Hs].
  constructor; [apply IH, Hs|].
  rewrite Forall_forall in Ha |- *. intros x Hx.
  apply filter_In in Hx. apply Ha, Hx.
Qed.

Lemma StronglySorted_nth (R : A -> A -> Prop) l :
  StronglySorted R l ->
  forall i j a b, (i < j)%nat ->
    nth_error l i = Some a -> nth_error l j = Some b -> R a b.
Proof.
  induction 1 as [|x l Hs IH Hx]; intros i j a b Hij Hi Hj.
  - destruct i; discriminate.
  - destruct j as [|j]; [lia|]. simpl in Hj.
    destruct i as [|i]; simpl in Hi.
    + injection Hi as <-. rewrite Forall_forall in Hx.
      apply Hx. eapply nth_error_In, Hj.
    + apply (IH i j); auto. lia.
Qed.
End Sorting.

End SortFacts.

Module MapFacts.
Import Go.

Section Lookup.
Variable V : Type.

Lemma lookup_In k (m : list (string * V)) v : lookup k m = Some v -> In (k, v) m.
Proof.
induction m as [|[k' v'] m IH]; simpl; [discriminate|].
destruct (String.eqb_spec k k') as [->|Hne].
- intros [= ->]. left. reflexivity.
- intros Hl. right. apply IH, Hl.
Qed.

Lemma lookup_store_same k v (m : list (string * V)) :
lookup k (store k v m) = Some v.
Proof.
induction m as [|[k' v'] m IH]; simpl.
- rewrite String.eqb_refl. reflexivity.
- destruct (String.eqb_spec k k') as [->|Hne]; simpl.
  + rewrite String.eqb_refl. reflexivity.
  + destruct (String.eqb_spec k k'); [contradiction|exact IH].
Qed.

Lemma lookup_store_other k k' v (m : list (string * V)) :
k' <> k -> lookup k' (store k v m) = lookup k' m.
Proof.
intros Hne. induction m as [|[k0 v0] m IH]; simpl.
- destruct (String.eqb_spec k' k); [contradiction|reflexivity].
- destruct (String.eqb_spec k k0) as [->|Hk]; simpl.
  + destruct (String.eqb_spec k' k0); [contradiction|reflexivity].
  + destruct (String.eqb_spec k' k0); [reflexivity|exact IH].
Qed.

Lemma In_store k v (m : list (string * V)) kv :
In kv (store k v m) -> kv = (k, v) \/ In kv m.
Proof.
induction m as [|[k0 v0] m IH]; simpl.
- intros [<-|[]]. left. reflexivity.
- destruct (String.eqb k k0); simpl.
  + intros [<-|Hin]; [left; reflexivity|right; right; exact Hin].
  + intros [<-|Hin]; [right; left; reflexivity|].
    destruct (IH Hin) as [->|Hm]; [left; reflexivity|right; right; exact Hm].
Qed.
End Lookup.

End MapFacts.

(* ================================================================== *)
(** * The update priority calculator *)
(* ================================================================== *)

Module PriorityFacts.
Import Go K8s Priority PrioritySpec GoFacts SortFacts MapFacts.
Local Open Scope Z_scope.

Section Calculator.
Variable Quantity : Type.
Context `{QuantityOps Quantity}.
Variable evictAfterOOMThreshold : Duration.
Variable GetRecommendationForContainer :
  string -> option (RecommendedPodResources Quantity) ->
  option (RecommendedContainerResources Quantity).

Local Abbreviation getUpdatePriority := (getUpdatePriority GetRecommendationForContainer).
Local Abbreviation containerStep := (containerStep GetRecommendationForContainer).
Local Abbreviation AddPod := (AddPod evictAfterOOMThreshold GetRecommendationForContainer).
Local Abbreviation AddPods := (AddPods evictAfterOOMThreshold GetRecommendationForContainer).
Local Abbreviation quickOOM := (quickOOM evictAfterOOMThreshold).
Local Abbreviation less := (@less Quantity).
Local Abbreviation targets := (targets GetRecommendationForContainer).
Local Abbreviation recommendedContainers := (recommendedContainers GetRecommendationForContainer).
Local Abbreviation totalRequest := (totalRequest GetRecommendationForContainer).
Local Abbreviation totalRecommended := (totalRecommended GetRecommendationForContainer).
Local Abbreviation recommendedResources := (recommendedResources GetRecommendationForContainer).
Local Abbreviation sumOverResources := (sumOverResources GetRecommendationForContainer).
Local Abbreviation getUpdatePriorityIn := (getUpdatePriorityIn GetRecommendationForContainer).
Local Abbreviation target := (target Quantity).
Local Abbreviation targetResource := (@targetResource Quantity).
Local Abbreviation recommendedMilli := (@recommendedMilli Quantity _).
Local Abbreviation requestMilli := (@requestMilli Quantity _).
Local Abbreviation eligible := (eligible evictAfterOOMThreshold).
Local Abbreviation quickOOMKilled := (quickOOMKilled evictAfterOOMThreshold).
Local Abbreviation nonneg := Invariants.nonneg.
Local Abbreviation signed_as := Invariants.signed_as.
Local Abbreviation finite_or_zero := Invariants.finite_or_zero.
Local Abbreviation int64_values := Invariants.int64_values.
Local Abbreviation int64_totals := Invariants.int64_totals.
Local Abbreviation comparable := (Invariants.comparable Quantity).
Local Abbreviation before := (Invariants.before Quantity).
Local Abbreviation visitStep := (@Invariants.visitStep Quantity _).
Local Abbreviation totalsOf := (@Invariants.totalsOf Quantity _).

(** ** The totals are int64 values *)

Lemma int64_values_add_to k v m : int64_values m -> int64_values (add_to k v m).
Proof.
  unfold Invariants.int64_values, add_to. rewrite !Forall_forall. intros Hm kv Hin.
  apply In_store in Hin. destruct Hin as [->|Hin]; [|apply Hm, Hin].
  simpl. apply wrap64_range.
Qed.

Lemma int64_values_lookup0 k m :
  int64_values m -> minInt64 <= lookup0 k m <= maxInt64.
Proof.
  unfold Invariants.int64_values, lookup0. rewrite Forall_forall. intros Hm.
  destruct (lookup k m) as [v|] eqn:E.
  - apply lookup_In in E. apply (Hm _ E).
  - unfold minInt64, maxInt64. lia.
Qed.

Lemma resourceStep_int64 c rr st entry :
  int64_totals st -> int64_totals (resourceStep c rr st entry).
Proof.
  intros [Hreq Hrec]. destruct entry as [r q]. unfold resourceStep.
  destruct (get r (Requests (Resources c))); split; simpl;
    auto using int64_values_add_to.
Qed.

Lemma fold_resourceStep_int64 c rr entries : forall st,
  int64_totals st -> int64_totals (fold_left (resourceStep c rr) entries st).
Proof.
  induction entries as [|e entries IH]; intros st Hst; simpl; [exact Hst|].
  apply IH, resourceStep_int64, Hst.
Qed.

Lemma containerStep_int64 rec st c :
  int64_totals st -> int64_totals (containerStep rec st c).
Proof.
  intros Hst. unfold Priority.containerStep.
  destruct (GetRecommendationForContainer (Container_Name c) rec); [|exact Hst].
  apply fold_resourceStep_int64, Hst.
Qed.

Lemma fold_containerStep_int64 rec cs : forall st,
  int64_totals st -> int64_totals (fold_left (containerStep rec) cs st).
Proof.
  induction cs as [|c cs IH]; intros st Hst; simpl; [exact Hst|].
  apply IH, containerStep_int64, Hst.
Qed.

(** ** The resource difference is never a NaN *)

Lemma diffStep_nonneg totalRequest acc entry :
  int64_values totalRequest -> minInt64 <= snd entry <= maxInt64 ->
  nonneg acc -> nonneg (diffStep totalRequest acc entry).
Proof.
  intros Hreq Hrec Hacc. destruct entry as [r totalRecommended]. unfold diffStep.
  destruct (math_Max_one_positive (lookup0 r totalRequest)
              (int64_values_lookup0 r totalRequest Hreq)) as (m & e & ->).
  apply f_add_nonneg; [exact Hacc|].
  apply f_div_nonneg, math_Abs_nonneg, f_sub_finite_not_nan.
  apply float64_of_int64_not_nan.
Qed.

Lemma fold_diffStep_nonneg totalRequest entries : forall acc,
  int64_values totalRequest -> int64_values entries ->
  nonneg acc -> nonneg (fold_left (diffStep totalRequest) entries acc).
Proof.
  induction entries as [|e entries IH]; intros acc Hreq Hrec Hacc; simpl; [exact Hacc|].
  inversion Hrec; subst. apply IH; auto. apply diffStep_nonneg; auto.
Qed.

Lemma getUpdatePriority_nonneg p rec :
  nonneg (resourceDiff (getUpdatePriority p rec)).
Proof.
  unfold Priority.getUpdatePriority; simpl.
  destruct (fold_containerStep_int64 rec (Containers p) initialState) as [Hreq Hrec].
  { split; constructor. }
  apply fold_diffStep_nonneg; auto. reflexivity.
Qed.

Lemma getUpdatePriority_not_nan p rec :
  is_nan (resourceDiff (getUpdatePriority p rec)) = false.
Proof. apply nonneg_not_nan, getUpdatePriority_nonneg. Qed.

(** ** What [AddPod] does to the list of pods *)

Lemma AddPod_pods calc p rec now :
  AddPod calc p rec now = calc \/
  exists processed annotations,
    recommendationProcessor calc rec (resourcesPolicy calc) (conditions calc) p
      = Ok (processed, annotations) /\
    pods (AddPod calc p rec now) = pods calc ++ [getUpdatePriority p processed].
Proof.
  unfold Priority.AddPod.
  destruct (recommendationProcessor calc rec (resourcesPolicy calc) (conditions calc) p)
    as [[processed annotations]|msg]; [|left; reflexivity].
  match goal with
  | |- context [if ?b then _ else _] => destruct b
  end.
  - destruct (StartTime p) as [startTime|]; [|left; reflexivity].
    destruct (Time_Before now (Time_Add startTime podLifetimeUpdateThreshold));
      [left; reflexivity|].
    destruct (f_lt _ _); [left; reflexivity|].
    right. exists processed, annotations. split; reflexivity.
  - right. exists processed, annotations. split; reflexivity.
Qed.

Lemma AddPod_comparable calc p rec now :
  Forall comparable (pods calc) -> Forall comparable (pods (AddPod calc p rec now)).
Proof.
  intros Hc. destruct (AddPod_pods calc p rec now) as [->|(pr & an & _ & ->)];
    [exact Hc|].
  apply Forall_app. split; [exact Hc|].
  constructor; [|constructor]. apply getUpdatePriority_not_nan.
Qed.

Lemma AddPods_comparable calls : forall calc,
  Forall comparable (pods calc) -> Forall comparable (pods (AddPods calc calls)).
Proof.
  induction calls as [|[[p rec] now] calls IH]; intros calc Hc; simpl; [exact Hc|].
  apply IH, AddPod_comparable, Hc.
Qed.

(** ** The order of [byPriority.Less] *)

Lemma less_before a b : less a b = true -> before a b.
Proof.
  unfold less, Invariants.before.
  destruct (scaleUp a), (scaleUp b); simpl; intros Hl; try discriminate; auto.
  - right. split; [reflexivity|].
    unfold f_gt in Hl. unfold f_ge, SFleb. unfold SFltb in Hl.
    destruct (SFcompare (resourceDiff b) (resourceDiff a)) as [[]|]; try discriminate.
    reflexivity.
  - right. split; [reflexivity|].
    unfold f_gt in Hl. unfold f_ge, SFleb. unfold SFltb in Hl.
    destruct (SFcompare (resourceDiff b) (resourceDiff a)) as [[]|]; try discriminate.
    reflexivity.
Qed.

Lemma not_less_before a b :
  comparable a -> comparable b -> less a b = false -> before b a.
Proof.
  unfold less, Invariants.before, Invariants.comparable. intros Ha Hb.
  destruct (scaleUp a), (scaleUp b); simpl; intros Hl; try discriminate; auto;
    right; (split; [reflexivity|]); apply f_lt_total; assumption.
Qed.

Lemma before_trans a b c :
  comparable a -> comparable b -> comparable c ->
  before a b -> before b c -> before a c.
Proof.
  unfold Invariants.before. intros _ _ _ [[Ha Hb]|[Hab Hge1]] [[Hb' Hc]|[Hbc Hge2]].
  - congruence.
  - left. split; congruence.
  - left. split; congruence.
  - right. split; [congruence|]. eapply f_ge_trans; eassumption.
Qed.

(** ** The sorted list *)

Lemma filter_all_true (A : Type) (f : A -> bool) (l : list A) :
  (forall x, f x = true) -> filter f l = l.
Proof.
  intros Hf. induction l as [|x l IH]; simpl; [reflexivity|].
  rewrite Hf, IH. reflexivity.
Qed.

Lemma priorityOrdered_of_sorted prios :
  StronglySorted before prios -> priorityOrdered prios.
Proof.
  intros Hs i j a b Hij Hi Hj.
  pose proof (StronglySorted_nth _ before prios Hs i j a b Hij Hi Hj) as [[Ha Hb]|[Hab Hge]].
  - split; [intros _; exact Ha|]. intros Heq. congruence.
  - split; [congruence|]. intros _. exact Hge.
Qed.

(** C1: for every set of pods accepted by an UpdatePriorityCalculator (the
    calculator after any sequence of AddPod calls on a new one), the list
    returned by GetSortedPods is the list of the pods of priority records
    that were accepted, ordered so that every pod with scaleUp = true
    precedes every pod with scaleUp = false, and so that among pods with the
    same scaleUp value the resourceDiff does not increase; with no eviction
    admission every accepted pod is in the list. *)
Theorem GetSortedPods_priority_ordered
    (policy : option (PodResourcePolicy Quantity))
    (conds : list VerticalPodAutoscalerCondition)
    (cfg : option UpdateConfig)
    (processor : RecommendationProcessor Quantity)
    (calls : list (Pod Quantity * option (RecommendedPodResources Quantity) * Time))
    (admission : PodEvictionAdmission Quantity) :
  let calc := AddPods (NewUpdatePriorityCalculator policy conds cfg processor) calls in
  exists prios,
    fst (GetSortedPods calc admission) = map (@pod Quantity) prios /\
    (forall prio, In prio prios -> In prio (pods calc)) /\
    (admission = None -> Permutation prios (pods calc)) /\
    priorityOrdered prios.
Proof.
  intros calc.
  assert (Hgood : Forall comparable (pods calc)).
  { apply AddPods_comparable. constructor. }
  destruct (sort_Sort_sorted _ less comparable before less_before not_less_before
              before_trans (pods calc) Hgood) as [Hsorted Hperm].
  unfold GetSortedPods. simpl.
  match goal with
  | |- context [filter ?f (sort_Sort less (pods calc))] =>
      exists (filter f (sort_Sort less (pods calc)))
  end.
  split; [reflexivity|]. split; [|split].
  - intros prio Hin. apply filter_In in Hin. destruct Hin as [Hin _].
    eapply Permutation_in; eassumption.
  - intros ->. simpl.
    rewrite filter_all_true; [exact Hperm|reflexivity].
  - apply priorityOrdered_of_sorted, StronglySorted_filter, Hsorted.
Qed.

(** ** A missing request *)

Lemma resourceStep_flags c rr st entry :
  (st_scaleUp st = true -> st_scaleUp (resourceStep c rr st entry) = true) /\
  (st_outsideRecommendedRange st = true ->
   st_outsideRecommendedRange (resourceStep c rr st entry) = true).
Proof.
  destruct entry as [r q]. unfold resourceStep.
  destruct (get r (Requests (Resources c))); simpl; split; intros Hst; auto.
  - rewrite Hst. destruct (_ >? _); reflexivity.
  - rewrite Hst. destruct (_ || _); reflexivity.
Qed.

Lemma fold_resourceStep_flags c rr entries : forall st,
  (st_scaleUp st = true ->
   st_scaleUp (fold_left (resourceStep c rr) entries st) = true) /\
  (st_outsideRecommendedRange st = true ->
   st_outsideRecommendedRange (fold_left (resourceStep c rr) entries st) = true).
Proof.
  induction entries as [|e entries IH]; intros st; simpl; [tauto|].
  destruct (IH (resourceStep c rr st e)) as [IH1 IH2].
  destruct (resourceStep_flags c rr st e) as [S1 S2]. split; auto.
Qed.

Lemma fold_containerStep_flags rec cs : forall st,
  (st_scaleUp st = true ->
   st_scaleUp (fold_left (containerStep rec) cs st) = true) /\
  (st_outsideRecommendedRange st = true ->
   st_outsideRecommendedRange (fold_left (containerStep rec) cs st) = true).
Proof.
  induction cs as [|c cs IH]; intros st; simpl; [tauto|].
  destruct (IH (containerStep rec st c)) as [IH1 IH2].
  assert (Hc : (st_scaleUp st = true -> st_scaleUp (containerStep rec st c) = true) /\
               (st_outsideRecommendedRange st = true ->
                st_outsideRecommendedRange (containerStep rec st c) = true)).
  { unfold Priority.containerStep.
    destruct (GetRecommendationForContainer (Container_Name c) rec); [|tauto].
    apply fold_resourceStep_flags. }
  destruct Hc as [S1 S2]. split; auto.
Qed.

Lemma missing_request_sets_flags p rec c rr r q :
  In c (Containers p) ->
  GetRecommendationForContainer (Container_Name c) rec = Some rr ->
  In (r, q) (items (Target rr)) ->
  get r (Requests (Resources c)) = None ->
  scaleUp (getUpdatePriority p rec) = true /\
  outsideRecommendedRange (getUpdatePriority p rec) = true.
Proof.
  intros Hc Hrr Hq Hreq. unfold Priority.getUpdatePriority; simpl.
  apply in_split in Hc. destruct Hc as (cs1 & cs2 & ->).
  rewrite fold_left_app. simpl.
  set (st := fold_left (containerStep rec) cs1 initialState).
  apply in_split in Hq. destruct Hq as (es1 & es2 & Hes).
  assert (Hstep : st_scaleUp (containerStep rec st c) = true /\
                  st_outsideRecommendedRange (containerStep rec st c) = true).
  { unfold Priority.containerStep. rewrite Hrr, Hes, fold_left_app. simpl.
    set (st' := fold_left (resourceStep c rr) es1 st).
    assert (Hone : st_scaleUp (resourceStep c rr st' (r, q)) = true /\
                   st_outsideRecommendedRange (resourceStep c rr st' (r, q)) = true).
    { unfold resourceStep. rewrite Hreq. simpl. split; reflexivity. }
    destruct Hone as [H1 H2].
    destruct (fold_resourceStep_flags c rr es2 (resourceStep c rr st' (r, q))).
    split; auto. }
  destruct Hstep as [H1 H2].
  destruct (fold_containerStep_flags rec cs2 (containerStep rec st c)). split; auto.
Qed.

(** C9: if a container of the pod has a recommended target for a resource
    and declares no request for it, getUpdatePriority sets scaleUp and
    outsideRecommendedRange, and AddPod accepts the pod, whatever the time,
    the start time of the pod and MinChangePriority. *)
Theorem missing_request_makes_pod_eligible
    (calc : UpdatePriorityCalculator Quantity) (p : Pod Quantity)
    (rec processed : option (RecommendedPodResources Quantity)) (now : Time)
    (annotations : ContainerToAnnotationsMap)
    (c : Container Quantity) (rr : RecommendedContainerResources Quantity)
    (r : ResourceName) (q : Quantity) :
  recommendationProcessor calc rec (resourcesPolicy calc) (conditions calc) p
    = Ok (processed, annotations) ->
  In c (Containers p) ->
  GetRecommendationForContainer (Container_Name c) processed = Some rr ->
  get r (Target rr) = Some q ->
  get r (Requests (Resources c)) = None ->
  let prio := getUpdatePriority p processed in
  scaleUp prio = true /\
  outsideRecommendedRange prio = true /\
  pods (AddPod calc p rec now) = pods calc ++ [prio].
Proof.
  intros Hproc Hc Hrr Hq Hreq prio.
  destruct (missing_request_sets_flags p processed c rr r q Hc Hrr
              (lookup_In _ r _ q Hq) Hreq) as [Hup Hout].
  split; [exact Hup|]. split; [exact Hout|].
  unfold Priority.AddPod. rewrite Hproc. cbv zeta.
  subst prio. rewrite Hout. reflexivity.
Qed.

(** ** Eligibility *)

Lemma Time_Sub_below t u threshold :
  minInt64 < threshold <= maxInt64 ->
  (Time_Sub t u <? threshold) = (t - u <? threshold).
Proof.
  intros Hth. unfold Time_Sub.
  destruct (Z.ltb_spec (t - u) minInt64); [|destruct (Z.ltb_spec maxInt64 (t - u))].
  - destruct (Z.ltb_spec minInt64 threshold), (Z.ltb_spec (t - u) threshold);
      try reflexivity; lia.
  - destruct (Z.ltb_spec maxInt64 threshold), (Z.ltb_spec (t - u) threshold);
      try reflexivity; lia.
  - reflexivity.
Qed.

Lemma quickOOM_spec (p : Pod Quantity) :
  minInt64 < evictAfterOOMThreshold <= maxInt64 ->
  quickOOM p = true <-> quickOOMKilled p.
Proof.
  intros Hth. unfold Priority.quickOOM, PrioritySpec.quickOOMKilled. split.
  - destruct (ContainerStatuses p) as [|status [|]]; try discriminate.
    destruct (LastTerminationState_Terminated status) as [terminated|] eqn:E;
      try discriminate.
    intros Hq. apply andb_prop in Hq. destruct Hq as [Hreason Hlife].
    rewrite Time_Sub_below in Hlife by exact Hth.
    exists status, terminated. repeat split; auto.
    + apply String.eqb_eq, Hreason.
    + apply Z.ltb_lt, Hlife.
  - intros (status & terminated & -> & -> & Hreason & Hlife).
    rewrite Time_Sub_below by exact Hth.
    apply andb_true_intro. split.
    + apply String.eqb_eq, Hreason.
    + apply Z.ltb_lt, Hlife.
Qed.

Lemma app_one_neq (A : Type) (l : list A) (x : A) : l <> l ++ [x].
Proof.
  intros Heq. apply (f_equal (@List.length A)) in Heq.
  rewrite length_app in Heq. simpl in Heq. lia.
Qed.

(** C2: when the processor applies the recommendation without error, AddPod
    appends the pod to the candidate list iff it is outside the recommended
    range, or was quickly OOM killed (exactly one container status, last
    terminated with reason OOMKilled after a lifetime below the threshold),
    or has a start time at least 12 hours before now and a resourceDiff at
    least MinChangePriority; in every other case the calculator is
    unchanged. MinChangePriority is a number (not a NaN) and the threshold is
    a Duration above the least one. *)
Theorem AddPod_accepts_iff_eligible
    (calc : UpdatePriorityCalculator Quantity) (p : Pod Quantity)
    (rec processed : option (RecommendedPodResources Quantity)) (now : Time)
    (annotations : ContainerToAnnotationsMap) :
  recommendationProcessor calc rec (resourcesPolicy calc) (conditions calc) p
    = Ok (processed, annotations) ->
  is_nan (MinChangePriority (config calc)) = false ->
  minInt64 < evictAfterOOMThreshold <= maxInt64 ->
  let prio := getUpdatePriority p processed in
  (pods (AddPod calc p rec now) = pods calc ++ [prio] <->
   eligible (MinChangePriority (config calc)) p now prio) /\
  (AddPod calc p rec now = calc <->
   ~ eligible (MinChangePriority (config calc)) p now prio).
Proof.
  intros Hproc Hmin Hth prio.
  pose proof (quickOOM_spec p Hth) as Hoom.
  pose proof (getUpdatePriority_not_nan p processed) as Hnan. fold prio in Hnan.
  assert (Hcases :
    (eligible (MinChangePriority (config calc)) p now prio /\
     pods (AddPod calc p rec now) = pods calc ++ [prio]) \/
    (~ eligible (MinChangePriority (config calc)) p now prio /\
     AddPod calc p rec now = calc)).
  { unfold Priority.AddPod. rewrite Hproc. cbv zeta. fold prio. clearbody prio.
    unfold PrioritySpec.eligible, longLived.
    destruct (outsideRecommendedRange prio) eqn:Eout; simpl.
    { left. split; [left; reflexivity|reflexivity]. }
    destruct (quickOOM p) eqn:Eoom; simpl.
    { left. split; [right; left; apply Hoom; reflexivity|reflexivity]. }
    assert (Hnoom : ~ quickOOMKilled p).
    { intros Hk. apply Hoom in Hk. congruence. }
    destruct (StartTime p) as [startTime|] eqn:Estart.
    2:{ right. split; [|reflexivity].
        intros [Hf|[Hk|[(s & Hs & _) _]]]; [discriminate|tauto|discriminate]. }
    unfold Time_Before, Time_Add.
    destruct (Z.ltb_spec now (startTime + podLifetimeUpdateThreshold)) as [Hyoung|Hold].
    { right. split; [|reflexivity].
      intros [Hf|[Hk|[(s & Hs & Hle) _]]]; [discriminate|tauto|].
      injection Hs as <-. lia. }
    destruct (f_lt (resourceDiff prio) (MinChangePriority (config calc))) eqn:Elt.
    { right. split; [|reflexivity].
      intros [Hf|[Hk|[_ Hge]]]; [discriminate|tauto|].
      apply f_ge_not_lt in Hge. congruence. }
    left. split; [|reflexivity].
    right. right. split; [exists startTime; split; [reflexivity|exact Hold]|].
    apply f_lt_total; assumption. }
  destruct Hcases as [[Hel Hadd]|[Hnel Hsame]].
  - split; split.
    + intros _. exact Hel.
    + intros _. exact Hadd.
    + intros Hx Hn. rewrite Hx in Hadd. exact (app_one_neq _ _ _ Hadd).
    + intros Hn. contradiction.
  - split; split.
    + intros Hx. rewrite Hsame in Hx. exfalso. exact (app_one_neq _ _ _ Hx).
    + intros Hx. contradiction.
    + intros _. exact Hnel.
    + intros _. exact Hsame.
Qed.

(** ** The resource difference, on the totals *)

Lemma fold_resourceStep_visit c rr entries : forall st,
  fold_left (resourceStep c rr) entries st =
  fold_left visitStep (map (fun entry => ((c, rr), entry)) entries) st.
Proof.
  induction entries as [|e entries IH]; intros st; simpl; [reflexivity|].
  rewrite IH. reflexivity.
Qed.

Lemma fold_containerStep_visit rec cs : forall st,
  fold_left (containerStep rec) cs st =
  fold_left visitStep
    (flat_map (fun crr => map (fun entry => (crr, entry)) (items (Target (snd crr))))
       (flat_map (fun c =>
                    match GetRecommendationForContainer (Container_Name c) rec with
                    | Some rr => [(c, rr)]
                    | None => []
                    end) cs)) st.
Proof.
  induction cs as [|c cs IH]; intros st; simpl; [reflexivity|].
  rewrite IH. unfold Priority.containerStep.
  destruct (GetRecommendationForContainer (Container_Name c) rec) as [rr|]; simpl;
    [|reflexivity].
  rewrite fold_left_app, fold_resourceStep_visit. reflexivity.
Qed.

Lemma keys_store (V : Type) k (v : V) m :
  keys (store k v m) =
  if existsb (String.eqb k) (keys m) then keys m else keys m ++ [k].
Proof.
  unfold keys. induction m as [|[k' v'] m IH]; simpl; [reflexivity|].
  destruct (String.eqb_spec k k') as [->|Hne]; simpl.
  - reflexivity.
  - rewrite IH. destruct (existsb (String.eqb k) (map fst m)); reflexivity.
Qed.

Lemma existsb_eqb_In k (l : list string) :
  existsb (String.eqb k) l = true <-> In k l.
Proof.
  rewrite existsb_exists. split.
  - intros (x & Hx & Heq). apply String.eqb_eq in Heq. subst. exact Hx.
  - intros Hin. exists k. split; [exact Hin|apply String.eqb_refl].
Qed.

Lemma NoDup_keys_store (V : Type) k (v : V) m :
  NoDup (keys m) -> NoDup (keys (store k v m)).
Proof.
  intros Hnd. rewrite keys_store.
  destruct (existsb (String.eqb k) (keys m)) eqn:E; [exact Hnd|].
  apply NoDup_app; [exact Hnd|repeat constructor; intros []|].
  intros x Hx [<-|[]]. apply existsb_eqb_In in Hx. congruence.
Qed.

Lemma lookup0_add_to r k v m :
  lookup0 r (add_to k v m) =
  if String.eqb r k then wrap64 (lookup0 k m + v) else lookup0 r m.
Proof.
  unfold lookup0 at 1, add_to.
  destruct (String.eqb_spec r k) as [->|Hne].
  - rewrite lookup_store_same. reflexivity.
  - rewrite lookup_store_other by exact Hne. reflexivity.
Qed.

Lemma sumZ_app l1 l2 : sumZ (l1 ++ l2) = sumZ l1 + sumZ l2.
Proof. induction l1 as [|x l1 IH]; simpl; [reflexivity|rewrite IH; lia]. Qed.

Lemma about_snoc r (ts : list target) t :
  about r (ts ++ [t]) =
  about r ts ++ (if String.eqb (targetResource t) r then [t] else []).
Proof. unfold about. rewrite filter_app. reflexivity. Qed.

Lemma totalsOf_initial : totalsOf [] initialState.
Proof. repeat split; constructor. Qed.

Lemma totalsOf_step ts st t :
  totalsOf ts st -> totalsOf (ts ++ [t]) (visitStep st t).
Proof.
  intros (Hkeys & Hnd & Hrec & Hreq).
  destruct t as [[c rr] [r0 q]].
  assert (Hrec' : forall r,
    lookup0 r (add_to r0 (MilliValue q) (totalRecommendedPerResource st)) =
    wrap64 (sumZ (map recommendedMilli (about r (ts ++ [(c, rr, (r0, q))]))))).
  { intros r. rewrite lookup0_add_to, about_snoc. unfold targetResource; simpl.
    rewrite String.eqb_sym.
    destruct (String.eqb_spec r0 r) as [->|Hne].
    - rewrite map_app, sumZ_app, Hrec, wrap64_add_l. simpl.
      replace (recommendedMilli (c, rr, (r, q))) with (MilliValue q) by reflexivity.
      f_equal. lia.
    - rewrite app_nil_r. apply Hrec. }
  assert (Hkeys' :
    keys (add_to r0 (MilliValue q) (totalRecommendedPerResource st)) =
    firstOccurrences (map targetResource (ts ++ [(c, rr, (r0, q))]))).
  { unfold add_to. rewrite keys_store, Hkeys, map_app.
    unfold firstOccurrences. rewrite fold_left_app. reflexivity. }
  assert (Hnd' :
    NoDup (keys (add_to r0 (MilliValue q) (totalRecommendedPerResource st)))).
  { apply NoDup_keys_store, Hnd. }
  unfold Invariants.visitStep, resourceStep; simpl.
  destruct (get r0 (Requests (Resources c))) as [request|] eqn:Ereq; simpl;
    (split; [exact Hkeys'|]; split; [exact Hnd'|]; split; [exact Hrec'|]).
  - intros r. simpl. rewrite lookup0_add_to, about_snoc. unfold targetResource; simpl.
    rewrite String.eqb_sym.
    destruct (String.eqb_spec r0 r) as [->|Hne].
    + rewrite map_app, sumZ_app, Hreq, wrap64_add_l. simpl.
      replace (requestMilli (c, rr, (r, q))) with (MilliValue request)
        by (unfold PrioritySpec.requestMilli, PrioritySpec.targetResource; simpl;
            rewrite Ereq; reflexivity).
      f_equal. lia.
    + rewrite app_nil_r. apply Hreq.
  - intros r. simpl. rewrite about_snoc. unfold targetResource; simpl.
    destruct (String.eqb_spec r0 r) as [->|Hne].
    + rewrite map_app, sumZ_app, Hreq. simpl.
      replace (requestMilli (c, rr, (r, q))) with 0
        by (unfold PrioritySpec.requestMilli, PrioritySpec.targetResource; simpl;
            rewrite Ereq; reflexivity).
      f_equal. lia.
    + rewrite app_nil_r. apply Hreq.
Qed.

Lemma totalsOf_fold ts : forall ts0 st,
  totalsOf ts0 st -> totalsOf (ts0 ++ ts) (fold_left visitStep ts st).
Proof.
  induction ts as [|t ts IH]; intros ts0 st Hst; simpl.
  - rewrite app_nil_r. exact Hst.
  - replace (ts0 ++ t :: ts) with ((ts0 ++ [t]) ++ ts)
      by (rewrite <- app_assoc; reflexivity).
    apply IH, totalsOf_step, Hst.
Qed.

Lemma NoDup_keys_lookup (V : Type) (m : list (string * V)) k v :
  NoDup (keys m) -> In (k, v) m -> lookup k m = Some v.
Proof.
  unfold keys. induction m as [|[k' v'] m IH]; simpl; intros Hnd Hin; [contradiction|].
  inversion Hnd as [|? ? Hnotin Hnd']; subst.
  destruct Hin as [[= -> ->]|Hin].
  - rewrite String.eqb_refl. reflexivity.
  - destruct (String.eqb_spec k k') as [->|Hne]; [|apply IH; assumption].
    exfalso. apply Hnotin. apply (in_map fst) in Hin. exact Hin.
Qed.

(** The last loop, read through the keys of the map it ranges over. *)
Lemma fold_diffStep_keys totalRequest (m : list (ResourceName * Z)) :
  NoDup (keys m) ->
  forall entries acc,
    (forall kv, In kv entries -> In kv m) ->
    fold_left (diffStep totalRequest) entries acc =
    fold_left (fun sum r =>
                 f_add sum (relativeDiff (lookup0 r totalRequest) (lookup0 r m)))
              (keys entries) acc.
Proof.
  intros Hnd. induction entries as [|[k v] entries IH]; intros acc Hin; simpl;
    [reflexivity|].
  rewrite IH by (intros kv Hkv; apply Hin; right; exact Hkv).
  replace (lookup0 k m) with v; [reflexivity|].
  unfold lookup0.
  rewrite (NoDup_keys_lookup _ m k v Hnd (Hin _ (or_introl eq_refl))).
  reflexivity.
Qed.

Lemma fold_left_ext_in (A B : Type) (f g : A -> B -> A) (l : list B) :
  (forall a b, In b l -> f a b = g a b) ->
  forall a, fold_left f l a = fold_left g l a.
Proof.
  induction l as [|b l IH]; intros Hfg a; simpl; [reflexivity|].
  rewrite Hfg by (left; reflexivity).
  apply IH. intros a' b' Hb'. apply Hfg. right. exact Hb'.
Qed.

(** The run of [getUpdatePriority] that the other theorems are about visits
    the map in the order of first insertion. *)
Lemma getUpdatePriority_insertion_order
    (p : Pod Quantity) (rec : option (RecommendedPodResources Quantity)) :
  getUpdatePriority p rec
  = getUpdatePriorityIn
      (totalRecommendedPerResource (fold_left (containerStep rec) (Containers p) initialState))
      p rec.
Proof. reflexivity. Qed.

(** C3 (as amended): in whichever order the last loop of getUpdatePriority
    visits the entries of totalRecommendedPerResource, the resources visited
    are the resources that have a recommended target in some container, each
    once, and the resourceDiff computed is the float64 sum, from +0 and in
    the order of the visit, of |max(request, 1) - recommended| /
    max(request, 1) over them. Here recommended is the int64 total (wrapping
    on overflow), in thousandths, of the recommended targets of the
    resource, and request the int64 total of the requests of the resource
    of the containers that have a recommended target of it; a container
    without such a target does not count, and a missing request adds 0. *)
Theorem resourceDiff_on_totals
    (p : Pod Quantity) (rec : option (RecommendedPodResources Quantity))
    (visited : list (ResourceName * Z)) :
  Permutation visited
    (totalRecommendedPerResource
       (fold_left (containerStep rec) (Containers p) initialState)) ->
  Permutation (keys visited) (recommendedResources p rec) /\
  resourceDiff (getUpdatePriorityIn visited p rec)
  = sumOverResources p rec (keys visited).
Proof.
  intros Hvisited.
  unfold Priority.getUpdatePriorityIn, PrioritySpec.sumOverResources. cbn [resourceDiff].
  revert Hvisited. rewrite fold_containerStep_visit.
  fold (recommendedContainers p rec). fold (targets p rec).
  destruct (totalsOf_fold (targets p rec) [] initialState totalsOf_initial)
    as (Hkeys & Hnd & Hrec & Hreq).
  simpl in Hkeys, Hnd, Hrec, Hreq.
  set (st := fold_left visitStep (targets p rec) initialState) in *.
  intros Hvisited. split.
  - unfold PrioritySpec.recommendedResources. rewrite <- Hkeys.
    unfold keys. apply Permutation_map. exact Hvisited.
  - rewrite (fold_diffStep_keys (totalRequestPerResource st)
               (totalRecommendedPerResource st) Hnd)
      by (intros kv Hkv; apply (Permutation_in _ Hvisited); exact Hkv).
    apply fold_left_ext_in. intros sum r _.
    rewrite Hrec, Hreq. reflexivity.
Qed.

End Calculator.

(** ** On the sample pods *)

(** C1, on scenario 4 of the specification: [P2] is added first and [P1]
    second, and the sorted list is [P1; P2]. *)
Lemma GetSortedPods_scenario_4 :
  fst (GetSortedPods
         (AddPods evictAfterOOMThreshold_default Samples.lookupRecommendation
            Samples.defaultCalculator
            [(Samples.P2, Samples.rec2, Samples.oneDay);
             (Samples.P1, Samples.rec1, Samples.oneDay)])
         None)
  = [Samples.P1; Samples.P2].
Proof. vm_compute. reflexivity. Qed.

Lemma missing_request_makes_pod_eligible_witness :
  scaleUp (getUpdatePriority Samples.lookupRecommendation Samples.podNoRequest Samples.rec5)
    = true /\
  outsideRecommendedRange
    (getUpdatePriority Samples.lookupRecommendation Samples.podNoRequest Samples.rec5)
    = true /\
  pods (AddPod evictAfterOOMThreshold_default Samples.lookupRecommendation
          Samples.defaultCalculator Samples.podNoRequest Samples.rec5 0)
  = pods Samples.defaultCalculator ++
    [getUpdatePriority Samples.lookupRecommendation Samples.podNoRequest Samples.rec5].
Proof.
  apply (missing_request_makes_pod_eligible Samples.MilliQuantity
           evictAfterOOMThreshold_default Samples.lookupRecommendation
           Samples.defaultCalculator Samples.podNoRequest Samples.rec5 Samples.rec5 0 []
           (Samples.container "app" None None)
           (Samples.recommend "app" None (Samples.cpu 5) None)
           ResourceCPU 5).
  - reflexivity.
  - simpl. left. reflexivity.
  - reflexivity.
  - reflexivity.
  - reflexivity.
Defined.

Lemma AddPod_accepts_iff_eligible_witness :
  (pods (AddPod evictAfterOOMThreshold_default Samples.lookupRecommendation
           Samples.defaultCalculator Samples.P2 Samples.rec2 Samples.oneDay)
   = pods Samples.defaultCalculator ++
     [getUpdatePriority Samples.lookupRecommendation Samples.P2 Samples.rec2] <->
   eligible evictAfterOOMThreshold_default
     (MinChangePriority (config Samples.defaultCalculator)) Samples.P2 Samples.oneDay
     (getUpdatePriority Samples.lookupRecommendation Samples.P2 Samples.rec2)) /\
  (AddPod evictAfterOOMThreshold_default Samples.lookupRecommendation
     Samples.defaultCalculator Samples.P2 Samples.rec2 Samples.oneDay
   = Samples.defaultCalculator <->
   ~ eligible evictAfterOOMThreshold_default
       (MinChangePriority (config Samples.defaultCalculator)) Samples.P2 Samples.oneDay
       (getUpdatePriority Samples.lookupRecommendation Samples.P2 Samples.rec2)).
Proof.
  apply (AddPod_accepts_iff_eligible Samples.MilliQuantity
           evictAfterOOMThreshold_default Samples.lookupRecommendation
           Samples.defaultCalculator Samples.P2 Samples.rec2 Samples.rec2
           Samples.oneDay []).
  - reflexivity.
  - reflexivity.
  - unfold minInt64, maxInt64, evictAfterOOMThreshold_default, Minute, Second. lia.
Defined.

(** On the sample above the pod is eligible, by its age and its difference
    of exactly 10%, and it is added. *)
Lemma AddPod_scenario_P2 :
  resourceDiff (getUpdatePriority Samples.lookupRecommendation Samples.P2 Samples.rec2)
    = defaultUpdateThreshold /\
  outsideRecommendedRange
    (getUpdatePriority Samples.lookupRecommendation Samples.P2 Samples.rec2) = false /\
  List.length (pods (AddPod evictAfterOOMThreshold_default Samples.lookupRecommendation
                  Samples.defaultCalculator Samples.P2 Samples.rec2 Samples.oneDay)) = 1%nat /\
  List.length (pods (AddPod evictAfterOOMThreshold_default Samples.lookupRecommendation
                  Samples.defaultCalculator Samples.P2 Samples.rec2 Hour)) = 0%nat.
Proof. vm_compute. repeat split. Qed.

(** C3 on three resources, visited memory, storage, cpu where they were
    inserted cpu, memory, storage. *)
Lemma resourceDiff_on_totals_witness :
  Permutation (keys MoreSamples.visitedThree)
    (recommendedResources Samples.lookupRecommendation
       MoreSamples.podThree MoreSamples.recThree) /\
  resourceDiff (getUpdatePriorityIn Samples.lookupRecommendation MoreSamples.visitedThree
                  MoreSamples.podThree MoreSamples.recThree)
  = sumOverResources Samples.lookupRecommendation MoreSamples.podThree MoreSamples.recThree
      (keys MoreSamples.visitedThree).
Proof.
  apply (@resourceDiff_on_totals Samples.MilliQuantity _ Samples.lookupRecommendation
           MoreSamples.podThree MoreSamples.recThree MoreSamples.visitedThree).
  apply Permutation_sym.
  exact (Permutation_cons_append
           [(ResourceMemory, 1200); ("ephemeral-storage"%string, 1300)]
           (ResourceCPU, 1100)).
Defined.

(** The order of the visit shows in the last bit: on the same pod the sum
    is 0.6 when memory, storage and cpu are visited in this order, and the
    next float64 above it in the order cpu, memory, storage. *)
Example resourceDiff_depends_on_the_order :
  resourceDiff (getUpdatePriorityIn Samples.lookupRecommendation MoreSamples.visitedThree
                  MoreSamples.podThree MoreSamples.recThree)
    = f_div (float64_of_int64 6) (float64_of_int64 10) /\
  resourceDiff (getUpdatePriority Samples.lookupRecommendation
                  MoreSamples.podThree MoreSamples.recThree)
    = S754_finite false 5404319552844596 (-53) /\
  f_eq (resourceDiff (getUpdatePriorityIn Samples.lookupRecommendation
                        MoreSamples.visitedThree MoreSamples.podThree MoreSamples.recThree))
       (resourceDiff (getUpdatePriority Samples.lookupRecommendation
                        MoreSamples.podThree MoreSamples.recThree))
    = false.
Proof. vm_compute. repeat split. Qed.

(** A container without a recommendation does not count in the totals: with
    a requesting 100m and recommended 200m, and b requesting 1000m and not
    recommended, the request total is 100m and the difference
    |100 - 200| / 100 = 1. *)
Example resourceDiff_ignores_container_without_target :
  totalRequest Samples.lookupRecommendation MoreSamples.podPartly MoreSamples.recPartly
    ResourceCPU = 100 /\
  resourceDiff (getUpdatePriority Samples.lookupRecommendation
                  MoreSamples.podPartly MoreSamples.recPartly) = f_one.
Proof. vm_compute. repeat split. Qed.

(** C3, as the claim states it, fails. With no request and a recommended
    target of 5m the code computes |1 - 5| / 1 = 4 where the claimed sum is
    |0 - 5| / max(0, 1) = 5. With two containers, one requesting 100m and
    recommended 200m, the other requesting 200m and recommended 100m, the
    code compares the totals, 300m against 300m, and computes 0 where the
    claimed sum over the containers is 100/100 + 100/200 = 1.5. *)
Lemma resourceDiff_differs_from_sum_over_containers :
  (resourceDiff (getUpdatePriority Samples.lookupRecommendation
                   Samples.podNoRequest Samples.rec5) = float64_of_int64 4 /\
   specResourceDiff Samples.lookupRecommendation Samples.podNoRequest Samples.rec5
     = float64_of_int64 5) /\
  (resourceDiff (getUpdatePriority Samples.lookupRecommendation
                   Samples.podTwo Samples.recTwo) = f_zero /\
   specResourceDiff Samples.lookupRecommendation Samples.podTwo Samples.recTwo
     = f_div (float64_of_int64 3) (float64_of_int64 2)) /\
  f_eq (resourceDiff (getUpdatePriority Samples.lookupRecommendation
                        Samples.podNoRequest Samples.rec5))
       (specResourceDiff Samples.lookupRecommendation Samples.podNoRequest Samples.rec5)
    = false /\
  f_eq (resourceDiff (getUpdatePriority Samples.lookupRecommendation
                        Samples.podTwo Samples.recTwo))
       (specResourceDiff Samples.lookupRecommendation Samples.podTwo Samples.recTwo)
    = false.
Proof. vm_compute. repeat split. Qed.

End PriorityFacts.

(* ================================================================== *)
(** * The admission server *)
(* ================================================================== *)

Module AdmissionFacts.
Import Go K8s Admission AdmissionSpec GoFacts MapFacts.
Local Open Scope string_scope.
Local Open Scope list_scope.

(** ** Strings and paths *)

Lemma append_cancel_l (a b c : string) : (a ++ b = a ++ c)%string -> b = c.
Proof.
  induction a as [|x a IH]; simpl; intros Heq; [exact Heq|].
  injection Heq as Heq. apply IH, Heq.
Qed.

Lemma append_assoc (a b c : string) : (a ++ (b ++ c) = (a ++ b) ++ c)%string.
Proof. induction a as [|x a IH]; simpl; [reflexivity|]. rewrite IH. reflexivity. Qed.

Lemma append_empty_r (a : string) : (a ++ "")%string = a.
Proof. induction a as [|x a IH]; simpl; [reflexivity|]. rewrite IH. reflexivity. Qed.

Lemma isDigit_digit_char d : (d < 10)%nat -> isDigit (digit_char d) = true.
Proof.
  intros Hd. unfold isDigit, digit_char.
  rewrite nat_ascii_embedding by lia.
  apply andb_true_intro. split; apply Nat.leb_le; lia.
Qed.

Lemma dropDigits_itoa_aux fuel : forall n acc,
  exists digits,
    itoa_aux fuel n acc = (digits ++ acc)%string /\
    forall rest, dropDigits (digits ++ rest) = dropDigits rest.
Proof.
  induction fuel as [|fuel IH]; intros n acc; cbn [itoa_aux].
  - exists "". split; reflexivity.
  - assert (Hd : isDigit (digit_char (n mod 10)) = true).
    { apply isDigit_digit_char. apply Nat.mod_upper_bound. lia. }
    destruct (n / 10 =? 0)%nat.
    + exists (String (digit_char (n mod 10)) ""). split; [reflexivity|].
      intros rest. cbn [append dropDigits]. rewrite Hd. reflexivity.
    + destruct (IH (n / 10)%nat (String (digit_char (n mod 10)) acc))
        as (digits & Heq & Hdrop).
      exists (digits ++ String (digit_char (n mod 10)) "")%string. split.
      * rewrite Heq. rewrite <- append_assoc. reflexivity.
      * intros rest. rewrite <- append_assoc. rewrite Hdrop.
        cbn [append dropDigits]. rewrite Hd. reflexivity.
Qed.

(** After the index of a path comes what follows it. *)
Lemma dropDigits_itoa i rest : dropDigits (itoa i ++ rest) = dropDigits rest.
Proof.
  unfold itoa. destruct (dropDigits_itoa_aux (S i) i "") as (digits & Heq & Hdrop).
  rewrite Heq, append_empty_r. apply Hdrop.
Qed.

Lemma requests_path_not_underLimits i resource :
  underLimits ("/spec/containers/" ++ itoa i ++ "/resources/requests/" ++ resource) = false.
Proof.
  unfold underLimits. cbn [stripPrefix append Ascii.eqb Bool.eqb].
  rewrite dropDigits_itoa. reflexivity.
Qed.

Section Server.
Variable Quantity : Type.
Context `{QuantityOps Quantity}.
Variable json_Marshal : list (patchRecord Quantity) -> result string.
Variable json_Marshal_review : AdmissionResponse -> result string.

Local Abbreviation admit_ := (admit_ json_Marshal).
Local Abbreviation Serve := (Serve json_Marshal json_Marshal_review).
Local Abbreviation refused := (@Invariants.refused Quantity _).
Local Abbreviation belowResources := (Invariants.belowResources Quantity).

(** ** Validation *)

Lemma found_In mode modes : found mode modes = true <-> In mode modes.
Proof.
  unfold found. rewrite existsb_exists. split.
  - intros (x & Hx & Heq). apply String.eqb_eq in Heq. subst. exact Hx.
  - intros Hin. exists mode. split; [exact Hin|apply String.eqb_refl].
Qed.

Lemma found_false mode modes : found mode modes = false <-> ~ In mode modes.
Proof.
  rewrite <- found_In. destruct (found mode modes); split.
  - discriminate.
  - intros Hx. exfalso. apply Hx. reflexivity.
  - intros _ Hy. discriminate.
  - reflexivity.
Qed.

Lemma validateMinMax_fails (maxAllowed : ResourceList Quantity) minAllowed :
  (exists err, validateMinMax maxAllowed minAllowed = Some err) <->
  (exists resource min max,
     In (resource, min) minAllowed /\
     get resource maxAllowed = Some max /\ Cmp max min = Lt).
Proof.
  induction minAllowed as [|[resource min] rest IH]; simpl.
  - split; [intros (err & Herr); discriminate|intros (r & mn & mx & [] & _)].
  - destruct (get resource maxAllowed) as [max|] eqn:Eget.
    + destruct (Cmp max min) eqn:Ecmp.
      * rewrite IH. split.
        -- intros (r & mn & mx & Hin & Hg & Hc). exists r, mn, mx. auto.
        -- intros (r & mn & mx & [Heq|Hin] & Hg & Hc).
           ++ injection Heq as <- <-. congruence.
           ++ exists r, mn, mx. auto.
      * split; [|eauto].
        intros _. exists resource, min, max. auto.
      * rewrite IH. split.
        -- intros (r & mn & mx & Hin & Hg & Hc). exists r, mn, mx. auto.
        -- intros (r & mn & mx & [Heq|Hin] & Hg & Hc).
           ++ injection Heq as <- <-. congruence.
           ++ exists r, mn, mx. auto.
    + rewrite IH. split.
      * intros (r & mn & mx & Hin & Hg & Hc). exists r, mn, mx. auto.
      * intros (r & mn & mx & [Heq|Hin] & Hg & Hc).
        -- injection Heq as <- <-. congruence.
        -- exists r, mn, mx. auto.
Qed.

Lemma validateContainerPolicies_fails (policies : list (ContainerResourcePolicy Quantity)) :
  (exists err, validateContainerPolicies policies = Some err) <->
  (exists policy, In policy policies /\ refused policy).
Proof.
  induction policies as [|policy rest IH]; cbn [validateContainerPolicies].
  - split; [intros (err & Herr); discriminate|intros (p & [] & _)].
  - destruct (String.eqb_spec (Policy_ContainerName policy) "") as [Hname|Hname].
    { split; [|eauto]. intros _. exists policy. split; [left; reflexivity|left; exact Hname]. }
    assert (Hmode :
      (exists mode, Mode policy = Some mode /\ found mode possibleScalingModes = false) \/
      (forall mode, Mode policy = Some mode -> found mode possibleScalingModes = true)).
    { destruct (Mode policy) as [mode|]; [|right; intros ? [=]].
      destruct (found mode possibleScalingModes) eqn:Ef.
      - right. intros ? [= <-]. exact Ef.
      - left. exists mode. auto. }
    destruct Hmode as [(mode & Hm & Hf)|Hmode].
    { rewrite Hm, Hf. split; [|eauto]. intros _. exists policy.
      split; [left; reflexivity|]. right. left. exists mode.
      split; [exact Hm|]. apply found_false, Hf. }
    assert (Hnone :
      match Mode policy with
      | Some mode =>
          if found mode possibleScalingModes then None
          else Some ("unexpected Mode value " ++ mode)%string
      | None => None
      end = None).
    { destruct (Mode policy) as [mode|]; [|reflexivity].
      rewrite (Hmode mode eq_refl). reflexivity. }
    rewrite Hnone.
    destruct (validateMinMax (MaxAllowed policy) (items (MinAllowed policy)))
      as [err|] eqn:Emm.
    { split; [|eauto]. intros _. exists policy. split; [left; reflexivity|].
      right. right. apply validateMinMax_fails. eauto. }
    rewrite IH. split.
    + intros (p & Hin & Hp). exists p. split; [right; exact Hin|exact Hp].
    + intros (p & [<-|Hin] & Hp); [|eauto].
      exfalso. destruct Hp as [Hp|[(mode & Hm & Hnot)|Hp]].
      * contradiction.
      * assert (Hf : found mode possibleScalingModes = false)
          by (apply found_false; exact Hnot).
        rewrite (Hmode mode Hm) in Hf. discriminate.
      * apply validateMinMax_fails in Hp. destruct Hp as (err & Herr). congruence.
Qed.

(** The checks of [validateVPA] that follow the one of the update policy. *)
Lemma validate_rest (vpa : VerticalPodAutoscaler Quantity) (isCreate : bool) :
  (exists err,
     match
       match ResourcePolicy (Spec vpa) with
       | Some resourcePolicy => validateContainerPolicies (ContainerPolicies resourcePolicy)
       | None => None
       end
     with
     | Some err => Some err
     | None =>
         match TargetRef (Spec vpa) with
         | None =>
             if isCreate then
               Some ("TargetRef is required. If you're using v1beta1 version " ++
                     "of the API, please migrate to v1.")%string
             else None
         | Some _ => None
         end
     end = Some err) <->
  ((exists resourcePolicy policy,
      ResourcePolicy (Spec vpa) = Some resourcePolicy /\
      In policy (ContainerPolicies resourcePolicy) /\
      (Policy_ContainerName policy = "" \/
       (exists mode, Mode policy = Some mode /\
                     ~ In mode [ContainerScalingModeAuto; ContainerScalingModeOff]) \/
       maxBelowMin policy)) \/
   (isCreate = true /\ TargetRef (Spec vpa) = None)).
Proof.
  assert (Htarget :
    (exists err,
       match TargetRef (Spec vpa) with
       | None =>
           if isCreate then
             Some ("TargetRef is required. If you're using v1beta1 version " ++
                   "of the API, please migrate to v1.")%string
           else None
       | Some _ => None
       end = Some err) <-> (isCreate = true /\ TargetRef (Spec vpa) = None)).
  { destruct (TargetRef (Spec vpa)); [|destruct isCreate].
    - split; [intros (e & He); discriminate|intros [_ Hx]; discriminate].
    - split; [auto|eauto].
    - split; [intros (e & He); discriminate|intros [Hx _]; discriminate]. }
  destruct (ResourcePolicy (Spec vpa)) as [resourcePolicy|] eqn:Erp.
  - destruct (validateContainerPolicies (ContainerPolicies resourcePolicy)) as [err|] eqn:Ev.
    + split; [|eauto]. intros _. left.
      destruct (proj1 (validateContainerPolicies_fails _) (ex_intro _ err Ev))
        as (policy & Hin & Hp).
      exists resourcePolicy, policy. auto.
    + rewrite Htarget. split; [auto|].
      intros [(rp & policy & [= <-] & Hin & Hp)|Hx]; [|exact Hx].
      exfalso.
      destruct (proj2 (validateContainerPolicies_fails (ContainerPolicies resourcePolicy))
                  (ex_intro _ policy (conj Hin Hp))) as (err & Herr).
      congruence.
  - rewrite Htarget. split; [auto|].
    intros [(rp & policy & [=] & _)|Hx]; exact Hx.
Qed.

(** [validateVPA] returns an error exactly on an invalid config. *)
Lemma validateVPA_fails (vpa : VerticalPodAutoscaler Quantity) (isCreate : bool) :
  (exists err, validateVPA vpa isCreate = Some err) <-> invalidConfig vpa isCreate.
Proof.
  unfold validateVPA, invalidConfig, badUpdatePolicy, badContainerPolicy, missingTargetRef.
  destruct (UpdatePolicy (Spec vpa)) as [updatePolicy|] eqn:Eup.
  - destruct (UpdateMode_ updatePolicy) as [mode|] eqn:Emode.
    + destruct (found mode possibleUpdateModes) eqn:Ef.
      * apply found_In in Ef. rewrite (validate_rest vpa isCreate).
        split.
        -- intros [Hx|Hx]; [right; left; exact Hx|right; right; exact Hx].
        -- intros [(up & Hup & Hbad)|[Hx|Hx]]; [|left; exact Hx|right; exact Hx].
           exfalso. injection Hup as <-.
           destruct Hbad as [Hn|(m & Hm & Hnot)]; [congruence|].
           apply Hnot. assert (m = mode) by congruence. subst m. exact Ef.
      * split; [|eauto]. intros _. left. exists updatePolicy.
        split; [reflexivity|]. right. exists mode. split; [exact Emode|].
        apply found_false, Ef.
    + split; [|eauto]. intros _. left. exists updatePolicy. auto.
  - rewrite (validate_rest vpa isCreate). split.
    + intros [Hx|Hx]; [right; left; exact Hx|right; right; exact Hx].
    + intros [(up & Hup & _)|[Hx|Hx]]; [discriminate|left; exact Hx|right; exact Hx].
Qed.

(** ** The config path *)

Lemma getPatchesForVPADefaults_fails (s : AdmissionServer Quantity)
    (request : AdmissionRequest Quantity) :
  (exists err,
     getPatchesForVPADefaults s (Object request) (isCreate request) = Err err) <->
  configUnreadable s request \/ submittedConfigInvalid s request.
Proof.
  unfold getPatchesForVPADefaults, parseVPA, configUnreadable, submittedConfigInvalid.
  destruct (asVPA (Object request)) as [vpa|err0] eqn:Eraw.
  2:{ split; [intros _; left; left; eauto|eauto]. }
  destruct (vpaPreProcessor s vpa (isCreate request)) as [processed|err1] eqn:Epre.
  2:{ split; [intros _; left; right; eauto|eauto]. }
  destruct (validateVPA processed (isCreate request)) as [err2|] eqn:Eval.
  - split; [|eauto]. intros _. right. exists vpa, processed.
    repeat split; auto. apply validateVPA_fails. eauto.
  - split.
    + intros (err & Herr). destruct (UpdatePolicy (Spec processed)); discriminate.
    + intros [[(err & [=])|(v & err & [= <-] & Hp)]|(v & p & [= <-] & Hp & Hinv)].
      * congruence.
      * assert (p = processed) by congruence. subst p.
        apply validateVPA_fails in Hinv. destruct Hinv as (err & Herr). congruence.
Qed.

(** C4 (as amended): for every autoscaler-config admission request, admit
    returns a response with Allowed = false iff the submitted object cannot
    be decoded as a config, or the config pre-processor fails on it, or
    validation of the config fails, where validation fails exactly when
    UpdatePolicy is present with a missing or out-of-enumeration UpdateMode,
    some container policy has an empty ContainerName, an out-of-enumeration
    scaling Mode or a resource with both minAllowed and maxAllowed set and
    max below min, or the operation is a create and TargetRef is absent; a
    response with Allowed = false carries a status message and no patch.
    Otherwise the config is allowed. *)
Theorem admit_denies_config_iff
    (s : AdmissionServer Quantity) (request : AdmissionRequest Quantity) :
  isConfigRequest request ->
  exists r,
    admit_ s (Ok {| Request := Some request |}) = Returned r /\
    (Allowed (response r) = false <->
     configUnreadable s request \/ submittedConfigInvalid s request) /\
    (Allowed (response r) = false ->
     denied (response r) /\ Patch (response r) = None) /\
    (~ (configUnreadable s request \/ submittedConfigInvalid s request) ->
     Allowed (response r) = true).
Proof.
  intros (Hpod & Hgroup & Hresource).
  pose proof (getPatchesForVPADefaults_fails s request) as Hfails.
  unfold isCreate in Hfails. unfold Admission.admit_. simpl.
  rewrite Hpod. unfold GroupResource_eqb. simpl. rewrite Hgroup, Hresource. simpl.
  destruct (getPatchesForVPADefaults s (Object request)
              (String.eqb (Operation request) Create)) as [patches|err] eqn:Epatches.
  - assert (Hok : ~ (configUnreadable s request \/ submittedConfigInvalid s request)).
    { intros Hx. apply Hfails in Hx. destruct Hx as (e & He). discriminate. }
    destruct (0 <? List.length patches)%nat.
    + destruct (json_Marshal patches) as [patch|e]; eexists; (split; [reflexivity|]);
        simpl; (split; [split; [discriminate|contradiction]|]);
        (split; [discriminate|reflexivity]).
    + eexists; (split; [reflexivity|]);
        simpl; (split; [split; [discriminate|contradiction]|]);
        (split; [discriminate|reflexivity]).
  - eexists. split; [reflexivity|]. simpl.
    assert (Hbad : configUnreadable s request \/ submittedConfigInvalid s request).
    { apply Hfails. eauto. }
    split; [split; auto|]. split.
    + intros _. split; [|reflexivity]. split; [reflexivity|].
      exists err. reflexivity.
    + intros Hn. contradiction.
Qed.

(** ** The pod path *)

(** C5: when the body of the request cannot be parsed, or the request is a
    pod request whose processing ends in an error, admit returns the
    response with Allowed = true, no result status and no patch, together
    with the status Error for the metrics, and that status is what Serve
    observes whenever it answers; and the response to a pod admission that
    admit returns always has Allowed = true and no result status. *)
Theorem pod_admission_never_denied
    (s : AdmissionServer Quantity) (data : result (AdmissionReview Quantity)) :
  (podPathFails s data ->
   exists r,
     admit_ s data = Returned r /\
     response r = allowedResponse /\
     status r = Error /\
     onAdmittedPod r = None /\
     forall w contentType sv,
       Serve s w {| ContentType := contentType; Body := data |} = Returned sv ->
       fst (observed sv) = Error) /\
  (podAdmission data ->
   forall r, admit_ s data = Returned r ->
             Allowed (response r) = true /\ Result (response r) = None).
Proof.
  split.
  - intros Hfail.
    assert (Hr : exists r,
      admit_ s data = Returned r /\ response r = allowedResponse /\
      status r = Error /\ onAdmittedPod r = None).
    { destruct Hfail as [(err & ->)|(request & err & -> & Hpod & Hpatches)].
      - eexists. split; [reflexivity|]. simpl. auto.
      - unfold Admission.admit_. simpl. unfold isPodRequest in Hpod.
        rewrite Hpod. simpl. rewrite Hpatches.
        eexists. split; [reflexivity|]. simpl. auto. }
    destruct Hr as (r & Hadmit & Hresp & Hstatus & Hmetric).
    exists r. repeat split; auto.
    intros w contentType sv. unfold Admission.Serve. simpl.
    destruct (String.eqb contentType "application/json"); simpl.
    + rewrite Hadmit.
      destruct (json_Marshal_review (response r)) as [resp|e];
        [|intros [= <-]; reflexivity].
      destruct (w resp); intros [= <-]; simpl; auto.
    + intros [= <-]. reflexivity.
  - intros [(err & ->)|(request & -> & Hpod)] r.
    + simpl. intros [= <-]. simpl. auto.
    + unfold Admission.admit_. simpl. unfold isPodRequest in Hpod.
      rewrite Hpod. simpl.
      destruct (getPatchesForPodResourceRequest s (Object request)
                  (Request_Namespace request)) as [[patches|err]|]; try discriminate.
      * destruct (0 <? List.length patches)%nat.
        -- destruct (json_Marshal patches); intros [= <-]; simpl; auto.
        -- intros [= <-]. simpl. auto.
      * intros [= <-]. simpl. auto.
Qed.

(** ** The patch of a pod *)

(** The two lists that the loop of [appendPatchesAndAnnotations] extends. *)
Lemma fold_appendPatches (i : nat) (fieldName resourceName : string)
    (entries : list (ResourceName * Quantity)) :
  forall (patches : list (patchRecord Quantity)) (annotations : list string),
    fold_left
      (fun (acc : list (patchRecord Quantity) * list string)
           (entry : ResourceName * Quantity) =>
         let '(resource, request) := entry in
         (fst acc ++ [getAddResourceRequirementValuePatch i fieldName resource request],
          snd acc ++ [(resource ++ " " ++ resourceName)%string]))
      entries (patches, annotations)
    = (patches ++
       map (fun entry =>
              getAddResourceRequirementValuePatch i fieldName (fst entry) (snd entry))
           entries,
       annotations ++
       map (fun entry => (fst entry ++ " " ++ resourceName)%string) entries).
Proof.
  induction entries as [|[resource request] entries IH]; intros patches annotations; simpl.
  - rewrite !app_nil_r. reflexivity.
  - rewrite IH. simpl. rewrite <- !app_assoc. reflexivity.
Qed.

Lemma appendPatchesAndAnnotations_eq (patches : list (patchRecord Quantity))
    (annotations : list string) (current : ResourceList Quantity) (i : nat)
    (resources : ResourceList Quantity) (fieldName resourceName : string) :
  appendPatchesAndAnnotations patches annotations current i resources
    fieldName resourceName
  = ((patches ++
      (if is_nil current && (0 <? List.length (items resources))%nat
       then [getPatchInitializingEmptyResourcesSubfield Quantity i fieldName]
       else [])) ++
     map (fun entry =>
            getAddResourceRequirementValuePatch i fieldName (fst entry) (snd entry))
         (items resources),
     annotations ++
     map (fun entry => (fst entry ++ " " ++ resourceName)%string) (items resources)).
Proof.
  unfold appendPatchesAndAnnotations. rewrite fold_appendPatches.
  destruct (is_nil current && (0 <? List.length (items resources))%nat);
    [reflexivity|]. rewrite app_nil_r. reflexivity.
Qed.

Lemma getContainerPatch_requestsOnly (pod : Pod Quantity) (i : nat)
    (annotations : ContainerToAnnotationsMap)
    (containerResources : ContainerResources Quantity) (container : Container Quantity) :
  nth_error (Containers pod) i = Some container ->
  Requests (Resources container) <> None ->
  Limits (Resources container) = None ->
  items (CR_Limits containerResources) = [] ->
  getContainerPatch pod i annotations containerResources
  = Some (requestPatches i containerResources,
          requestsAnnotation annotations pod i containerResources).
Proof.
  intros Hnth Hreq Hlim Hnolim.
  unfold getContainerPatch, requestsAnnotation, providedAnnotations, requestPatches.
  rewrite Hnth, !appendPatchesAndAnnotations_eq, Hlim, Hnolim.
  destruct (Requests (Resources container)) as [requests|]; [|contradiction].
  simpl. rewrite !app_nil_r. reflexivity.
Qed.

Lemma containerPatchesFrom_requestsOnly (pod : Pod Quantity)
    (annotations : ContainerToAnnotationsMap)
    (containersResources : list (ContainerResources Quantity)) :
  forall (i : nat) (patches : list (patchRecord Quantity)) (updates : list string),
    (forall k containerResources,
       nth_error containersResources k = Some containerResources ->
       exists container,
         nth_error (Containers pod) (i + k) = Some container /\
         Requests (Resources container) <> None /\
         Limits (Resources container) = None /\
         items (CR_Limits containerResources) = []) ->
    containerPatchesFrom pod annotations i containersResources patches updates
    = Some (patches ++ List.concat (indexedFrom (@requestPatches Quantity _) i
                                      containersResources),
            updates ++ indexedFrom (requestsAnnotation annotations pod) i
                         containersResources).
Proof.
  induction containersResources as [|cr rest IH]; intros i patches updates Hall; simpl.
  - rewrite !app_nil_r. reflexivity.
  - destruct (Hall 0%nat cr eq_refl) as (container & Hnth & Hreq & Hlim & Hnolim).
    rewrite Nat.add_0_r in Hnth.
    rewrite (getContainerPatch_requestsOnly pod i annotations cr container
               Hnth Hreq Hlim Hnolim).
    rewrite IH.
    + rewrite <- !app_assoc. reflexivity.
    + intros k cr' Hk. destruct (Hall (S k) cr' Hk) as (c & Hc & Hrest).
      exists c. split; [|exact Hrest].
      rewrite <- Hc. f_equal. lia.
Qed.

Lemma belowResources_not_resources i patch :
  belowResources i patch ->
  Path patch <> ("/spec/containers/" ++ itoa i ++ "/resources")%string.
Proof.
  intros (rest & ->) Heq.
  apply append_cancel_l, append_cancel_l in Heq. discriminate.
Qed.

Lemma appendPatchesAndAnnotations_paths (patches : list (patchRecord Quantity))
    (annotations : list string) (current : ResourceList Quantity) (i : nat)
    (resources : ResourceList Quantity) (fieldName resourceName : string) patch :
  In patch (fst (appendPatchesAndAnnotations patches annotations current i resources
                   fieldName resourceName)) ->
  In patch patches \/ belowResources i patch.
Proof.
  rewrite appendPatchesAndAnnotations_eq. simpl.
  rewrite !in_app_iff. intros [[Hin|Hin]|Hin].
  - left. exact Hin.
  - right. destruct (is_nil current && _); [|contradiction].
    destruct Hin as [<-|[]]. exists fieldName. reflexivity.
  - right. apply in_map_iff in Hin. destruct Hin as ([resource request] & <- & _).
    exists (fieldName ++ "/" ++ resource)%string. reflexivity.
Qed.

Lemma getContainerPatch_empty_resources (pod : Pod Quantity) (i : nat)
    (annotations : ContainerToAnnotationsMap)
    (containerResources : ContainerResources Quantity)
    (patches : list (patchRecord Quantity)) (updatesAnnotation : string) :
  getContainerPatch pod i annotations containerResources
    = Some (patches, updatesAnnotation) ->
  (addsEmptyResources i patches <->
   exists container,
     nth_error (Containers pod) i = Some container /\
     Limits (Resources container) = None /\
     Requests (Resources container) = None).
Proof.
  unfold getContainerPatch.
  destruct (nth_error (Containers pod) i) as [container|]; [|discriminate].
  set (initial := if is_nil (Limits (Resources container)) &&
                     is_nil (Requests (Resources container))
                  then [getPatchInitializingEmptyResources Quantity i] else []).
  destruct (appendPatchesAndAnnotations initial _ _ i (CR_Requests containerResources) _ _)
    as [patches1 annotations1] eqn:E1.
  destruct (appendPatchesAndAnnotations patches1 annotations1 _ i
              (CR_Limits containerResources) _ _) as [patches2 annotations2] eqn:E2.
  intros [= <- _].
  assert (Hfrom : forall patch, In patch patches2 ->
                    In patch initial \/ belowResources i patch).
  { intros patch Hin.
    pose proof (appendPatchesAndAnnotations_paths patches1 annotations1
                  (Limits (Resources container)) i (CR_Limits containerResources)
                  "limits" "limit" patch) as H2.
    rewrite E2 in H2. destruct (H2 Hin) as [Hin1|Hbelow]; [|right; exact Hbelow].
    pose proof (appendPatchesAndAnnotations_paths initial
                  match lookup (Container_Name container) annotations with
                  | Some a => a
                  | None => []
                  end
                  (Requests (Resources container)) i (CR_Requests containerResources)
                  "requests" "request" patch) as H1.
    rewrite E1 in H1. exact (H1 Hin1). }
  assert (Hkeep : forall patch, In patch initial -> In patch patches2).
  { intros patch Hin.
    rewrite appendPatchesAndAnnotations_eq in E2. injection E2 as <- _.
    rewrite appendPatchesAndAnnotations_eq in E1. injection E1 as <- _.
    rewrite !in_app_iff. auto. }
  split.
  - intros (patch & Hin & Hpath).
    destruct (Hfrom patch Hin) as [Hinit|Hbelow].
    + exists container. split; [reflexivity|].
      subst initial.
      destruct (Limits (Resources container)), (Requests (Resources container));
        simpl in Hinit; try contradiction. auto.
    + exfalso. exact (belowResources_not_resources i patch Hbelow Hpath).
  - intros (c & [= <-] & Hlim & Hreq).
    exists (getPatchInitializingEmptyResources Quantity i). split; [|reflexivity].
    apply Hkeep. subst initial. rewrite Hlim, Hreq. left. reflexivity.
Qed.

Lemma requestPatches_add i (containerResources : ContainerResources Quantity) patch :
  In patch (requestPatches i containerResources) ->
  Op patch = "add" /\ underLimits (Path patch) = false.
Proof.
  unfold requestPatches. intros Hin. apply in_map_iff in Hin.
  destruct Hin as (entry & <- & _). simpl. split; [reflexivity|].
  apply requests_path_not_underLimits.
Qed.

Lemma indexedFrom_requestPatches_add
    (containersResources : list (ContainerResources Quantity)) : forall i patch,
  In patch (List.concat (indexedFrom (@requestPatches Quantity _) i containersResources)) ->
  Op patch = "add" /\ underLimits (Path patch) = false.
Proof.
  induction containersResources as [|cr rest IH]; intros i patch; simpl; [contradiction|].
  rewrite in_app_iff. intros [Hin|Hin].
  - exact (requestPatches_add i cr patch Hin).
  - exact (IH (S i) patch Hin).
Qed.

Lemma indexedFrom_length (A B : Type) (f : nat -> A -> B) (l : list A) : forall i,
  List.length (indexedFrom f i l) = List.length l.
Proof. induction l as [|x l IH]; intros i; simpl; [reflexivity|]. rewrite IH. reflexivity. Qed.

(** C6: for a pod each of whose containers declares requests and no limits,
    matched by a config whose recommendation holds request values only, the
    generated patch consists exactly of one add of
    /spec/containers/<i>/resources/requests/<resource> per recommended
    resource, set to the recommended (capped) target, followed by one add of
    the vpaUpdates annotation that names the config and lists, per
    container, the requests that were set; every operation is an add and no
    path under .../resources/limits is touched. And for any pod, the patch
    of a container holds the add of the empty resources object iff the
    container declares neither requests nor limits. *)
Theorem requests_only_patch
    (s : AdmissionServer Quantity) (raw : RawExtension Quantity) (namespace : string)
    (decoded pod : Pod Quantity)
    (containersResources : list (ContainerResources Quantity))
    (annotations : option ContainerToAnnotationsMap) (vpaName : string) :
  asPod raw = Ok decoded ->
  recommendationProvider s (withGeneratedName decoded namespace)
    = Ok (containersResources, annotations, vpaName) ->
  podPreProcessor s (withGeneratedName decoded namespace) = Ok pod ->
  containersResources <> [] ->
  requestsOnly pod containersResources ->
  let patches :=
    requestsOnlyPatch pod containersResources
      (match annotations with Some provided => provided | None => [] end) vpaName in
  getPatchesForPodResourceRequest s raw namespace = Returned (Ok patches) /\
  Forall (fun patch => Op patch = "add" /\ underLimits (Path patch) = false) patches /\
  (forall (anyPod : Pod Quantity) i provided containerResources out updatesAnnotation,
     getContainerPatch anyPod i provided containerResources
       = Some (out, updatesAnnotation) ->
     (addsEmptyResources i out <->
      exists container,
        nth_error (Containers anyPod) i = Some container /\
        Limits (Resources container) = None /\
        Requests (Resources container) = None)).
Proof.
  intros Hraw Hprovider Hpre Hsome Honly patches.
  split; [|split].
  - unfold getPatchesForPodResourceRequest.
    rewrite Hraw. cbv zeta. rewrite Hprovider, Hpre.
    rewrite containerPatchesFrom_requestsOnly by (intros k cr Hk; exact (Honly k cr Hk)).
    simpl. rewrite indexedFrom_length.
    destruct containersResources as [|cr rest]; [contradiction|]. simpl.
    subst patches. unfold requestsOnlyPatch, vpaUpdatesPatch. simpl.
    destruct (Annotations pod); reflexivity.
  - subst patches. unfold requestsOnlyPatch. apply Forall_app. split.
    + rewrite Forall_forall. apply indexedFrom_requestPatches_add.
    + constructor; [|constructor]. unfold vpaUpdatesPatch.
      destruct (Annotations pod); simpl; split; reflexivity.
  - intros anyPod i provided cr out updatesAnnotation.
    apply getContainerPatch_empty_resources.
Qed.

End Server.

(** ** On the sample requests *)

Lemma admit_denies_config_iff_witness :
  exists r,
    admit_ Samples.marshal Samples.server
      (Ok {| Request := Some Samples.configRequest |}) = Returned r /\
    (Allowed (response r) = false <->
     configUnreadable Samples.server Samples.configRequest \/
     submittedConfigInvalid Samples.server Samples.configRequest) /\
    (Allowed (response r) = false ->
     denied (response r) /\ Patch (response r) = None) /\
    (~ (configUnreadable Samples.server Samples.configRequest \/
        submittedConfigInvalid Samples.server Samples.configRequest) ->
     Allowed (response r) = true).
Proof.
  apply (admit_denies_config_iff Samples.MilliQuantity Samples.marshal
           Samples.server Samples.configRequest).
  repeat split; reflexivity.
Defined.

(** The valid sample config is allowed, and patched with the default policy. *)
Lemma admit_allows_valid_config :
  admit_ Samples.marshal Samples.server (Ok {| Request := Some Samples.configRequest |})
  = Returned {| response := {| Allowed := true; Result := None;
                               Patch := Some "[...]";
                               PatchType := Some PatchTypeJSONPatch |};
                status := Applied; resource := VpaResource;
                onAdmittedPod := None |}.
Proof. reflexivity. Qed.

(** C4, as the claim states it, fails: the request is about a config, its
    object does not decode as one, and admit denies it although no config
    was submitted whose validation could fail. *)
Lemma admit_denies_undecodable_config :
  exists r,
    admit_ Samples.marshal Samples.server
      (Ok {| Request := Some Samples.undecodableConfigRequest |}) = Returned r /\
    isConfigRequest Samples.undecodableConfigRequest /\
    denied (response r) /\
    ~ submittedConfigInvalid Samples.server Samples.undecodableConfigRequest.
Proof.
  eexists. split; [reflexivity|]. split; [repeat split; reflexivity|]. split.
  - split; [reflexivity|]. eexists. reflexivity.
  - intros (vpa & processed & Hraw & _). discriminate.
Qed.

(** A pod request whose object does not decode is allowed, unpatched. *)
Lemma admit_allows_undecodable_pod :
  admit_ Samples.marshal Samples.server
    (Ok {| Request := Some Samples.undecodablePodRequest |})
  = Returned {| response := allowedResponse; status := Error;
                resource := PodResource; onAdmittedPod := None |}.
Proof. reflexivity. Qed.

(** C6 on scenario 6 of the specification: the pod requests 100m of cpu and
    declares no limits, the recommendation is 300m. *)
Lemma requests_only_patch_witness :
  getPatchesForPodResourceRequest Samples.server
    (Object Samples.podRequest) "default"
  = Returned (Ok (requestsOnlyPatch Samples.P1
                    [{| CR_Limits := None; CR_Requests := Samples.cpu 300 |}]
                    [] "my-vpa")) /\
  Forall (fun patch => Op patch = "add" /\ underLimits (Path patch) = false)
    (requestsOnlyPatch Samples.P1
       [{| CR_Limits := None; CR_Requests := Samples.cpu 300 |}] [] "my-vpa") /\
  (forall (anyPod : Pod Samples.MilliQuantity) i provided containerResources out
          updatesAnnotation,
     getContainerPatch anyPod i provided containerResources
       = Some (out, updatesAnnotation) ->
     (addsEmptyResources i out <->
      exists container,
        nth_error (Containers anyPod) i = Some container /\
        Limits (Resources container) = None /\
        Requests (Resources container) = None)).
Proof.
  apply (requests_only_patch Samples.MilliQuantity Samples.server
           (Object Samples.podRequest) "default" Samples.P1 Samples.P1
           [{| CR_Limits := None; CR_Requests := Samples.cpu 300 |}] None "my-vpa").
  - reflexivity.
  - reflexivity.
  - reflexivity.
  - discriminate.
  - intros i cr Hnth. destruct i as [|[|i]]; simpl in Hnth; try discriminate.
    injection Hnth as <-. eexists. split; [reflexivity|].
    split; [discriminate|]. split; reflexivity.
Defined.

(** The patch of scenario 6, written out. *)
Lemma requests_only_patch_scenario_6 :
  getPatchesForPodResourceRequest Samples.server (Object Samples.podRequest) "default"
  = Returned (Ok
      [{| Op := "add"; Path := "/spec/containers/0/resources/requests/cpu";
          Value := StringValue Samples.MilliQuantity "300m" |};
       {| Op := "add"; Path := "/metadata/annotations";
          Value := AnnotationsValue Samples.MilliQuantity
                     [("vpaUpdates",
                       "Pod resources updated by my-vpa: container 0: cpu request")] |}]).
Proof. vm_compute. reflexivity. Qed.

End AdmissionFacts.

(* ================================================================== *)
(** * The limit range calculator *)
(* ================================================================== *)

Module LimitRangeFacts.
Import Go K8s LimitRangeCalculator LimitRangeSpec GoFacts MapFacts.
Local Open Scope string_scope.
Local Open Scope list_scope.

Section Calculator.
Variable Quantity : Type.
Context `{QuantityOps Quantity}.

Local Abbreviation atMost := (@atMost Quantity _).
Local Abbreviation atLeast := (@atLeast Quantity _).
Local Abbreviation pickLowerMax := (@pickLowerMax Quantity _).
Local Abbreviation chooseHigherMin := (@chooseHigherMin Quantity _).

(** ** Picking the better of two values *)

Section Picking.
Variable better : Quantity -> Quantity -> Prop.
Variable picker : Quantity -> Quantity -> Quantity.
Hypothesis better_refl : forall x, better x x.
Hypothesis better_trans : forall x y z, better x y -> better y z -> better x z.
Hypothesis picker_spec :
  forall a q, (picker a q = a /\ better a q) \/ (picker a q = q /\ better q a).

Local Abbreviation combineOne := (Invariants.combineOne Quantity picker).
Local Abbreviation bothUpdated := (Invariants.bothUpdated Quantity picker).

Lemma picker_same q : picker q q = q.
Proof. destruct (picker_spec q q) as [[Hp _]|[Hp _]]; exact Hp. Qed.

Lemma bestOf_single q : bestOf better q [q].
Proof.
  split; [left; reflexivity|]. intros q' [<-|[]]. apply better_refl.
Qed.

Lemma bestOf_snoc a values q :
  bestOf better a values -> bestOf better (picker a q) (values ++ [q]).
Proof.
  intros [Hin Hall].
  destruct (picker_spec a q) as [[-> Hb]|[-> Hb]]; split.
  - apply in_or_app. left. exact Hin.
  - intros q' Hq'. apply in_app_or in Hq'. destruct Hq' as [Hq'|[<-|[]]]; auto.
  - apply in_or_app. right. left. reflexivity.
  - intros q' Hq'. apply in_app_or in Hq'. destruct Hq' as [Hq'|[<-|[]]].
    + apply better_trans with (y := a); auto.
    + apply better_refl.
Qed.

Lemma combines_combineOne held given values :
  combines better held values ->
  combines better (combineOne held given)
    (values ++ match given with Some q => [q] | None => [] end).
Proof.
  intros Hc. destruct given as [q|]; simpl; [|rewrite app_nil_r; exact Hc].
  destruct values as [|v values]; simpl in *.
  - subst held. exists q. split; [reflexivity|apply bestOf_single].
  - destruct Hc as (a & -> & Hbest). exists (picker a q). split; [reflexivity|].
    exact (bestOf_snoc a (v :: values) q Hbest).
Qed.

Lemma get_updatedResult_same (result lrItem : ResourceList Quantity) r :
  (is_nil result = true -> is_nil lrItem = false -> False) ->
  get r (updatedResult result lrItem r picker) = combineOne (get r result) (get r lrItem).
Proof.
  intros Hnil. unfold updatedResult, get, Invariants.combineOne.
  destruct lrItem as [lrEntries|]; simpl; [|reflexivity].
  destruct result as [entries|]; simpl.
  - destruct (lookup r lrEntries) as [q|]; [|reflexivity].
    destruct (lookup r entries) as [a|]; simpl; rewrite lookup_store_same; reflexivity.
  - exfalso. apply Hnil; reflexivity.
Qed.

Lemma get_updatedResult_other (result lrItem : ResourceList Quantity) r r' :
  r' <> r ->
  (is_nil result = true -> is_nil lrItem = false -> False) ->
  get r' (updatedResult result lrItem r picker) = get r' result.
Proof.
  intros Hne Hnil. unfold updatedResult, get.
  destruct lrItem as [lrEntries|]; simpl; [|reflexivity].
  destruct result as [entries|]; simpl.
  - destruct (lookup r lrEntries) as [q|]; [|reflexivity].
    destruct (lookup r entries) as [a|]; simpl;
      rewrite lookup_store_other by exact Hne; reflexivity.
  - exfalso. apply Hnil; reflexivity.
Qed.

Lemma is_nil_updatedResult (result lrItem : ResourceList Quantity) r :
  is_nil (updatedResult result lrItem r picker) = is_nil result && is_nil lrItem.
Proof.
  unfold updatedResult.
  destruct lrItem as [lrEntries|]; destruct result as [entries|]; simpl; try reflexivity.
  destruct (lookup r lrEntries); [|reflexivity].
  destruct (lookup r entries); reflexivity.
Qed.

Lemma is_nil_bothUpdated (result lrItem : ResourceList Quantity) :
  is_nil (bothUpdated result lrItem) = is_nil result && is_nil lrItem.
Proof.
  unfold Invariants.bothUpdated. rewrite !is_nil_updatedResult.
  destruct (is_nil result), (is_nil lrItem); reflexivity.
Qed.

(** For cpu and for memory, the two calls combine the value held with the
    value the item gives. *)
Lemma get_bothUpdated (result lrItem : ResourceList Quantity) r :
  r = ResourceCPU \/ r = ResourceMemory ->
  get r (bothUpdated result lrItem) = combineOne (get r result) (get r lrItem).
Proof.
  intros Hr. unfold Invariants.bothUpdated.
  destruct lrItem as [lrEntries|].
  2:{ reflexivity. }
  destruct result as [entries|].
  - destruct Hr as [-> | ->].
    + rewrite get_updatedResult_other; [|discriminate|].
      * apply get_updatedResult_same. discriminate.
      * rewrite is_nil_updatedResult. discriminate.
    + rewrite get_updatedResult_same.
      * rewrite get_updatedResult_other; [reflexivity|discriminate|discriminate].
      * rewrite is_nil_updatedResult. discriminate.
  - (* the first call copies the whole list of the item *)
    change (updatedResult None (Some lrEntries) ResourceCPU picker) with (Some lrEntries).
    destruct Hr as [-> | ->].
    + rewrite get_updatedResult_other; [|discriminate|discriminate].
      unfold Invariants.combineOne, get; simpl. destruct (lookup ResourceCPU lrEntries); reflexivity.
    + rewrite get_updatedResult_same by discriminate.
      unfold Invariants.combineOne, get; simpl.
      destruct (lookup ResourceMemory lrEntries) as [q|]; [|reflexivity].
      rewrite picker_same. reflexivity.
Qed.

(** What the fold holds for the resource lists seen so far. *)
Lemma combines_bothUpdated (result lrItem : ResourceList Quantity)
    (seen : list (ResourceList Quantity)) r :
  r = ResourceCPU \/ r = ResourceMemory ->
  combines better (get r result) (valuesOf r seen) ->
  combines better (get r (bothUpdated result lrItem)) (valuesOf r (seen ++ [lrItem])).
Proof.
  intros Hr Hc. rewrite get_bothUpdated by exact Hr.
  unfold valuesOf. rewrite flat_map_app. simpl. rewrite app_nil_r.
  apply combines_combineOne. exact Hc.
Qed.

End Picking.

(** ** The order of quantities *)

Section Combining.
Hypothesis Cmp_antisym : forall x y : Quantity, Cmp y x = CompOpp (Cmp x y).
Hypothesis Cmp_trans :
  forall x y z : Quantity, Cmp x y <> Gt -> Cmp y z <> Gt -> Cmp x z <> Gt.

Local Abbreviation bothUpdated := (Invariants.bothUpdated Quantity).
Local Abbreviation combinedSoFar := (@Invariants.combinedSoFar Quantity _).

Lemma atMost_refl (x : Quantity) : atMost x x.
Proof.
  unfold atMost. pose proof (Cmp_antisym x x) as Ha.
  destruct (Cmp x x); simpl in Ha; congruence.
Qed.

Lemma atLeast_refl (x : Quantity) : atLeast x x.
Proof.
  unfold atLeast. pose proof (Cmp_antisym x x) as Ha.
  destruct (Cmp x x); simpl in Ha; congruence.
Qed.

Lemma atLeast_atMost (x y : Quantity) : atLeast x y <-> atMost y x.
Proof.
  unfold atLeast, atMost. rewrite (Cmp_antisym x y).
  destruct (Cmp x y); simpl; split; congruence.
Qed.

Lemma atLeast_trans (x y z : Quantity) : atLeast x y -> atLeast y z -> atLeast x z.
Proof.
  rewrite !atLeast_atMost. intros Hxy Hyz. exact (Cmp_trans z y x Hyz Hxy).
Qed.

Lemma pickLowerMax_spec (a q : Quantity) :
  (pickLowerMax a q = a /\ atMost a q) \/ (pickLowerMax a q = q /\ atMost q a).
Proof.
  unfold pickLowerMax, atMost. rewrite (Cmp_antisym a q).
  destruct (Cmp a q); simpl.
  - right. split; [reflexivity|discriminate].
  - left. split; [reflexivity|discriminate].
  - right. split; [reflexivity|discriminate].
Qed.

Lemma chooseHigherMin_spec (a q : Quantity) :
  (chooseHigherMin a q = a /\ atLeast a q) \/ (chooseHigherMin a q = q /\ atLeast q a).
Proof.
  unfold chooseHigherMin, atLeast. rewrite (Cmp_antisym a q).
  destruct (Cmp a q); simpl.
  - right. split; [reflexivity|discriminate].
  - right. split; [reflexivity|discriminate].
  - left. split; [reflexivity|discriminate].
Qed.

(** ** The items seen so far *)

Lemma is_nil_fold_lastSet (lists : list (ResourceList Quantity)) : forall found,
  is_nil (fold_left (fun found l => if is_nil l then found else l) lists found)
  = is_nil found && forallb (@is_nil Quantity) lists.
Proof.
  induction lists as [|l lists IH]; intros found; simpl.
  - rewrite andb_true_r. reflexivity.
  - rewrite IH. destruct (is_nil l) eqn:El; simpl.
    + reflexivity.
    + rewrite El. rewrite andb_false_r. reflexivity.
Qed.

Lemma lastSet_snoc (lists : list (ResourceList Quantity)) l :
  lastSet (lists ++ [l]) = if is_nil l then lastSet lists else l.
Proof. unfold lastSet. rewrite fold_left_app. reflexivity. Qed.

Lemma itemStep_combined limitType result seen lri :
  combinedSoFar limitType result seen ->
  combinedSoFar limitType (itemStep limitType result lri)
    (seen ++ if considered limitType lri then [lri] else []).
Proof.
  intros Hc. pose proof Hc as (Htype & Hdefault & Hmax & Hmin & Hboth). unfold itemStep.
  destruct (considered limitType lri); [|rewrite app_nil_r; exact Hc].
  cbv zeta. unfold Invariants.combinedSoFar. rewrite !map_app. simpl.
  fold (bothUpdated pickLowerMax (Max result) (Max lri)).
  fold (bothUpdated chooseHigherMin (Min result) (Min lri)).
  split; [exact Htype|]. split; [|split; [|split]].
  - simpl. rewrite lastSet_snoc, <- Hdefault.
    destruct (is_nil (Default lri)); reflexivity.
  - simpl. rewrite is_nil_bothUpdated, forallb_app, Hmax. simpl.
    rewrite andb_true_r. reflexivity.
  - simpl. rewrite is_nil_bothUpdated, forallb_app, Hmin. simpl.
    rewrite andb_true_r. reflexivity.
  - intros r Hr. destruct (Hboth r Hr) as [Hcmax Hcmin]. simpl. split.
    + apply (combines_bothUpdated atMost pickLowerMax atMost_refl Cmp_trans
               pickLowerMax_spec); assumption.
    + apply (combines_bothUpdated atLeast chooseHigherMin atLeast_refl atLeast_trans
               chooseHigherMin_spec); assumption.
Qed.

Lemma fold_itemStep_combined limitType items : forall result seen,
  combinedSoFar limitType result seen ->
  combinedSoFar limitType (fold_left (itemStep limitType) items result)
    (seen ++ filter (considered limitType) items).
Proof.
  induction items as [|lri items IH]; intros result seen Hc; simpl.
  - rewrite app_nil_r. exact Hc.
  - pose proof (itemStep_combined limitType result seen lri Hc) as Hstep.
    apply IH in Hstep.
    destruct (considered limitType lri); simpl in Hstep.
    + rewrite <- app_assoc in Hstep. exact Hstep.
    + rewrite app_nil_r in Hstep. exact Hstep.
Qed.

Lemma fold_limitRanges limitType (limitRanges : list (LimitRange Quantity)) :
  forall result,
    fold_left (fun result lr => fold_left (itemStep limitType) (Spec_Limits lr) result)
              limitRanges result
    = fold_left (itemStep limitType) (flat_map (@Spec_Limits Quantity) limitRanges) result.
Proof.
  induction limitRanges as [|lr limitRanges IH]; intros result; simpl; [reflexivity|].
  rewrite fold_left_app. apply IH.
Qed.

(** An item that is considered sets one of the three lists. *)
Lemma considered_sets limitType (seen : list (LimitRangeItem Quantity)) :
  Forall (fun lri => considered limitType lri = true) seen ->
  seen <> [] ->
  forallb (@is_nil Quantity) (map (@Min Quantity) seen) &&
  forallb (@is_nil Quantity) (map (@Max Quantity) seen) &&
  forallb (@is_nil Quantity) (map (@Default Quantity) seen) = false.
Proof.
  intros Hall Hne. destruct seen as [|lri seen]; [contradiction|].
  inversion Hall as [|? ? Hc _]; subst. unfold considered in Hc.
  apply andb_prop in Hc. destruct Hc as [_ Hc]. simpl.
  destruct (is_nil (Min lri)), (is_nil (Max lri)), (is_nil (Default lri));
    simpl in *; try discriminate; try reflexivity;
    rewrite ?andb_false_r; reflexivity.
Qed.

(** C10: when the lister returns the limit ranges of the namespace,
    getLimitRangeItem returns nil when no item of the requested type sets
    Min, Max or Default, and otherwise a single item of that type whose
    Default is the last Default set by such an item, whose Max for cpu and
    for memory is the smallest of the maxima the items give (none when no
    item gives one) and whose Min for cpu and for memory is the largest of
    the minima; the order is the one of Cmp, a total preorder. *)
Theorem getLimitRangeItem_combines
    (lc : limitsChecker Quantity) (namespace : string) (limitType : LimitType)
    (limitRanges : list (LimitRange Quantity)) :
  limitRangeLister lc namespace = Ok limitRanges ->
  let setting := settingItems limitType limitRanges in
  (setting = [] -> getLimitRangeItem lc namespace limitType = Ok None) /\
  (setting <> [] ->
   exists item,
     getLimitRangeItem lc namespace limitType = Ok (Some item) /\
     Type_ item = limitType /\
     Default item = lastSet (map (@Default Quantity) setting) /\
     forall r, r = ResourceCPU \/ r = ResourceMemory ->
       combines atMost (get r (Max item)) (valuesOf r (map (@Max Quantity) setting)) /\
       combines atLeast (get r (Min item)) (valuesOf r (map (@Min Quantity) setting))).
Proof.
  intros Hlist setting. unfold getLimitRangeItem. rewrite Hlist. cbv zeta.
  rewrite fold_limitRanges.
  set (initial := {| Type_ := limitType; Max := None; Min := None; Default := None;
                     DefaultRequest := None; MaxLimitRequestRatio := None |}).
  assert (Hinit : combinedSoFar limitType initial []).
  { repeat split; simpl; auto. }
  pose proof (fold_itemStep_combined limitType
                (flat_map (@Spec_Limits Quantity) limitRanges) initial [] Hinit) as Hc.
  simpl in Hc. fold (settingItems limitType limitRanges) in Hc. fold setting in Hc.
  set (result := fold_left (itemStep limitType)
                   (flat_map (@Spec_Limits Quantity) limitRanges) initial) in *.
  destruct Hc as (Htype & Hdefault & Hmax & Hmin & Hboth).
  assert (Hnil : is_nil (Default result)
                 = forallb (@is_nil Quantity) (map (@Default Quantity) setting)).
  { rewrite Hdefault. unfold lastSet. rewrite is_nil_fold_lastSet. reflexivity. }
  rewrite Hmin, Hmax, Hnil. split.
  - intros ->. reflexivity.
  - intros Hne.
    assert (Hset : Forall (fun lri => considered limitType lri = true) setting).
    { rewrite Forall_forall. intros lri Hin. apply filter_In in Hin. apply Hin. }
    pose proof (considered_sets limitType setting Hset Hne) as Hsome.
    exists result. split; [|repeat split; auto; apply Hboth; assumption].
    destruct (forallb (@is_nil Quantity) (map (@Min Quantity) setting)),
             (forallb (@is_nil Quantity) (map (@Max Quantity) setting)),
             (forallb (@is_nil Quantity) (map (@Default Quantity) setting));
      simpl in *; try discriminate; reflexivity.
Qed.

End Combining.

End Calculator.

(** ** On the sample limit ranges *)

Lemma getLimitRangeItem_combines_witness :
  (settingItems LimitTypeContainer Samples.limitRanges = [] ->
   getLimitRangeItem Samples.checker "default" LimitTypeContainer = Ok None) /\
  (settingItems LimitTypeContainer Samples.limitRanges <> [] ->
   exists item,
     getLimitRangeItem Samples.checker "default" LimitTypeContainer = Ok (Some item) /\
     Type_ item = LimitTypeContainer /\
     Default item
       = lastSet (map (@Default Samples.MilliQuantity)
                    (settingItems LimitTypeContainer Samples.limitRanges)) /\
     forall r, r = ResourceCPU \/ r = ResourceMemory ->
       combines (@atMost Samples.MilliQuantity _) (get r (Max item))
         (valuesOf r (map (@Max Samples.MilliQuantity)
                        (settingItems LimitTypeContainer Samples.limitRanges))) /\
       combines (@atLeast Samples.MilliQuantity _) (get r (Min item))
         (valuesOf r (map (@Min Samples.MilliQuantity)
                        (settingItems LimitTypeContainer Samples.limitRanges)))).
Proof.
  apply (@getLimitRangeItem_combines Samples.MilliQuantity Samples.milliQuantityOps
           Z.compare_antisym Z.le_trans
           Samples.checker "default" LimitTypeContainer Samples.limitRanges).
  reflexivity.
Defined.

(** The combined container limits of the sample: the lower maximum of cpu,
    the only maximum of memory, the higher minimum, the last default. *)
Lemma getLimitRangeItem_sample :
  getLimitRangeItem Samples.checker "default" LimitTypeContainer
  = Ok (Some (Samples.limits LimitTypeContainer
                (Some [(ResourceCPU, 1000%Z); (ResourceMemory, 4000%Z)])
                (Some [(ResourceCPU, 200%Z)])
                (Some [(ResourceCPU, 500%Z)]))) /\
  getLimitRangeItem Samples.checker "other" LimitTypeContainer = Ok None.
Proof. split; reflexivity. Qed.

End LimitRangeFacts.

(* ================================================================== *)
(** * The recommender *)
(* ================================================================== *)

Module RecommenderFacts.
Import Go K8s Recommender Capping RecommenderSpec.
Local Open Scope string_scope.
Local Open Scope list_scope.

Section Routines.
Variable Quantity : Type.
Context `{QuantityOps Quantity}.
Variable ResourcesAsResourceList : Resources -> ResourceList Quantity.

Local Abbreviation uncappedIsRawTarget := (uncappedIsRawTarget ResourcesAsResourceList).
Local Abbreviation getCappedRecommendation := (getCappedRecommendation ResourcesAsResourceList).

(** ** The uncapped target *)

(** Before capping, every container holds its raw target twice. *)
Lemma raw_recommendation_uncapped (resources : Recommender.RecommendedPodResources) :
  Forall (uncappedIsRawTarget resources)
    (map (fun entry : string * Recommender.RecommendedContainerResources =>
            let '(containerName, res) := entry in
            {| K8s.ContainerName := containerName;
               K8s.Target := ResourcesAsResourceList (Recommender.Target res);
               K8s.LowerBound := ResourcesAsResourceList (Recommender.LowerBound res);
               K8s.UpperBound := ResourcesAsResourceList (Recommender.UpperBound res);
               K8s.UncappedTarget := ResourcesAsResourceList (Recommender.Target res) |})
         resources).
Proof.
  rewrite Forall_forall. intros c Hin. apply in_map_iff in Hin.
  destruct Hin as ([containerName res] & <- & Hin).
  exists res. split; [exact Hin|reflexivity].
Qed.

(** With any capping that leaves the uncapped targets alone, error or not. *)
Lemma getCappedRecommendation_uncapped
    (capping : K8s.RecommendedPodResources Quantity ->
               option (PodResourcePolicy Quantity) ->
               result (K8s.RecommendedPodResources Quantity))
    (vpaID : VpaID) (resources : Recommender.RecommendedPodResources)
    (policy : option (PodResourcePolicy Quantity)) :
  keepsUncappedTarget capping ->
  Forall (uncappedIsRawTarget resources)
    (ContainerRecommendations (getCappedRecommendation capping vpaID resources policy)).
Proof.
  intros Hkeeps. unfold Recommender.getCappedRecommendation. cbv zeta.
  pose proof (raw_recommendation_uncapped resources) as Hraw.
  match goal with
  | |- context [capping ?rec policy] =>
      destruct (capping rec policy) as [cappedRecommendation|err] eqn:Ecap
  end.
  - pose proof (Hkeeps _ _ _ Ecap) as Hcapped. simpl in Hcapped.
    rewrite Forall_forall in Hcapped, Hraw |- *.
    intros c' Hin. destruct (Hcapped c' Hin) as (c & Hc & Hname & Huncapped).
    destruct (Hraw c Hc) as (res & Hres & Htarget).
    exists res. rewrite Hname, Huncapped. split; assumption.
  - exact Hraw.
Qed.

Lemma ApplyVPAPolicy_keepsUncappedTarget :
  keepsUncappedTarget (@ApplyVPAPolicy Quantity _).
Proof.
  intros recommendation policy cappedRecommendation [= <-]. simpl.
  rewrite Forall_forall. intros c' Hin. apply in_flat_map in Hin.
  destruct Hin as (c & Hc & Hin). exists c. split; [exact Hc|].
  destruct (policyFor policy (ContainerName c)) as [cp|].
  - assert (Hcapped : In c' [capped cp c] -> ContainerName c' = ContainerName c /\
                                              UncappedTarget c' = UncappedTarget c).
    { intros [<-|[]]. split; reflexivity. }
    destruct (Mode cp) as [mode|]; [|exact (Hcapped Hin)].
    destruct (String.eqb mode ContainerScalingModeOff); [contradiction|exact (Hcapped Hin)].
  - destruct Hin as [<-|[]]. split; reflexivity.
Qed.

(** C7: for every container in the result of getCappedRecommendation, the
    UncappedTarget is the raw recommended Target of the container of that
    name, as computed before the policy is applied; and the capping
    pipeline (the steps of the specification that apply the policy) leaves
    the UncappedTarget of every container it keeps as it was. *)
Theorem UncappedTarget_is_raw_target
    (vpaID : VpaID) (resources : Recommender.RecommendedPodResources)
    (policy : option (PodResourcePolicy Quantity)) :
  Forall (uncappedIsRawTarget resources)
    (ContainerRecommendations
       (getCappedRecommendation (@ApplyVPAPolicy Quantity _) vpaID resources policy)) /\
  keepsUncappedTarget (@ApplyVPAPolicy Quantity _).
Proof.
  split.
  - apply getCappedRecommendation_uncapped, ApplyVPAPolicy_keepsUncappedTarget.
  - apply ApplyVPAPolicy_keepsUncappedTarget.
Qed.

(** ** One iteration *)

Context `{Environment Quantity}.
Variable clock : nat -> Time.
Variable checkpointsWriteTimeout : Duration.
Variable minCheckpointsPerRun : Z.

Local Abbreviation Run := (@Run Quantity _).
Local Abbreviation gcEvents := (gcEvents Quantity).
Local Abbreviation checkpointEvents := (checkpointEvents Quantity).
Local Abbreviation loads := (loads Quantity).
Local Abbreviation updateVPA :=
  (updateVPA ResourcesAsResourceList (@ApplyVPAPolicy Quantity _) clock).
Local Abbreviation UpdateVPAs :=
  (UpdateVPAs ResourcesAsResourceList (@ApplyVPAPolicy Quantity _) clock).
Local Abbreviation MaintainCheckpoints := (@MaintainCheckpoints Quantity _ clock).
Local Abbreviation GarbageCollect := (@GarbageCollect Quantity _ clock).
Local Abbreviation RunOnce :=
  (RunOnce ResourcesAsResourceList (@ApplyVPAPolicy Quantity _) clock
     checkpointsWriteTimeout minCheckpointsPerRun).





(** The checkpoints are stored under the deadline handed in, and the
    collection time of the aggregate states is not touched. *)
Lemma MaintainCheckpoints_events (r : recommender) (ctxDeadline : Time)
    (minCheckpoints : Z) (s : Run) :
  trace (snd (MaintainCheckpoints r ctxDeadline minCheckpoints s)) =
    trace s ++ checkpointEvents r ctxDeadline (clock (ticks s)) (clock (S (ticks s)))
                 minCheckpoints /\
  ticks (snd (MaintainCheckpoints r ctxDeadline minCheckpoints s)) =
    ticks s + (if useCheckpoints r then 2 else 1) /\
  lastAggregateContainerStateGC (fst (MaintainCheckpoints r ctxDeadline minCheckpoints s)) =
    lastAggregateContainerStateGC r.
Proof.
  unfold Recommender.MaintainCheckpoints, RecommenderSpec.checkpointEvents, bind, time_Now, callE, call, ret.
  cbn [world ticks trace fst snd].
  destruct (useCheckpoints r).
  - cbn [world ticks trace fst snd].
    destruct (checkpointsGCInterval r <? Time_Sub (clock (S (ticks s))) (lastCheckpointGC r))%Z;
      cbn [world ticks trace fst snd lastAggregateContainerStateGC];
      rewrite <- ?app_assoc; cbn [app]; repeat split; lia.
  - cbn [world ticks trace fst snd]. rewrite app_nil_r. repeat split; lia.
Qed.

(** The aggregate states are collected only if more than the interval has
    elapsed since the collection before; the time of the collection is then
    recorded. *)
Lemma GarbageCollect_events (r : recommender) (s : Run) :
  trace (snd (GarbageCollect r s)) = trace s ++ gcEvents r (clock (ticks s)) /\
  lastAggregateContainerStateGC (fst (GarbageCollect r s)) =
    (if gcDue r (clock (ticks s)) then clock (ticks s)
     else lastAggregateContainerStateGC r).
Proof.
  unfold Recommender.GarbageCollect, RecommenderSpec.gcEvents, gcDue, bind, time_Now, call, ret.
  cbn [world ticks trace fst snd].
  destruct (AggregateContainerStateGCInterval
              <? Time_Sub (clock (ticks s)) (lastAggregateContainerStateGC r))%Z;
    cbn [world ticks trace fst snd lastAggregateContainerStateGC].
  - split; reflexivity.
  - rewrite app_nil_r. split; reflexivity.
Qed.

Lemma gcEvents_same_collection (r r' : recommender) (gcTime : Time) :
  lastAggregateContainerStateGC r' = lastAggregateContainerStateGC r ->
  gcEvents r' gcTime = gcEvents r gcTime /\
  gcDue r' gcTime = gcDue r gcTime.
Proof.
  intros Hsame. unfold RecommenderSpec.gcEvents, gcDue. rewrite Hsame. split; reflexivity.
Qed.


End Routines.

(** ** On the samples *)

(** The policy raises the target of 50m to the minimum of 100m; the
    uncapped target stays 50m. *)
Example getCappedRecommendation_under_minimum :
  getCappedRecommendation Samples.resourcesAsResourceList
    (@ApplyVPAPolicy Samples.MilliQuantity _)
    Samples.configID Samples.rawResources (Some Samples.cpuPolicy)
  = Samples.cappedRecommendation.
Proof. reflexivity. Qed.

(** A run over one config without a status, the aggregate states last
    collected at time 0: the status is written, the checkpoints are stored
    under the deadline of one minute after the start, and the aggregate
    states are collected. *)
Example RunOnce_writes_and_collects :
  let start := Samples.sampleClock 0 in
  let run := Samples.sampleRun [Samples.cappedConfig] 0%Z in
  trace (snd run) =
    loads _ ++
    [ObserveRecommendationLatency _ Samples.configID;
     CounterAdd _ Samples.configID;
     WriteStatus Samples.configID
       {| Recommendation := Some Samples.cappedRecommendation; Conditions := [] |};
     CounterObserve _; ObserveStep _ "UpdateVPAs";
     StoreCheckpoints _ (start + Minute)%Z (Samples.sampleClock 2) 10%Z;
     ObserveStep _ "MaintainCheckpoints";
     GarbageCollectAggregateCollectionStates _ (Samples.sampleClock 4);
     ObserveStep _ "GarbageCollect"; CancelContext _; ObserveTotal _] /\
  lastAggregateContainerStateGC (fst run) = Samples.sampleClock 4.
Proof. vm_compute. split; reflexivity. Qed.

(** A run over a config whose observed status holds the recommendation
    already, exactly one hour after the last collection: nothing is written
    and nothing is collected. *)
Example RunOnce_writes_nothing_and_keeps :
  let observed :=
    {| Vpa_Namespace := "default"; Vpa_Name := "my-vpa";
       Spec := Spec Samples.cappedConfig;
       Status := {| Recommendation := Some Samples.cappedRecommendation;
                    Conditions := [] |} |} in
  let lastGC := (Samples.sampleClock 4 - 1 * Hour)%Z in
  let run := Samples.sampleRun [observed] lastGC in
  trace (snd run) =
    loads _ ++
    [ObserveRecommendationLatency _ Samples.configID;
     CounterAdd _ Samples.configID;
     CounterObserve _; ObserveStep _ "UpdateVPAs";
     StoreCheckpoints _ (Samples.sampleClock 0 + Minute)%Z (Samples.sampleClock 2) 10%Z;
     ObserveStep _ "MaintainCheckpoints";
     ObserveStep _ "GarbageCollect"; CancelContext _; ObserveTotal _] /\
  lastAggregateContainerStateGC (fst run) = lastGC.
Proof. vm_compute. split; reflexivity. Qed.

End RecommenderFacts.

(* ================================================================== *)
(** * The update priority calculator: further properties *)
(* ================================================================== *)

Module PriorityMoreFacts.
Import Go K8s Priority PrioritySpec PriorityProperties GoFacts SortFacts MapFacts.
Local Open Scope Z_scope.

Section Calculator.
Variable Quantity : Type.
Context `{QuantityOps Quantity}.
Variable evictAfterOOMThreshold : Duration.
Variable GetRecommendationForContainer :
  string -> option (RecommendedPodResources Quantity) ->
  option (RecommendedContainerResources Quantity).

Local Abbreviation getUpdatePriority := (getUpdatePriority GetRecommendationForContainer).
Local Abbreviation AddPod := (AddPod evictAfterOOMThreshold GetRecommendationForContainer).
Local Abbreviation AddPods := (AddPods evictAfterOOMThreshold GetRecommendationForContainer).
Local Abbreviation quickOOM := (quickOOM evictAfterOOMThreshold).
Local Abbreviation less := (@less Quantity).
Local Abbreviation targets := (targets GetRecommendationForContainer).
Local Abbreviation target := (target Quantity).
Local Abbreviation visitStep := (@Invariants.visitStep Quantity _).
Local Abbreviation growing := (@growing Quantity _).
Local Abbreviation outOfRange := (@outOfRange Quantity _).

(** X1: the resource difference that getUpdatePriority computes is never a
    NaN and never negative: its sign bit is clear, whatever the requests and
    the recommendation are (zero or negative totals included, the request
    being raised to 1 before the division). *)
Theorem resourceDiff_never_nan_nor_negative
    (p : Pod Quantity) (rec : option (RecommendedPodResources Quantity)) :
  is_nan (resourceDiff (getUpdatePriority p rec)) = false /\
  signbit (resourceDiff (getUpdatePriority p rec)) = false /\
  f_lt (resourceDiff (getUpdatePriority p rec)) f_zero = false.
Proof.
  pose proof (PriorityFacts.getUpdatePriority_nonneg Quantity GetRecommendationForContainer p rec)
    as Hnonneg.
  destruct (resourceDiff (getUpdatePriority p rec)) as [s|s| |s m e];
    simpl in Hnonneg; try contradiction; subst; repeat split.
Qed.

(** ** The two flags *)

Lemma visitStep_flags (st : loopState) (t : target) :
  st_scaleUp (visitStep st t) = growing t || st_scaleUp st /\
  st_outsideRecommendedRange (visitStep st t) =
    outOfRange t || st_outsideRecommendedRange st.
Proof.
  unfold Invariants.visitStep, PriorityProperties.growing, PriorityProperties.outOfRange,
    resourceStep.
  destruct t as [[c rr] [r q]]. cbn [fst snd].
  destruct (get r (Requests (Resources c))) as [request|]; cbn.
  - split.
    + destruct (MilliValue q >? MilliValue request); reflexivity.
    + match goal with |- (if ?b then _ else _) = _ => destruct b end; reflexivity.
  - split; reflexivity.
Qed.

Lemma fold_visitStep_flags (ts : list target) : forall st,
  st_scaleUp (fold_left visitStep ts st) = existsb growing ts || st_scaleUp st /\
  st_outsideRecommendedRange (fold_left visitStep ts st) =
    existsb outOfRange ts || st_outsideRecommendedRange st.
Proof.
  induction ts as [|t ts IH]; intros st; cbn [fold_left existsb].
  - split; reflexivity.
  - destruct (IH (visitStep st t)) as [Hup Hout].
    destruct (visitStep_flags st t) as [Hup1 Hout1].
    rewrite Hup, Hout, Hup1, Hout1. split.
    + destruct (growing t), (existsb growing ts); reflexivity.
    + destruct (outOfRange t), (existsb outOfRange ts); reflexivity.
Qed.

(** X2: the two flags of getUpdatePriority are disjunctions over the
    recommended targets of the pod (one per container that has a
    recommendation and per resource of its Target): scaleUp holds iff for
    some target the request is missing or the recommended value is above it;
    outsideRecommendedRange holds iff for some target the request is missing,
    below the lower bound or above the upper bound. A flag once set is never
    cleared by a later container. *)
Theorem getUpdatePriority_flags
    (p : Pod Quantity) (rec : option (RecommendedPodResources Quantity)) :
  scaleUp (getUpdatePriority p rec) = existsb growing (targets p rec) /\
  outsideRecommendedRange (getUpdatePriority p rec) = existsb outOfRange (targets p rec).
Proof.
  unfold Priority.getUpdatePriority. cbn [scaleUp outsideRecommendedRange].
  rewrite (PriorityFacts.fold_containerStep_visit Quantity GetRecommendationForContainer).
  fold (recommendedContainers GetRecommendationForContainer p rec).
  fold (targets p rec).
  destruct (fold_visitStep_flags (targets p rec) initialState) as [Hup Hout].
  rewrite Hup, Hout. cbn. rewrite !orb_false_r. split; reflexivity.
Qed.

(** ** A pod without a recommended target *)

Lemma getUpdatePriority_without_targets
    (p : Pod Quantity) (rec : option (RecommendedPodResources Quantity)) :
  targets p rec = [] ->
  getUpdatePriority p rec =
  {| pod := p; outsideRecommendedRange := false; scaleUp := false;
     resourceDiff := f_zero; recommendation := rec |}.
Proof.
  intros Hnone. unfold Priority.getUpdatePriority.
  rewrite (PriorityFacts.fold_containerStep_visit Quantity GetRecommendationForContainer).
  fold (recommendedContainers GetRecommendationForContainer p rec).
  fold (targets p rec). rewrite Hnone. reflexivity.
Qed.

(** X3: a pod none of whose containers has a recommended target (no
    recommendation at all, or none that names one of its containers) gets
    the priority zero: no flag set and a resource difference of +0. With a
    positive MinChangePriority, as the default of 0.10 is, AddPod does not add
    such a pod unless it was OOM-killed quickly, however long it has lived. *)
Theorem AddPod_skips_pod_without_targets
    (calc : UpdatePriorityCalculator Quantity) (p : Pod Quantity)
    (rec processed : option (RecommendedPodResources Quantity))
    (annotations : ContainerToAnnotationsMap) (now : Time) :
  recommendationProcessor calc rec (resourcesPolicy calc) (conditions calc) p
    = Ok (processed, annotations) ->
  targets p processed = [] ->
  f_lt f_zero (MinChangePriority (config calc)) = true ->
  quickOOM p = false ->
  resourceDiff (getUpdatePriority p processed) = f_zero /\
  scaleUp (getUpdatePriority p processed) = false /\
  outsideRecommendedRange (getUpdatePriority p processed) = false /\
  AddPod calc p rec now = calc.
Proof.
  intros Hprocessed Hnone Hpositive Hoom.
  rewrite (getUpdatePriority_without_targets p processed Hnone).
  cbn [resourceDiff scaleUp outsideRecommendedRange].
  repeat split.
  unfold Priority.AddPod. rewrite Hprocessed. cbv zeta.
  rewrite (getUpdatePriority_without_targets p processed Hnone).
  cbn [resourceDiff scaleUp outsideRecommendedRange]. rewrite Hoom. cbn [negb andb].
  destruct (StartTime p) as [startTime|]; [|reflexivity].
  destruct (Time_Before now (Time_Add startTime podLifetimeUpdateThreshold));
    [reflexivity|].
  rewrite Hpositive. reflexivity.
Qed.

(** ** What AddPod leaves alone *)

Lemma AddPod_frame (calc : UpdatePriorityCalculator Quantity) (p : Pod Quantity)
    (rec : option (RecommendedPodResources Quantity)) (now : Time) :
  resourcesPolicy (AddPod calc p rec now) = resourcesPolicy calc /\
  conditions (AddPod calc p rec now) = conditions calc /\
  config (AddPod calc p rec now) = config calc /\
  recommendationProcessor (AddPod calc p rec now) = recommendationProcessor calc /\
  (pods (AddPod calc p rec now) = pods calc \/
   exists entry, pods (AddPod calc p rec now) = pods calc ++ [entry] /\ pod entry = p).
Proof.
  unfold Priority.AddPod.
  destruct (recommendationProcessor calc rec (resourcesPolicy calc) (conditions calc) p)
    as [[processed annotations]|err]; [|repeat split; left; reflexivity].
  cbv zeta.
  assert (Hentry : forall rest : UpdatePriorityCalculator Quantity,
            pods rest = pods calc ++ [getUpdatePriority p processed] ->
            pods rest = pods calc \/
            exists entry, pods rest = pods calc ++ [entry] /\ pod entry = p).
  { intros rest Hrest. right. exists (getUpdatePriority p processed).
    split; [exact Hrest|reflexivity]. }
  destruct (negb (outsideRecommendedRange (getUpdatePriority p processed)) &&
            negb (quickOOM p)).
  - destruct (StartTime p) as [startTime|]; [|repeat split; left; reflexivity].
    destruct (Time_Before now (Time_Add startTime podLifetimeUpdateThreshold));
      [repeat split; left; reflexivity|].
    destruct (f_lt (resourceDiff (getUpdatePriority p processed))
                   (MinChangePriority (config calc)));
      [repeat split; left; reflexivity|].
    repeat split. apply Hentry. reflexivity.
  - repeat split. apply Hentry. reflexivity.
Qed.

(** X5: AddPod never drops, reorders or changes a pod added before, and
    never touches the policy, the conditions, the configuration or the
    processor of the calculator: after any sequence of calls the pods of the
    calculator are the ones it had, followed by at most one entry per call,
    each for a pod of one of the calls. *)
Theorem AddPods_only_appends
    (calc : UpdatePriorityCalculator Quantity)
    (calls : list (Pod Quantity * option (RecommendedPodResources Quantity) * Time)) :
  resourcesPolicy (AddPods calc calls) = resourcesPolicy calc /\
  conditions (AddPods calc calls) = conditions calc /\
  config (AddPods calc calls) = config calc /\
  recommendationProcessor (AddPods calc calls) = recommendationProcessor calc /\
  exists added,
    pods (AddPods calc calls) = pods calc ++ added /\
    (List.length added <= List.length calls)%nat /\
    Forall (fun entry => In (pod entry) (map (fun call => fst (fst call)) calls)) added.
Proof.
  revert calc. induction calls as [|[[p rec] now] calls IH]; intros calc.
  - unfold Priority.AddPods. cbn [fold_left]. repeat (split; [reflexivity|]).
    exists []. rewrite app_nil_r. split; [reflexivity|]. split; [cbn; lia|constructor].
  - unfold Priority.AddPods. cbn [fold_left].
    fold (AddPod calc p rec now).
    fold (AddPods (AddPod calc p rec now) calls).
    destruct (IH (AddPod calc p rec now))
      as (Hpolicy & Hconditions & Hconfig & Hprocessor & added & Hpods & Hlen & Hfrom).
    destruct (AddPod_frame calc p rec now)
      as (Hpolicy1 & Hconditions1 & Hconfig1 & Hprocessor1 & Hpods1).
    rewrite Hpolicy, Hconditions, Hconfig, Hprocessor.
    repeat (split; [assumption|]).
    assert (Hfrom' : Forall (fun entry : podPriority Quantity =>
                               In (pod entry)
                                  (map (fun call : Pod Quantity *
                                                   option (RecommendedPodResources Quantity) *
                                                   Time => fst (fst call))
                                       ((p, rec, now) :: calls))) added).
    { rewrite Forall_forall in Hfrom |- *. intros entry Hin. right. exact (Hfrom _ Hin). }
    destruct Hpods1 as [Hsame|(entry & Hentry & Hpod)].
    + exists added. rewrite Hpods, Hsame.
      split; [reflexivity|]. split; [cbn; lia|exact Hfrom'].
    + exists (entry :: added). rewrite Hpods, Hentry, <- app_assoc.
      split; [reflexivity|]. split; [cbn; lia|].
      constructor; [left; cbn; symmetry; exact Hpod|exact Hfrom'].
Qed.

(** ** GetSortedPods keeps the pods *)

Lemma fold_insertBack_perm (A : Type) (lt : A -> A -> bool) (data : list A) :
  forall rp,
    Permutation (fold_left (fun rp x => insertBack lt x rp) data rp) (rev data ++ rp).
Proof.
  induction data as [|x data IH]; intros rp; cbn [fold_left rev].
  - apply Permutation_refl.
  - rewrite (IH (insertBack lt x rp)), <- app_assoc. cbn [app].
    apply Permutation_app_head. apply insertBack_perm.
Qed.

Lemma sort_Sort_perm (A : Type) (lt : A -> A -> bool) (data : list A) :
  Permutation (sort_Sort lt data) data.
Proof.
  unfold sort_Sort. rewrite <- Permutation_rev.
  rewrite (fold_insertBack_perm A lt data []), app_nil_r.
  symmetry. apply Permutation_rev.
Qed.

(** X4: GetSortedPods loses and invents nothing. The calculator comes back
    with the same pods in another order; without an admission the pods
    returned are, up to the order, exactly the pods added; with an admission
    a pod is returned iff it is the pod of an entry that the admission
    admits with its recommendation. *)
Theorem GetSortedPods_keeps_pods (calc : UpdatePriorityCalculator Quantity) :
  Permutation (fst (GetSortedPods calc None)) (map (@pod Quantity) (pods calc)) /\
  forall admission : PodEvictionAdmission Quantity,
    Permutation (pods (snd (GetSortedPods calc admission))) (pods calc) /\
    config (snd (GetSortedPods calc admission)) = config calc /\
    forall admission_Admit, admission = Some admission_Admit ->
      forall p,
        In p (fst (GetSortedPods calc admission)) <->
        exists entry,
          In entry (pods calc) /\ pod entry = p /\
          admission_Admit (pod entry) (recommendation entry) = true.
Proof.
  unfold Priority.GetSortedPods. cbn [fst snd pods config]. split.
  - rewrite PriorityFacts.filter_all_true by reflexivity.
    apply Permutation_map, sort_Sort_perm.
  - intros admission. split; [apply sort_Sort_perm|]. split; [reflexivity|].
    intros admission_Admit -> p. rewrite in_map_iff. split.
    + intros (entry & Hpod & Hin). apply filter_In in Hin. destruct Hin as [Hin Hadmitted].
      exists entry. repeat split; try assumption.
      apply (Permutation_in _ (sort_Sort_perm _ less (pods calc))). exact Hin.
    + intros (entry & Hin & Hpod & Hadmitted). exists entry. split; [exact Hpod|].
      apply filter_In. split; [|exact Hadmitted].
      apply (Permutation_in _ (Permutation_sym (sort_Sort_perm _ less (pods calc)))).
      exact Hin.
Qed.

(** ** The order of byPriority.Less *)

Lemma f_gt_irrefl a : f_gt a a = false.
Proof.
  unfold f_gt, SFltb.
  destruct a as [sa|sa| |sa ma ea]; simpl; try reflexivity;
    try (destruct sa); simpl; try reflexivity;
    compare_cases; try reflexivity; try lia.
Qed.

Lemma f_gt_asym a b : f_gt a b = true -> f_gt b a = false.
Proof.
  unfold f_gt, SFltb.
  destruct a as [sa|sa| |sa ma ea]; destruct b as [sb|sb| |sb mb eb];
    simpl; try discriminate; try reflexivity;
    try (destruct sa); try (destruct sb); simpl; try reflexivity; try discriminate;
    compare_cases; intros; try reflexivity; try discriminate; try lia.
Qed.

Lemma f_gt_trans a b c : f_gt a b = true -> f_gt b c = true -> f_gt a c = true.
Proof.
  unfold f_gt, SFltb.
  destruct a as [sa|sa| |sa ma ea]; destruct b as [sb|sb| |sb mb eb];
    destruct c as [sc|sc| |sc mc ec];
    simpl; try discriminate;
    try (destruct sa); try (destruct sb); try (destruct sc);
    simpl; try reflexivity; try discriminate;
    compare_cases; intros; try reflexivity; try discriminate; try lia.
Qed.

(** X6: byPriority.Less is a strict order on all entries, a NaN resource
    difference included: no entry is less than itself, no two entries are
    each less than the other, and less is transitive. An index out of range
    panics. *)
Theorem Less_strict_order (a b c : podPriority Quantity) :
  less a a = false /\
  (less a b = true -> less b a = false) /\
  (less a b = true -> less b c = true -> less a c = true) /\
  (forall (list : list (podPriority Quantity)) i j,
     byPriority_Less list i j = Panicked <->
     (List.length list <= i)%nat \/ (List.length list <= j)%nat).
Proof.
  unfold Priority.less. repeat split.
  - rewrite Bool.eqb_reflx. cbn. apply f_gt_irrefl.
  - destruct (scaleUp a), (scaleUp b); cbn; try discriminate; try reflexivity;
      apply f_gt_asym.
  - destruct (scaleUp a), (scaleUp b), (scaleUp c); cbn; try discriminate;
      try reflexivity; apply f_gt_trans.
  - unfold byPriority_Less.
    destruct (nth_error list i) as [x|] eqn:Ei.
    + destruct (nth_error list j) as [y|] eqn:Ej; [discriminate|].
      intros _. right. apply nth_error_None. exact Ej.
    + intros _. left. apply nth_error_None. exact Ei.
  - unfold byPriority_Less. intros [Hi|Hj].
    + apply nth_error_None in Hi. rewrite Hi. reflexivity.
    + apply nth_error_None in Hj. rewrite Hj.
      destruct (nth_error list i); reflexivity.
Qed.

(** ** The order of the last loop *)

Lemma f_add_comm (x y : float64) : f_add x y = f_add y x.
Proof.
  unfold f_add.
  destruct x as [sx|sx| |sx mx ex]; destruct y as [sy|sy| |sy my ey];
    cbn [SFadd]; try reflexivity;
    try (destruct sx, sy; reflexivity).
  cbv zeta. rewrite (Z.min_comm ey ex), Z.add_comm. reflexivity.
Qed.

Lemma f_add_zero_l (x : float64) : Invariants.nonneg x -> f_add f_zero x = x.
Proof.
  destruct x as [s|s| |s m e]; cbn; intros Hx; subst; try reflexivity; contradiction.
Qed.

Lemma relativeDiff_nonneg (request recommended : Z) :
  minInt64 <= request <= maxInt64 ->
  Invariants.nonneg (relativeDiff request recommended).
Proof.
  intros Hrequest. unfold relativeDiff. cbv zeta.
  destruct (math_Max_one_positive request Hrequest) as (m & e & ->).
  apply f_div_nonneg, math_Abs_nonneg, f_sub_finite_not_nan.
  apply float64_of_int64_not_nan.
Qed.

Lemma diffStep_eq (totalRequest : list (ResourceName * Z)) (acc : float64)
    (entry : ResourceName * Z) :
  diffStep totalRequest acc entry =
  f_add acc (relativeDiff (lookup0 (fst entry) totalRequest) (snd entry)).
Proof. destruct entry. reflexivity. Qed.

Lemma fold_diffStep_two (totalRequest entries entries' : list (ResourceName * Z)) :
  Invariants.int64_values totalRequest ->
  Permutation entries' entries ->
  (List.length entries' <= 2)%nat ->
  fold_left (diffStep totalRequest) entries' f_zero
  = fold_left (diffStep totalRequest) entries f_zero.
Proof.
  intros Hrequest Hperm Hlen.
  destruct entries' as [|a [|b [|c rest]]]; [| | |cbn in Hlen; lia].
  - apply Permutation_nil in Hperm. subst. reflexivity.
  - apply Permutation_length_1_inv in Hperm. subst. reflexivity.
  - apply Permutation_length_2_inv in Hperm. destruct Hperm as [->| ->];
      [reflexivity|].
    cbn [fold_left]. rewrite !diffStep_eq.
    rewrite !f_add_zero_l
      by (apply relativeDiff_nonneg, PriorityFacts.int64_values_lookup0, Hrequest).
    apply f_add_comm.
Qed.

(** X26: the last loop of getUpdatePriority ranges over a map, in an order
    that Go leaves unspecified. When at most two resources are recommended
    (cpu and memory, as a rule), the resource difference is the same in
    whichever order the loop visits them: adding to +0 is exact and float64
    addition is commutative. *)
Theorem resourceDiff_in_any_order_of_two
    (p : Pod Quantity) (rec : option (RecommendedPodResources Quantity))
    (entries : list (ResourceName * Z)) :
  Permutation entries
    (totalRecommendedPerResource
       (fold_left (containerStep GetRecommendationForContainer rec) (Containers p)
          initialState)) ->
  (List.length entries <= 2)%nat ->
  fold_left
    (diffStep (totalRequestPerResource
                 (fold_left (containerStep GetRecommendationForContainer rec)
                    (Containers p) initialState)))
    entries f_zero
  = resourceDiff (getUpdatePriority p rec).
Proof.
  intros Hperm Hlen. unfold Priority.getUpdatePriority. cbn [resourceDiff].
  apply fold_diffStep_two; [|exact Hperm|exact Hlen].
  destruct (PriorityFacts.fold_containerStep_int64 Quantity GetRecommendationForContainer
              rec (Containers p) initialState) as [Hrequest _].
  { split; constructor. }
  exact Hrequest.
Qed.

(** ** As time passes *)

(** X24: what AddPod decides depends on the time only through the age of
    the pod: a pod that is added at one time is added, with the same entry,
    at any later time, everything else being the same. *)
Theorem AddPod_accepts_later
    (calc : UpdatePriorityCalculator Quantity) (p : Pod Quantity)
    (rec : option (RecommendedPodResources Quantity)) (now later : Time)
    (entry : podPriority Quantity) :
  now <= later ->
  pods (AddPod calc p rec now) = pods calc ++ [entry] ->
  AddPod calc p rec later = AddPod calc p rec now.
Proof.
  intros Hlater. unfold Priority.AddPod.
  destruct (recommendationProcessor calc rec (resourcesPolicy calc) (conditions calc) p)
    as [[processed annotations]|err]; [|reflexivity].
  cbv zeta.
  destruct (negb (outsideRecommendedRange (getUpdatePriority p processed)) &&
            negb (quickOOM p)); [|reflexivity].
  destruct (StartTime p) as [startTime|]; [|reflexivity].
  unfold Time_Before.
  destruct (Z.ltb_spec now (Time_Add startTime podLifetimeUpdateThreshold)) as [Hyoung|Hold].
  - intros Hadded. exfalso. exact (PriorityFacts.app_one_neq _ _ _ Hadded).
  - intros _.
    destruct (Z.ltb_spec later (Time_Add startTime podLifetimeUpdateThreshold));
      [lia|reflexivity].
Qed.

End Calculator.

(** ** On the sample pods *)

(** [P1] with a recommendation for a container it does not have, one day
    after its start: not added. *)
Lemma AddPod_skips_pod_without_targets_witness :
  resourceDiff (getUpdatePriority Samples.lookupRecommendation Samples.P1
                  MoreSamples.recOther) = f_zero /\
  scaleUp (getUpdatePriority Samples.lookupRecommendation Samples.P1
             MoreSamples.recOther) = false /\
  outsideRecommendedRange (getUpdatePriority Samples.lookupRecommendation Samples.P1
                             MoreSamples.recOther) = false /\
  AddPod evictAfterOOMThreshold_default Samples.lookupRecommendation
    Samples.defaultCalculator Samples.P1 MoreSamples.recOther Samples.oneDay
  = Samples.defaultCalculator.
Proof.
  apply (@AddPod_skips_pod_without_targets Samples.MilliQuantity _
           evictAfterOOMThreshold_default Samples.lookupRecommendation
           Samples.defaultCalculator Samples.P1 MoreSamples.recOther
           MoreSamples.recOther [] Samples.oneDay); reflexivity.
Defined.

(** A pod with a cpu and a memory target: memory first, then cpu. *)
Lemma resourceDiff_in_any_order_of_two_witness :
  fold_left
    (diffStep (totalRequestPerResource
                 (fold_left (containerStep Samples.lookupRecommendation MoreSamples.recBoth)
                    (Containers MoreSamples.podBoth) initialState)))
    [(ResourceMemory, 2000); (ResourceCPU, 300)] f_zero
  = resourceDiff (getUpdatePriority Samples.lookupRecommendation
                    MoreSamples.podBoth MoreSamples.recBoth).
Proof.
  apply (@resourceDiff_in_any_order_of_two Samples.MilliQuantity _
           Samples.lookupRecommendation MoreSamples.podBoth MoreSamples.recBoth
           [(ResourceMemory, 2000); (ResourceCPU, 300)]).
  - apply perm_swap.
  - cbn. lia.
Defined.

(** [P1], added one day after its start, is added two days after it. *)
Lemma AddPod_accepts_later_witness :
  AddPod evictAfterOOMThreshold_default Samples.lookupRecommendation
    Samples.defaultCalculator Samples.P1 Samples.rec1 (2 * Samples.oneDay)
  = AddPod evictAfterOOMThreshold_default Samples.lookupRecommendation
      Samples.defaultCalculator Samples.P1 Samples.rec1 Samples.oneDay.
Proof.
  apply (@AddPod_accepts_later Samples.MilliQuantity _
           evictAfterOOMThreshold_default Samples.lookupRecommendation
           Samples.defaultCalculator Samples.P1 Samples.rec1
           Samples.oneDay (2 * Samples.oneDay)
           (getUpdatePriority Samples.lookupRecommendation Samples.P1 Samples.rec1)).
  - vm_compute. discriminate.
  - reflexivity.
Defined.

End PriorityMoreFacts.

(* ================================================================== *)
(** * The admission server: further properties *)
(* ================================================================== *)

Module AdmissionMoreFacts.
Import Go K8s Admission AdmissionSpec AdmissionProperties GoFacts MapFacts.
Local Open Scope string_scope.
Local Open Scope list_scope.

Section Server.
Variable Quantity : Type.
Context `{QuantityOps Quantity}.
Variable json_Marshal : list (patchRecord Quantity) -> result string.
Variable json_Marshal_review : AdmissionResponse -> result string.

Local Abbreviation admit_ := (admit_ json_Marshal).
Local Abbreviation Serve := (Serve json_Marshal json_Marshal_review).
Local Abbreviation containerPatches := (@containerPatches Quantity _).
Local Abbreviation containerAnnotation := (@containerAnnotation Quantity).
Local Abbreviation podPatches := (@podPatches Quantity _).
Local Abbreviation defaultUpdatePolicyPatch := (defaultUpdatePolicyPatch Quantity).
Local Abbreviation agreeOnNamedPods := (@agreeOnNamedPods Quantity).

(** ** Validation on create and on update *)

(** X7: validation on create is validation on update plus the test of
    TargetRef: a config passes on create iff it passes on update and names
    its target, and a config refused on update is refused on create with the
    same message. *)
Theorem validateVPA_create_stricter (vpa : VerticalPodAutoscaler Quantity) :
  (validateVPA vpa true = None <->
   validateVPA vpa false = None /\ TargetRef (Spec vpa) <> None) /\
  (forall err, validateVPA vpa false = Some err -> validateVPA vpa true = Some err).
Proof.
  unfold validateVPA.
  match goal with
  | |- context [match ?first with Some _ => _ | None => _ end] =>
      lazymatch first with
      | context [UpdatePolicy] => destruct first as [err1|]
      end
  end.
  - split; [split; [discriminate|intros [Hx _]; discriminate]|auto].
  - destruct (match ResourcePolicy (Spec vpa) with
              | Some resourcePolicy =>
                  validateContainerPolicies (ContainerPolicies resourcePolicy)
              | None => None
              end) as [err2|].
    + split; [split; [discriminate|intros [Hx _]; discriminate]|auto].
    + destruct (TargetRef (Spec vpa)) as [ref|].
      * split; [split; [intros _; split; [reflexivity|discriminate]|reflexivity]|auto].
      * split; [split; [discriminate|intros [_ Hx]; contradiction]|discriminate].
Qed.

(** ** The default update policy *)

(** X8: a config request that is not denied is answered with Allowed = true
    and the resource Vpa; if the config, as the pre-processor returns it, has
    an update policy, nothing is patched and the status is Skipped; if it
    has none, the patch is the single add of /spec/updatePolicy with the
    update mode Auto and the status is Applied, or Error without a patch if
    the patch cannot be marshalled. *)
Theorem admit_defaults_update_policy
    (s : AdmissionServer Quantity) (request : AdmissionRequest Quantity)
    (vpa processed : VerticalPodAutoscaler Quantity) :
  isConfigRequest request ->
  asVPA (Object request) = Ok vpa ->
  vpaPreProcessor s vpa (isCreate request) = Ok processed ->
  validateVPA processed (isCreate request) = None ->
  exists r,
    admit_ s (Ok {| Request := Some request |}) = Returned r /\
    Allowed (response r) = true /\
    Result (response r) = None /\
    resource r = VpaResource /\
    onAdmittedPod r = None /\
    match UpdatePolicy (Spec processed) with
    | Some _ =>
        status r = Skipped /\ Patch (response r) = None /\ PatchType (response r) = None
    | None =>
        match json_Marshal [defaultUpdatePolicyPatch] with
        | Ok patch =>
            status r = Applied /\ Patch (response r) = Some patch /\
            PatchType (response r) = Some PatchTypeJSONPatch
        | Err _ =>
            status r = Error /\ Patch (response r) = None /\ PatchType (response r) = None
        end
    end.
Proof.
  intros (Hpod & Hgroup & Hresource) Hdecoded Hprocessed Hvalid.
  unfold isCreate in *. unfold Admission.admit_. cbn [Request].
  rewrite Hpod. unfold GroupResource_eqb. cbn [GR_Group GR_Resource vpaGroupResource].
  rewrite Hgroup, Hresource. cbn [String.eqb Ascii.eqb Bool.eqb andb].
  unfold getPatchesForVPADefaults, parseVPA.
  rewrite Hdecoded, Hprocessed, Hvalid.
  unfold AdmissionProperties.defaultUpdatePolicyPatch.
  destruct (UpdatePolicy (Spec processed)) as [updatePolicy|].
  - eexists. split; [reflexivity|]. cbn. repeat split.
  - cbn [List.length Nat.ltb Nat.leb].
    destruct (json_Marshal _) as [patch|err];
      eexists; (split; [reflexivity|]); cbn; repeat split.
Qed.

(** ** What a response always satisfies *)

Lemma GroupVersionResource_eqb_eq (a b : GroupVersionResource) :
  GroupVersionResource_eqb a b = true <-> a = b.
Proof.
  unfold GroupVersionResource_eqb. rewrite !andb_true_iff, !String.eqb_eq.
  destruct a, b; cbn. split.
  - intros [[-> ->] ->]. reflexivity.
  - intros [= -> -> ->]. auto.
Qed.

(** X9: whatever the request, a response that admit returns carries a patch
    iff the status is Applied, and then the patch type JSONPatch; it is
    denied only for a config (resource Vpa), with the status Error and a
    result status, and a result status is only set on a denial; a request
    for a resource other than pods and configs is allowed unchanged with the
    status Error and the resource Unknown; and OnAdmittedPod is called
    exactly for the pod requests that end without an error, with true iff
    the status is Applied. *)
Theorem admit_response_invariants
    (s : AdmissionServer Quantity) (data : result (AdmissionReview Quantity))
    (r : admitted) :
  admit_ s data = Returned r ->
  (status r = Applied <-> Patch (response r) <> None) /\
  (Patch (response r) <> None <-> PatchType (response r) = Some PatchTypeJSONPatch) /\
  (Allowed (response r) = false ->
   resource r = VpaResource /\ status r = Error /\ Result (response r) <> None) /\
  (Result (response r) <> None -> Allowed (response r) = false) /\
  (resource r = Unknown -> response r = allowedResponse /\ status r = Error) /\
  onAdmittedPod r =
    match resource r, status r with
    | PodResource, Applied => Some true
    | PodResource, Skipped => Some false
    | _, _ => None
    end /\
  forall request, data = Ok {| Request := Some request |} ->
    (resource r = PodResource <-> Request_Resource request = podResource) /\
    (resource r = VpaResource <->
     Request_Resource request <> podResource /\
     Group (Request_Resource request) = "autoscaling.k8s.io" /\
     Resource (Request_Resource request) = "verticalpodautoscalers").
Proof.
  unfold Admission.admit_. destruct data as [ar|err].
  2:{ intros [= <-]. cbn. repeat split; try discriminate; try congruence;
        try (intros Hx; discriminate). }
  destruct (Request ar) as [request|] eqn:Erequest; [|discriminate].
  destruct ar as [request0]. cbn in Erequest. subst request0.
  assert (Hclass : forall request',
            Ok {| Request := Some request |} = Ok {| Request := Some request' |} ->
            request' = request).
  { intros request' [= ->]. reflexivity. }
  destruct (GroupVersionResource_eqb (Request_Resource request) podResource) eqn:Epod.
  - apply GroupVersionResource_eqb_eq in Epod.
    destruct (getPatchesForPodResourceRequest s (Object request)
                (Request_Namespace request)) as [[patches|err]|]; [| |discriminate];
      [destruct (0 <? List.length patches)%nat;
         [destruct (json_Marshal patches) as [patch|err]|]|];
      intros [= <-]; cbn; repeat split;
      repeat match goal with
             | Hx : Ok _ = Ok _ |- _ => apply Hclass in Hx; subst
             end;
      try discriminate; try congruence; tauto.
  - assert (Hnot : Request_Resource request <> podResource).
    { intros Hx. apply GroupVersionResource_eqb_eq in Hx. congruence. }
    destruct (GroupResource_eqb _ vpaGroupResource) eqn:Evpa.
    + assert (Hvpa : Group (Request_Resource request) = "autoscaling.k8s.io" /\
                     Resource (Request_Resource request) = "verticalpodautoscalers").
      { unfold GroupResource_eqb in Evpa. cbn in Evpa.
        apply andb_true_iff in Evpa. rewrite !String.eqb_eq in Evpa. exact Evpa. }
      destruct (getPatchesForVPADefaults s (Object request) _) as [patches|err];
        [destruct (0 <? List.length patches)%nat;
           [destruct (json_Marshal patches) as [patch|err]|]|];
        intros [= <-]; cbn; repeat split;
        repeat match goal with
               | Hx : Ok _ = Ok _ |- _ => apply Hclass in Hx; subst
               end;
        try discriminate; try congruence; tauto.
    + assert (Hnvpa : ~ (Group (Request_Resource request) = "autoscaling.k8s.io" /\
                         Resource (Request_Resource request) = "verticalpodautoscalers")).
      { intros [Hg Hr]. unfold GroupResource_eqb in Evpa. cbn in Evpa.
        rewrite Hg, Hr in Evpa. cbn in Evpa. discriminate. }
      intros [= <-]; cbn; repeat split;
        repeat match goal with
               | Hx : Ok _ = Ok _ |- _ => apply Hclass in Hx; subst
               end;
        try discriminate; try congruence; tauto.
Qed.

(** ** The patch of a pod, in general *)

Lemma getContainerPatch_eq (pod : Pod Quantity) (i : nat)
    (annotations : ContainerToAnnotationsMap)
    (containerResources : ContainerResources Quantity) :
  getContainerPatch pod i annotations containerResources =
  match nth_error (Containers pod) i with
  | Some _ => Some (containerPatches pod i containerResources,
                    containerAnnotation annotations pod i containerResources)
  | None => None
  end.
Proof.
  unfold getContainerPatch, AdmissionProperties.containerPatches,
    AdmissionProperties.containerAnnotation, providedAnnotations,
    AdmissionProperties.fieldPatches, AdmissionProperties.valuePatches.
  destruct (nth_error (Containers pod) i) as [container|]; [|reflexivity].
  rewrite !(AdmissionFacts.appendPatchesAndAnnotations_eq Quantity).
  assert (Hpositive : forall n : nat, (0 <? n)%nat = negb (Nat.eqb n 0)).
  { intros [|n]; reflexivity. }
  rewrite !Hpositive, <- !app_assoc. reflexivity.
Qed.

Lemma containerPatchesFrom_some (pod : Pod Quantity)
    (annotations : ContainerToAnnotationsMap)
    (containersResources : list (ContainerResources Quantity)) :
  forall (i : nat) (patches : list (patchRecord Quantity)) (updates : list string),
    i + List.length containersResources <= List.length (Containers pod) ->
    containerPatchesFrom pod annotations i containersResources patches updates
    = Some (patches ++ List.concat (indexedFrom (containerPatches pod) i
                                      containersResources),
            updates ++ indexedFrom (containerAnnotation annotations pod) i
                         containersResources).
Proof.
  induction containersResources as [|cr rest IH]; intros i patches updates Hlen;
    cbn [containerPatchesFrom indexedFrom List.concat].
  - rewrite !app_nil_r. reflexivity.
  - rewrite getContainerPatch_eq.
    destruct (nth_error (Containers pod) i) as [container|] eqn:Enth.
    + rewrite IH by (cbn [List.length] in Hlen; lia).
      rewrite <- !app_assoc. reflexivity.
    + apply nth_error_None in Enth. cbn [List.length] in Hlen. lia.
Qed.

Lemma containerPatchesFrom_none (pod : Pod Quantity)
    (annotations : ContainerToAnnotationsMap)
    (containersResources : list (ContainerResources Quantity)) :
  forall (i : nat) (patches : list (patchRecord Quantity)) (updates : list string),
    containersResources <> [] ->
    List.length (Containers pod) < i + List.length containersResources ->
    containerPatchesFrom pod annotations i containersResources patches updates = None.
Proof.
  induction containersResources as [|cr rest IH]; intros i patches updates Hsome Hlen;
    [contradiction|].
  cbn [containerPatchesFrom]. rewrite getContainerPatch_eq.
  destruct (nth_error (Containers pod) i) as [container|] eqn:Enth; [|reflexivity].
  assert (Hi : i < List.length (Containers pod)).
  { apply nth_error_Some. congruence. }
  apply IH.
  - destruct rest; [cbn [List.length] in Hlen; lia|discriminate].
  - cbn [List.length] in Hlen. lia.
Qed.

Lemma containerPatches_add (pod : Pod Quantity) (i : nat)
    (containerResources : ContainerResources Quantity) patch :
  In patch (containerPatches pod i containerResources) -> Op patch = "add".
Proof.
  unfold AdmissionProperties.containerPatches, AdmissionProperties.fieldPatches,
    AdmissionProperties.valuePatches.
  destruct (nth_error (Containers pod) i) as [container|]; [|contradiction].
  rewrite !in_app_iff, !in_map_iff.
  intros [Hin|[[Hin|Hin]|[Hin|Hin]]];
    repeat match goal with
           | Hx : In _ (if ?b then _ else _) |- _ => destruct b
           | Hx : In _ [_] |- _ => destruct Hx as [<-|[]]
           | Hx : In _ [] |- _ => destruct Hx
           | Hx : exists _, _ |- _ => destruct Hx as (entry & <- & _)
           end; reflexivity.
Qed.

Lemma indexedFrom_containerPatches_add (pod : Pod Quantity)
    (containersResources : list (ContainerResources Quantity)) : forall i patch,
  In patch (List.concat (indexedFrom (containerPatches pod) i containersResources)) ->
  Op patch = "add".
Proof.
  induction containersResources as [|cr rest IH]; intros i patch;
    cbn [indexedFrom List.concat]; [contradiction|].
  rewrite in_app_iff. intros [Hin|Hin].
  - exact (containerPatches_add pod i cr patch Hin).
  - exact (IH (S i) patch Hin).
Qed.

(** X10: getPatchesForPodResourceRequest panics (index out of range) exactly
    when the pod decodes, the provider and the pod pre-processor succeed, and
    the provider returns resources for more containers than the
    pre-processed pod has. *)
Theorem pod_patch_panics_iff
    (s : AdmissionServer Quantity) (raw : RawExtension Quantity) (namespace : string) :
  getPatchesForPodResourceRequest s raw namespace = Panicked <->
  exists decoded containersResources annotations vpaName pod,
    asPod raw = Ok decoded /\
    recommendationProvider s (withGeneratedName decoded namespace)
      = Ok (containersResources, annotations, vpaName) /\
    podPreProcessor s (withGeneratedName decoded namespace) = Ok pod /\
    List.length (Containers pod) < List.length containersResources.
Proof.
  unfold getPatchesForPodResourceRequest.
  destruct (asPod raw) as [decoded|err].
  2:{ split; [discriminate|]. intros (d & c & a & v & p & Hx & _). discriminate. }
  cbv zeta.
  destruct (recommendationProvider s (withGeneratedName decoded namespace))
    as [[[containersResources annotations] vpaName]|err] eqn:Eprovider.
  2:{ split; [discriminate|]. intros (d & c & a & v & p & [= <-] & Hx & _).
      congruence. }
  destruct (podPreProcessor s (withGeneratedName decoded namespace))
    as [pod|err] eqn:Epre.
  2:{ split; [discriminate|]. intros (d & c & a & v & p & [= <-] & _ & Hx & _).
      congruence. }
  destruct (Nat.le_gt_cases (List.length containersResources)
              (List.length (Containers pod))) as [Hfits|Hmore].
  - rewrite containerPatchesFrom_some by (cbn; lia). cbn [fst snd app].
    split.
    + destruct (0 <? _)%nat; [destruct (Annotations pod)|]; discriminate.
    + intros (d & c & a & v & p & [= <-] & Hc & Hp & Hx).
      rewrite Eprovider in Hc. rewrite Epre in Hp.
      injection Hc as <- <- <-. injection Hp as <-. lia.
  - rewrite containerPatchesFrom_none.
    + split; [|reflexivity]. intros _.
      exists decoded, containersResources, annotations, vpaName, pod. auto.
    + intros ->. cbn in Hmore. lia.
    + cbn. lia.
Qed.

(** X11: when the provider returns resources for no more containers than the
    pre-processed pod has, the patch is, for each container in order: the
    add of the empty resources object if the container declares neither
    limits nor requests; the add of the empty requests object if it declares
    none and a request is to be set, and one add per request; the same for
    the limits; and last the add of the vpaUpdates annotation. Every
    operation is an add, and the patch is empty exactly when the provider
    returned resources for no container at all (an entry without any value
    still yields the annotation). *)
Theorem pod_patch_exact
    (s : AdmissionServer Quantity) (raw : RawExtension Quantity) (namespace : string)
    (decoded pod : Pod Quantity)
    (containersResources : list (ContainerResources Quantity))
    (annotations : option ContainerToAnnotationsMap) (vpaName : string) :
  asPod raw = Ok decoded ->
  recommendationProvider s (withGeneratedName decoded namespace)
    = Ok (containersResources, annotations, vpaName) ->
  podPreProcessor s (withGeneratedName decoded namespace) = Ok pod ->
  List.length containersResources <= List.length (Containers pod) ->
  let patches :=
    podPatches pod containersResources
      (match annotations with Some provided => provided | None => [] end) vpaName in
  getPatchesForPodResourceRequest s raw namespace = Returned (Ok patches) /\
  Forall (fun patch => Op patch = "add") patches /\
  (patches = [] <-> containersResources = []).
Proof.
  intros Hraw Hprovider Hpre Hfits patches. split; [|split].
  - unfold getPatchesForPodResourceRequest.
    rewrite Hraw. cbv zeta. rewrite Hprovider, Hpre.
    rewrite containerPatchesFrom_some by (cbn; lia). cbn [app].
    rewrite (AdmissionFacts.indexedFrom_length).
    subst patches. unfold AdmissionProperties.podPatches, vpaUpdatesPatch.
    destruct containersResources as [|cr rest]; [reflexivity|].
    cbn [List.length Nat.ltb Nat.leb].
    destruct (Annotations pod); reflexivity.
  - subst patches. unfold AdmissionProperties.podPatches.
    destruct containersResources as [|cr rest]; [constructor|].
    apply Forall_app. split.
    + rewrite Forall_forall. apply indexedFrom_containerPatches_add.
    + constructor; [|constructor]. unfold vpaUpdatesPatch.
      destruct (Annotations pod); reflexivity.
  - subst patches. unfold AdmissionProperties.podPatches.
    destruct containersResources as [|cr rest]; [split; reflexivity|].
    split; [|discriminate].
    intros Hx. apply (f_equal (@List.length _)) in Hx.
    rewrite length_app in Hx. cbn in Hx. lia.
Qed.

(** X25: the response to a pod request whose patches are computed without
    an error carries exactly the marshalled list of those patches: an empty
    list leaves the response without a patch, with the status Skipped and
    OnAdmittedPod(false); a list that is not empty is marshalled into the
    patch, with the status Applied and OnAdmittedPod(true), or, if it cannot
    be marshalled, dropped with the status Error. The pod is allowed in
    every case. *)
Theorem admit_pod_patch
    (s : AdmissionServer Quantity) (request : AdmissionRequest Quantity)
    (patches : list (patchRecord Quantity)) :
  isPodRequest request ->
  getPatchesForPodResourceRequest s (Object request) (Request_Namespace request)
    = Returned (Ok patches) ->
  exists r,
    admit_ s (Ok {| Request := Some request |}) = Returned r /\
    Allowed (response r) = true /\
    Result (response r) = None /\
    resource r = PodResource /\
    match patches with
    | [] =>
        status r = Skipped /\ Patch (response r) = None /\
        onAdmittedPod r = Some false
    | _ :: _ =>
        match json_Marshal patches with
        | Ok patch =>
            status r = Applied /\ Patch (response r) = Some patch /\
            PatchType (response r) = Some PatchTypeJSONPatch /\
            onAdmittedPod r = Some true
        | Err _ =>
            status r = Error /\ Patch (response r) = None /\ onAdmittedPod r = None
        end
    end.
Proof.
  intros Hpod Hpatches. unfold isPodRequest in Hpod.
  unfold Admission.admit_. cbn [Request]. rewrite Hpod.
  change (GroupVersionResource_eqb podResource podResource) with true. cbv iota.
  rewrite Hpatches.
  destruct patches as [|patch rest].
  - eexists. split; [reflexivity|]. cbn. repeat split.
  - change (0 <? List.length (patch :: rest))%nat with true. cbv iota.
    destruct (json_Marshal (patch :: rest)) as [marshalled|err];
      eexists; (split; [reflexivity|]); cbn; repeat split.
Qed.

(** ** The name of the pod *)

Lemma withGeneratedName_named (pod : Pod Quantity) (namespace : string) :
  Pod_Name (withGeneratedName pod namespace) <> "".
Proof.
  unfold withGeneratedName.
  destruct (Pod_Name pod) as [|c name] eqn:Ename; cbn.
  - destruct (GenerateName pod); discriminate.
  - rewrite Ename. discriminate.
Qed.

(** X12: the provider and the pod pre-processor are never called on a pod
    without a name: a pod that comes without one is given its GenerateName
    followed by a percent sign, and the namespace of the request; a pod with
    a name is passed as it is, the namespace of the request ignored. So two
    servers that agree on the pods that have a name answer every request
    alike. *)
Theorem provider_gets_named_pod
    (s s' : AdmissionServer Quantity) (raw : RawExtension Quantity) (namespace : string) :
  (forall pod : Pod Quantity,
     Pod_Name (withGeneratedName pod namespace) <> "" /\
     (Pod_Name pod <> "" -> withGeneratedName pod namespace = pod) /\
     (Pod_Name pod = "" ->
      Pod_Name (withGeneratedName pod namespace) = (GenerateName pod ++ "%")%string /\
      Pod_Namespace (withGeneratedName pod namespace) = namespace /\
      Containers (withGeneratedName pod namespace) = Containers pod /\
      Annotations (withGeneratedName pod namespace) = Annotations pod)) /\
  (agreeOnNamedPods s s' ->
   getPatchesForPodResourceRequest s raw namespace
   = getPatchesForPodResourceRequest s' raw namespace).
Proof.
  split.
  - intros pod. split; [apply withGeneratedName_named|].
    unfold withGeneratedName. destruct (Pod_Name pod) as [|c name]; cbn.
    + split; [intros Hx; contradiction|]. intros _. repeat split.
    + split; [reflexivity|discriminate].
  - intros Hagree. unfold getPatchesForPodResourceRequest.
    destruct (asPod raw) as [decoded|err]; [|reflexivity]. cbv zeta.
    destruct (Hagree (withGeneratedName decoded namespace)
                (withGeneratedName_named decoded namespace)) as [-> ->].
    reflexivity.
Qed.

(** ** Serve *)

(** X13: Serve calls admit only on a request whose content type is
    application/json; on any other it writes nothing and observes the status
    Error on the resource Unknown. It panics only if admit does. Whenever it
    writes, what it writes is the marshalled review of the response of
    admit, and it observes the status and the resource that admit returned;
    whenever it writes nothing, it observes the status Error. *)
Theorem Serve_outcomes
    (s : AdmissionServer Quantity) (w : string -> error) (r : Request_ Quantity) :
  (ContentType r <> "application/json" ->
   Serve s w r = Returned {| written := None; observed := (Error, Unknown) |}) /\
  (Serve s w r = Panicked <->
   ContentType r = "application/json" /\ admit_ s (Body r) = Panicked) /\
  forall sv, Serve s w r = Returned sv ->
    (written sv = None -> fst (observed sv) = Error) /\
    (forall resp, written sv = Some resp ->
       ContentType r = "application/json" /\
       w resp = None /\
       exists reviewed,
         admit_ s (Body r) = Returned reviewed /\
         json_Marshal_review (response reviewed) = Ok resp /\
         observed sv = (status reviewed, resource reviewed)).
Proof.
  unfold Admission.Serve.
  destruct (String.eqb_spec (ContentType r) "application/json") as [Hjson|Hother];
    cbn [negb].
  - split; [intros Hx; contradiction|].
    destruct (admit_ s (Body r)) as [reviewed|].
    + split; [split; [|intros [_ Hx]; discriminate]|].
      * destruct (json_Marshal_review (response reviewed)) as [resp|err];
          [destruct (w resp)|]; discriminate.
      * intros sv.
        destruct (json_Marshal_review (response reviewed)) as [resp|err] eqn:Emarshal.
        -- destruct (w resp) as [err|] eqn:Ewrite; intros [= <-]; cbn.
           ++ split; [reflexivity|discriminate].
           ++ split; [discriminate|]. intros resp' [= <-].
              split; [exact Hjson|]. split; [exact Ewrite|].
              exists reviewed. auto.
        -- intros [= <-]. cbn. split; [reflexivity|discriminate].
    + split; [split; auto|]. intros sv Hx. discriminate.
  - split; [reflexivity|]. split.
    + split; [discriminate|]. intros [Hx _]. contradiction.
    + intros sv [= <-]. cbn. split; [reflexivity|discriminate].
Qed.

End Server.

(** ** On the sample requests *)

(** The sample config has no update policy: it is patched with the default. *)
Lemma admit_defaults_update_policy_witness :
  exists r,
    admit_ Samples.marshal Samples.server
      (Ok {| Request := Some Samples.configRequest |}) = Returned r /\
    Allowed (response r) = true /\
    Result (response r) = None /\
    resource r = VpaResource /\
    onAdmittedPod r = None /\
    status r = Applied /\ Patch (response r) = Some "[...]" /\
    PatchType (response r) = Some PatchTypeJSONPatch.
Proof.
  apply (@admit_defaults_update_policy Samples.MilliQuantity _ Samples.marshal
           Samples.server Samples.configRequest Samples.validConfig Samples.validConfig).
  - repeat split.
  - reflexivity.
  - reflexivity.
  - reflexivity.
Defined.

(** The response to the sample pod request. *)
Lemma admit_response_invariants_witness :
  (status MoreSamples.admittedPod = Applied <->
   Patch (response MoreSamples.admittedPod) <> None) /\
  (Patch (response MoreSamples.admittedPod) <> None <->
   PatchType (response MoreSamples.admittedPod) = Some PatchTypeJSONPatch) /\
  (Allowed (response MoreSamples.admittedPod) = false ->
   resource MoreSamples.admittedPod = VpaResource /\
   status MoreSamples.admittedPod = Error /\
   Result (response MoreSamples.admittedPod) <> None) /\
  (Result (response MoreSamples.admittedPod) <> None ->
   Allowed (response MoreSamples.admittedPod) = false) /\
  (resource MoreSamples.admittedPod = Unknown ->
   response MoreSamples.admittedPod = allowedResponse /\
   status MoreSamples.admittedPod = Error) /\
  onAdmittedPod MoreSamples.admittedPod =
    match resource MoreSamples.admittedPod, status MoreSamples.admittedPod with
    | PodResource, Applied => Some true
    | PodResource, Skipped => Some false
    | _, _ => None
    end /\
  forall request, Ok {| Request := Some Samples.podRequest |}
                  = Ok {| Request := Some request |} ->
    (resource MoreSamples.admittedPod = PodResource <->
     Request_Resource request = podResource) /\
    (resource MoreSamples.admittedPod = VpaResource <->
     Request_Resource request <> podResource /\
     Group (Request_Resource request) = "autoscaling.k8s.io" /\
     Resource (Request_Resource request) = "verticalpodautoscalers").
Proof.
  apply (@admit_response_invariants Samples.MilliQuantity _ Samples.marshal
           Samples.server (Ok {| Request := Some Samples.podRequest |})
           MoreSamples.admittedPod).
  reflexivity.
Defined.

(** The sample pod request: its patch is marshalled into the response. *)
Lemma admit_pod_patch_witness :
  exists r,
    admit_ Samples.marshal Samples.server (Ok {| Request := Some Samples.podRequest |})
      = Returned r /\
    Allowed (response r) = true /\
    Result (response r) = None /\
    resource r = PodResource /\
    status r = Applied /\ Patch (response r) = Some "[...]" /\
    PatchType (response r) = Some PatchTypeJSONPatch /\
    onAdmittedPod r = Some true.
Proof.
  apply (@admit_pod_patch Samples.MilliQuantity _ Samples.marshal Samples.server
           Samples.podRequest
           (requestsOnlyPatch Samples.P1
              [{| CR_Limits := None; CR_Requests := Samples.cpu 300 |}] [] "my-vpa")).
  - reflexivity.
  - reflexivity.
Defined.

(** A container without requests and limits that is given both. *)
Lemma pod_patch_exact_witness :
  getPatchesForPodResourceRequest MoreSamples.serverWithLimits
    MoreSamples.bareObject "default"
  = Returned (Ok (podPatches Samples.MilliQuantity Samples.podNoRequest
                    [{| CR_Limits := Samples.cpu 600; CR_Requests := Samples.cpu 300 |}]
                    [] "my-vpa")) /\
  Forall (fun patch => Op patch = "add")
    (podPatches Samples.MilliQuantity Samples.podNoRequest
       [{| CR_Limits := Samples.cpu 600; CR_Requests := Samples.cpu 300 |}]
       [] "my-vpa") /\
  (podPatches Samples.MilliQuantity Samples.podNoRequest
     [{| CR_Limits := Samples.cpu 600; CR_Requests := Samples.cpu 300 |}]
     [] "my-vpa" = [] <->
   [{| CR_Limits := Samples.cpu 600; CR_Requests := Samples.cpu 300 |}] = []).
Proof.
  apply (@pod_patch_exact Samples.MilliQuantity _ MoreSamples.serverWithLimits
           MoreSamples.bareObject "default" Samples.podNoRequest Samples.podNoRequest
           [{| CR_Limits := Samples.cpu 600; CR_Requests := Samples.cpu 300 |}]
           None "my-vpa").
  - reflexivity.
  - reflexivity.
  - reflexivity.
  - cbn. lia.
Defined.

(** The patch of that container, in full. *)
Example pod_patch_of_bare_container :
  getPatchesForPodResourceRequest MoreSamples.serverWithLimits
    MoreSamples.bareObject "default"
  = Returned (Ok
      [{| Op := "add"; Path := "/spec/containers/0/resources";
          Value := ResourceRequirementsValue {| Limits := None; Requests := None |} |};
       {| Op := "add"; Path := "/spec/containers/0/resources/requests";
          Value := ResourceListValue (Some []) |};
       {| Op := "add"; Path := "/spec/containers/0/resources/requests/cpu";
          Value := StringValue Samples.MilliQuantity "300m" |};
       {| Op := "add"; Path := "/spec/containers/0/resources/limits";
          Value := ResourceListValue (Some []) |};
       {| Op := "add"; Path := "/spec/containers/0/resources/limits/cpu";
          Value := StringValue Samples.MilliQuantity "600m" |};
       {| Op := "add"; Path := "/metadata/annotations";
          Value := AnnotationsValue Samples.MilliQuantity
                     [("vpaUpdates",
                       "Pod resources updated by my-vpa: container 0: cpu request, cpu limit")]
       |}]).
Proof. reflexivity. Qed.

End AdmissionMoreFacts.

(* ================================================================== *)
(** * The limit range calculator: further properties *)
(* ================================================================== *)

Module LimitRangeMoreFacts.
Import Go K8s LimitRangeCalculator LimitRangeSpec LimitRangeProperties GoFacts MapFacts.
Local Open Scope string_scope.
Local Open Scope list_scope.

Section Calculator.
Variable Quantity : Type.
Context `{QuantityOps Quantity}.

Local Abbreviation atMost := (@atMost Quantity _).
Local Abbreviation atLeast := (@atLeast Quantity _).
Local Abbreviation pickLowerMax := (@pickLowerMax Quantity _).
Local Abbreviation chooseHigherMin := (@chooseHigherMin Quantity _).
Local Abbreviation bothUpdated := (Invariants.bothUpdated Quantity).
Local Abbreviation combinedSoFar := (@Invariants.combinedSoFar Quantity _).
Local Abbreviation initialItem := (initialItem Quantity).
Local Abbreviation firstSet := (firstSet Quantity).
Local Abbreviation untouched := (untouched Quantity).
Local Abbreviation othersSoFar := (othersSoFar Quantity).
Local Abbreviation sameValue := (@sameValue Quantity _).
Local Abbreviation settingItems := (@settingItems Quantity).

(** ** Only the items that set something count *)

Lemma fold_itemStep_filter limitType (items : list (LimitRangeItem Quantity)) :
  forall result,
    fold_left (itemStep limitType) items result =
    fold_left (itemStep limitType) (filter (considered limitType) items) result.
Proof.
  induction items as [|lri items IH]; intros result; cbn [fold_left filter];
    [reflexivity|].
  destruct (considered limitType lri) eqn:Econsidered; cbn [fold_left].
  - apply IH.
  - rewrite <- IH. unfold itemStep at 2. rewrite Econsidered. reflexivity.
Qed.

Lemma getLimitRangeItem_on_setting (lc : limitsChecker Quantity) (namespace : string)
    (limitType : LimitType) (limitRanges : list (LimitRange Quantity)) :
  limitRangeLister lc namespace = Ok limitRanges ->
  getLimitRangeItem lc namespace limitType =
  let result :=
    fold_left (itemStep limitType) (settingItems limitType limitRanges)
      (initialItem limitType) in
  if negb (is_nil (Min result)) || negb (is_nil (Max result)) ||
     negb (is_nil (Default result))
  then Ok (Some result) else Ok None.
Proof.
  intros Hlist. unfold getLimitRangeItem. rewrite Hlist. cbv zeta.
  rewrite (LimitRangeFacts.fold_limitRanges Quantity), fold_itemStep_filter.
  reflexivity.
Qed.

(** X14: the result of getLimitRangeItem depends only on the items of the
    requested type that set Max, Min or Default, in the order in which they
    are listed: items of another type, items that set only DefaultRequest or
    MaxLimitRequestRatio, and the way the items are grouped into limit
    ranges make no difference. *)
Theorem getLimitRangeItem_reads_setting_items
    (lc lc' : limitsChecker Quantity) (namespace namespace' : string)
    (limitType : LimitType) (limitRanges limitRanges' : list (LimitRange Quantity)) :
  limitRangeLister lc namespace = Ok limitRanges ->
  limitRangeLister lc' namespace' = Ok limitRanges' ->
  settingItems limitType limitRanges = settingItems limitType limitRanges' ->
  getLimitRangeItem lc namespace limitType = getLimitRangeItem lc' namespace' limitType.
Proof.
  intros Hlist Hlist' Hsame.
  rewrite (getLimitRangeItem_on_setting lc namespace limitType limitRanges Hlist).
  rewrite (getLimitRangeItem_on_setting lc' namespace' limitType limitRanges' Hlist').
  rewrite Hsame. reflexivity.
Qed.

(** ** The fields the calculator never writes *)

Lemma itemStep_untouched limitType (result lri : LimitRangeItem Quantity) :
  untouched limitType result -> untouched limitType (itemStep limitType result lri).
Proof.
  unfold itemStep. destruct (considered limitType lri); [|auto].
  intros (Htype & Hrequest & Hratio). repeat split; assumption.
Qed.

Lemma fold_itemStep_untouched limitType (items : list (LimitRangeItem Quantity)) :
  forall result,
    untouched limitType result ->
    untouched limitType (fold_left (itemStep limitType) items result).
Proof.
  induction items as [|lri items IH]; intros result Hresult; cbn [fold_left];
    [exact Hresult|].
  apply IH, itemStep_untouched, Hresult.
Qed.

(** X15: getLimitRangeItem fails exactly when the lister fails, with the
    error of the lister after the words "error loading limit ranges: "; an
    item it returns has the requested type, sets Max, Min or Default, and
    never carries a DefaultRequest or a MaxLimitRequestRatio, whatever the
    limit ranges of the namespace hold for them. *)
Theorem getLimitRangeItem_result
    (lc : limitsChecker Quantity) (namespace : string) (limitType : LimitType) :
  match limitRangeLister lc namespace with
  | Err err =>
      getLimitRangeItem lc namespace limitType
      = Err ("error loading limit ranges: " ++ err)%string
  | Ok _ =>
      exists result,
        getLimitRangeItem lc namespace limitType = Ok result /\
        forall item, result = Some item ->
          Type_ item = limitType /\
          DefaultRequest item = None /\
          MaxLimitRequestRatio item = None /\
          is_nil (Max item) && is_nil (Min item) && is_nil (Default item) = false
  end.
Proof.
  destruct (limitRangeLister lc namespace) as [limitRanges|err] eqn:Elist.
  - rewrite (getLimitRangeItem_on_setting lc namespace limitType limitRanges Elist).
    cbv zeta.
    pose proof (fold_itemStep_untouched limitType (settingItems limitType limitRanges)
                  (initialItem limitType)) as Huntouched.
    set (result := fold_left (itemStep limitType) (settingItems limitType limitRanges)
                     (initialItem limitType)) in *.
    destruct (Huntouched ltac:(repeat split)) as (Htype & Hrequest & Hratio).
    destruct (is_nil (Min result)) eqn:Emin, (is_nil (Max result)) eqn:Emax,
      (is_nil (Default result)) eqn:Edefault; cbn;
      eexists; (split; [reflexivity|]); intros item [= <-];
      rewrite ?Emin, ?Emax, ?Edefault; repeat split; assumption.
  - unfold getLimitRangeItem. rewrite Elist. reflexivity.
Qed.

(** ** The resources that are neither cpu nor memory *)

Lemma is_nil_true (l : ResourceList Quantity) : is_nil l = true -> l = None.
Proof. destruct l; [discriminate|reflexivity]. Qed.

Lemma firstSet_snoc (lists : list (ResourceList Quantity)) (l : ResourceList Quantity) :
  firstSet (lists ++ [l]) =
  if forallb (@is_nil Quantity) lists then l else firstSet lists.
Proof.
  unfold LimitRangeProperties.firstSet.
  induction lists as [|x lists IH]; cbn [app find forallb].
  - destruct (is_nil l) eqn:El; cbn [negb andb].
    + symmetry. apply is_nil_true, El.
    + reflexivity.
  - destruct (is_nil x); cbn [negb andb]; [exact IH|reflexivity].
Qed.

Lemma get_bothUpdated_other (picker : Quantity -> Quantity -> Quantity)
    (result lrItem : ResourceList Quantity) (r : ResourceName) :
  r <> ResourceCPU -> r <> ResourceMemory ->
  get r (bothUpdated picker result lrItem) =
  if is_nil result then get r lrItem else get r result.
Proof.
  intros Hcpu Hmemory. unfold Invariants.bothUpdated, updatedResult.
  destruct lrItem as [lrEntries|]; [|destruct result; reflexivity].
  destruct result as [entries|]; cbn [is_nil].
  - destruct (lookup ResourceCPU lrEntries) as [cpu|].
    + assert (Hfirst : forall entries' : list (ResourceName * Quantity),
                (forall q, get r (Some (store ResourceCPU q entries)) = get r (Some entries)) ->
                True) by auto.
      clear Hfirst.
      destruct (lookup ResourceCPU entries) as [held|];
        (destruct (lookup ResourceMemory lrEntries) as [memory|];
         [match goal with
          | |- context [lookup ResourceMemory ?m] => destruct (lookup ResourceMemory m)
          end|]);
        unfold get; cbn [items];
        rewrite ?(lookup_store_other _ ResourceMemory r) by exact Hmemory;
        rewrite ?(lookup_store_other _ ResourceCPU r) by exact Hcpu;
        reflexivity.
    + destruct (lookup ResourceMemory lrEntries) as [memory|]; [|reflexivity].
      destruct (lookup ResourceMemory entries);
        unfold get; cbn [items];
        rewrite ?(lookup_store_other _ ResourceMemory r) by exact Hmemory;
        reflexivity.
  - destruct (lookup ResourceMemory lrEntries) as [memory|]; [|reflexivity].
    unfold get; cbn [items].
    rewrite ?(lookup_store_other _ ResourceMemory r) by exact Hmemory.
    reflexivity.
Qed.

Lemma itemStep_others limitType (result lri : LimitRangeItem Quantity)
    (seen : list (LimitRangeItem Quantity)) :
  othersSoFar result seen ->
  othersSoFar (itemStep limitType result lri)
    (seen ++ if considered limitType lri then [lri] else []).
Proof.
  intros (Hmax & Hmin & Hothers). unfold itemStep.
  destruct (considered limitType lri);
    [|rewrite app_nil_r; exact (conj Hmax (conj Hmin Hothers))].
  cbv zeta. unfold LimitRangeProperties.othersSoFar. cbn [Max Min].
  fold (bothUpdated pickLowerMax (Max result) (Max lri)).
  fold (bothUpdated chooseHigherMin (Min result) (Min lri)).
  rewrite !map_app, !forallb_app. cbn [map forallb].
  rewrite !(LimitRangeFacts.is_nil_bothUpdated Quantity), !andb_true_r, Hmax, Hmin.
  split; [reflexivity|]. split; [reflexivity|].
  intros r Hcpu Hmemory. destruct (Hothers r Hcpu Hmemory) as [Hrmax Hrmin].
  rewrite !get_bothUpdated_other by assumption.
  rewrite !firstSet_snoc, Hmax, Hmin, Hrmax, Hrmin.
  split.
  - destruct (forallb (@is_nil Quantity) (map (@Max Quantity) seen)); reflexivity.
  - destruct (forallb (@is_nil Quantity) (map (@Min Quantity) seen)); reflexivity.
Qed.

Lemma fold_itemStep_others limitType (items : list (LimitRangeItem Quantity)) :
  forall result seen,
    othersSoFar result seen ->
    othersSoFar (fold_left (itemStep limitType) items result)
      (seen ++ filter (considered limitType) items).
Proof.
  induction items as [|lri items IH]; intros result seen Hsofar; cbn [fold_left filter].
  - rewrite app_nil_r. exact Hsofar.
  - pose proof (IH _ _ (itemStep_others limitType result lri seen Hsofar)) as Hnext.
    rewrite <- app_assoc in Hnext.
    destruct (considered limitType lri); exact Hnext.
Qed.

(** X16: only cpu and memory are combined. For any other resource (the
    ephemeral storage, say) the Max of the item returned is the one of the
    first item that sets a Max at all, and the Min the one of the first item
    that sets a Min at all: the bounds that later items give for the resource
    are dropped, lower maxima and higher minima included, and so is the
    bound of an earlier item whose Max (or Min) is set without the
    resource. *)
Theorem getLimitRangeItem_other_resources
    (lc : limitsChecker Quantity) (namespace : string) (limitType : LimitType)
    (limitRanges : list (LimitRange Quantity)) (item : LimitRangeItem Quantity)
    (r : ResourceName) :
  limitRangeLister lc namespace = Ok limitRanges ->
  getLimitRangeItem lc namespace limitType = Ok (Some item) ->
  r <> ResourceCPU -> r <> ResourceMemory ->
  get r (Max item)
    = get r (firstSet (map (@Max Quantity) (settingItems limitType limitRanges))) /\
  get r (Min item)
    = get r (firstSet (map (@Min Quantity) (settingItems limitType limitRanges))).
Proof.
  intros Hlist Hitem Hcpu Hmemory.
  rewrite (getLimitRangeItem_on_setting lc namespace limitType limitRanges Hlist)
    in Hitem.
  cbv zeta in Hitem.
  assert (Hinitial : othersSoFar (initialItem limitType) []).
  { repeat split. }
  pose proof (fold_itemStep_others limitType
                (flat_map (@Spec_Limits Quantity) limitRanges)
                (initialItem limitType) [] Hinitial) as Hsofar.
  unfold LimitRangeSpec.settingItems in Hitem.
  rewrite <- fold_itemStep_filter in Hitem.
  cbn [app] in Hsofar. fold (settingItems limitType limitRanges) in Hsofar.
  destruct (_ || _) in Hitem; [|discriminate].
  injection Hitem as <-.
  destruct Hsofar as (_ & _ & Hothers). exact (Hothers r Hcpu Hmemory).
Qed.

(** ** The order of the limit ranges *)

Lemma Permutation_filter (A : Type) (f : A -> bool) (l l' : list A) :
  Permutation l l' -> Permutation (filter f l) (filter f l').
Proof.
  induction 1 as [|x l l' _ IH|x y l|l l' l'' _ IH1 _ IH2]; cbn [filter].
  - constructor.
  - destruct (f x); [constructor|]; exact IH.
  - destruct (f x), (f y); try apply Permutation_refl.
    apply perm_swap.
  - exact (Permutation_trans IH1 IH2).
Qed.

Lemma Permutation_valuesOf (r : ResourceName) (lists lists' : list (ResourceList Quantity)) :
  Permutation lists lists' -> Permutation (valuesOf r lists) (valuesOf r lists').
Proof. unfold valuesOf. apply Permutation_flat_map. Qed.

Section Ordered.
Hypothesis Cmp_antisym : forall x y : Quantity, Cmp y x = CompOpp (Cmp x y).
Hypothesis Cmp_trans :
  forall x y z : Quantity, Cmp x y <> Gt -> Cmp y z <> Gt -> Cmp x z <> Gt.

Lemma combines_atMost_same (held held' : option Quantity) (values values' : list Quantity) :
  Permutation values values' ->
  combines atMost held values -> combines atMost held' values' ->
  sameValue held held'.
Proof.
  intros Hperm Hc Hc'. unfold combines in *.
  destruct values as [|v values].
  - apply Permutation_nil in Hperm. subst values' held. cbn in Hc'. subst held'.
    exact I.
  - destruct values' as [|v' values'].
    + apply Permutation_sym, Permutation_nil in Hperm. discriminate.
    + destruct Hc as (q & -> & Hin & Hbest). destruct Hc' as (q' & -> & Hin' & Hbest').
      cbn. pose proof (Hbest q' (Permutation_in _ (Permutation_sym Hperm) Hin')) as Hle.
      pose proof (Hbest' q (Permutation_in _ Hperm Hin)) as Hge.
      unfold LimitRangeSpec.atMost in Hle, Hge. rewrite (Cmp_antisym q q') in Hge.
      destruct (Cmp q q'); cbn in Hge; congruence.
Qed.

Lemma combines_atLeast_same (held held' : option Quantity) (values values' : list Quantity) :
  Permutation values values' ->
  combines atLeast held values -> combines atLeast held' values' ->
  sameValue held held'.
Proof.
  intros Hperm Hc Hc'. unfold combines in *.
  destruct values as [|v values].
  - apply Permutation_nil in Hperm. subst values' held. cbn in Hc'. subst held'.
    exact I.
  - destruct values' as [|v' values'].
    + apply Permutation_sym, Permutation_nil in Hperm. discriminate.
    + destruct Hc as (q & -> & Hin & Hbest). destruct Hc' as (q' & -> & Hin' & Hbest').
      cbn. pose proof (Hbest q' (Permutation_in _ (Permutation_sym Hperm) Hin')) as Hle.
      pose proof (Hbest' q (Permutation_in _ Hperm Hin)) as Hge.
      unfold LimitRangeSpec.atLeast in Hle, Hge. rewrite (Cmp_antisym q q') in Hge.
      destruct (Cmp q q'); cbn in Hge; congruence.
Qed.

(** X17: for cpu and memory the combined bounds do not depend on the order
    in which the lister returns the limit ranges: listed in another order,
    either no item is returned both times, or an item is returned both
    times, whose Max and Min for cpu and for memory are both absent or equal
    in the order of Cmp (a total preorder). *)
Theorem getLimitRangeItem_order_independent
    (lc lc' : limitsChecker Quantity) (namespace : string) (limitType : LimitType)
    (limitRanges limitRanges' : list (LimitRange Quantity)) :
  limitRangeLister lc namespace = Ok limitRanges ->
  limitRangeLister lc' namespace = Ok limitRanges' ->
  Permutation limitRanges limitRanges' ->
  match getLimitRangeItem lc namespace limitType,
        getLimitRangeItem lc' namespace limitType with
  | Ok None, Ok None => True
  | Ok (Some item), Ok (Some item') =>
      forall r, r = ResourceCPU \/ r = ResourceMemory ->
        sameValue (get r (Max item)) (get r (Max item')) /\
        sameValue (get r (Min item)) (get r (Min item'))
  | _, _ => False
  end.
Proof.
  intros Hlist Hlist' Hperm.
  rewrite (getLimitRangeItem_on_setting lc namespace limitType limitRanges Hlist).
  rewrite (getLimitRangeItem_on_setting lc' namespace limitType limitRanges' Hlist').
  cbv zeta.
  assert (Hsetting : Permutation (settingItems limitType limitRanges)
                                 (settingItems limitType limitRanges')).
  { unfold LimitRangeSpec.settingItems.
    apply Permutation_filter, Permutation_flat_map, Hperm. }
  assert (Hinitial : combinedSoFar limitType (initialItem limitType) []).
  { repeat split; cbn; auto. }
  pose proof (LimitRangeFacts.fold_itemStep_combined Quantity Cmp_antisym Cmp_trans
                limitType (flat_map (@Spec_Limits Quantity) limitRanges)
                (initialItem limitType) [] Hinitial) as Hc.
  pose proof (LimitRangeFacts.fold_itemStep_combined Quantity Cmp_antisym Cmp_trans
                limitType (flat_map (@Spec_Limits Quantity) limitRanges')
                (initialItem limitType) [] Hinitial) as Hc'.
  cbn [app] in Hc, Hc'. rewrite fold_itemStep_filter in Hc, Hc'.
  fold (settingItems limitType limitRanges) in Hc.
  fold (settingItems limitType limitRanges') in Hc'.
  set (result := fold_left (itemStep limitType) (settingItems limitType limitRanges)
                   (initialItem limitType)) in *.
  set (result' := fold_left (itemStep limitType) (settingItems limitType limitRanges')
                    (initialItem limitType)) in *.
  destruct Hc as (_ & Hdefault & Hmax & Hmin & Hboth).
  destruct Hc' as (_ & Hdefault' & Hmax' & Hmin' & Hboth').
  assert (Hnil : forall (field : LimitRangeItem Quantity -> ResourceList Quantity),
            forallb (@is_nil Quantity) (map field (settingItems limitType limitRanges))
            = forallb (@is_nil Quantity) (map field (settingItems limitType limitRanges'))).
  { intros field.
    assert (Hp : Permutation (map field (settingItems limitType limitRanges))
                             (map field (settingItems limitType limitRanges')))
      by (apply Permutation_map, Hsetting).
    destruct (forallb (@is_nil Quantity)
                (map field (settingItems limitType limitRanges))) eqn:E;
      destruct (forallb (@is_nil Quantity)
                  (map field (settingItems limitType limitRanges'))) eqn:E';
      try reflexivity.
    - rewrite forallb_forall in E.
      assert (Hx : forallb (@is_nil Quantity)
                     (map field (settingItems limitType limitRanges')) = true).
      { apply forallb_forall. intros x Hin. apply E.
        exact (Permutation_in _ (Permutation_sym Hp) Hin). }
      congruence.
    - rewrite forallb_forall in E'.
      assert (Hx : forallb (@is_nil Quantity)
                     (map field (settingItems limitType limitRanges)) = true).
      { apply forallb_forall. intros x Hin. apply E'.
        exact (Permutation_in _ Hp Hin). }
      congruence. }
  assert (Hdefaults : is_nil (Default result) = is_nil (Default result')).
  { rewrite Hdefault, Hdefault'. unfold lastSet.
    rewrite !(LimitRangeFacts.is_nil_fold_lastSet Quantity). cbn [is_nil andb].
    apply Hnil. }
  rewrite Hmax, Hmin, Hmax', Hmin', <- Hdefaults, <- !Hnil.
  destruct (negb _ || negb _ || negb _); [|exact I].
  intros r Hr. destruct (Hboth r Hr) as [Hrmax Hrmin].
  destruct (Hboth' r Hr) as [Hrmax' Hrmin'].
  split.
  - apply (combines_atMost_same _ _ _ _
             (Permutation_valuesOf r _ _ (Permutation_map _ Hsetting)) Hrmax Hrmax').
  - apply (combines_atLeast_same _ _ _ _
             (Permutation_valuesOf r _ _ (Permutation_map _ Hsetting)) Hrmin Hrmin').
Qed.

End Ordered.

End Calculator.

(** ** On the sample limit ranges *)

Lemma getLimitRangeItem_reads_setting_items_witness :
  getLimitRangeItem Samples.checker "default" LimitTypeContainer
  = getLimitRangeItem MoreSamples.checkerRegrouped "default" LimitTypeContainer.
Proof.
  apply (@getLimitRangeItem_reads_setting_items Samples.MilliQuantity _
           Samples.checker MoreSamples.checkerRegrouped "default" "default"
           LimitTypeContainer Samples.limitRanges MoreSamples.limitRangesRegrouped);
    reflexivity.
Defined.

Lemma getLimitRangeItem_other_resources_witness :
  get "ephemeral-storage"
      (Max (Samples.limits LimitTypeContainer
              (Some [(ResourceCPU, 1000%Z); ("ephemeral-storage", 8000%Z)]) None None))
  = get "ephemeral-storage"
        (firstSet Samples.MilliQuantity
           (map (@Max Samples.MilliQuantity)
              (settingItems LimitTypeContainer MoreSamples.storageLimitRanges))) /\
  get "ephemeral-storage"
      (Min (Samples.limits LimitTypeContainer
              (Some [(ResourceCPU, 1000%Z); ("ephemeral-storage", 8000%Z)]) None None))
  = get "ephemeral-storage"
        (firstSet Samples.MilliQuantity
           (map (@Min Samples.MilliQuantity)
              (settingItems LimitTypeContainer MoreSamples.storageLimitRanges))).
Proof.
  apply (@getLimitRangeItem_other_resources Samples.MilliQuantity _
           MoreSamples.storageChecker "default" LimitTypeContainer
           MoreSamples.storageLimitRanges).
  - reflexivity.
  - reflexivity.
  - discriminate.
  - discriminate.
Defined.

(** The lower maximum of cpu wins; the lower maximum of the ephemeral
    storage, which the second limit range sets, is dropped. *)
Example getLimitRangeItem_keeps_first_storage :
  getLimitRangeItem MoreSamples.storageChecker "default" LimitTypeContainer
  = Ok (Some (Samples.limits LimitTypeContainer
                (Some [(ResourceCPU, 1000%Z); ("ephemeral-storage", 8000%Z)])
                None None)).
Proof. reflexivity. Qed.

Lemma getLimitRangeItem_order_independent_witness :
  match getLimitRangeItem Samples.checker "default" LimitTypeContainer,
        getLimitRangeItem MoreSamples.checkerReversed "default" LimitTypeContainer with
  | Ok None, Ok None => True
  | Ok (Some item), Ok (Some item') =>
      forall r, r = ResourceCPU \/ r = ResourceMemory ->
        sameValue Samples.MilliQuantity (get r (Max item)) (get r (Max item')) /\
        sameValue Samples.MilliQuantity (get r (Min item)) (get r (Min item'))
  | _, _ => False
  end.
Proof.
  apply (@getLimitRangeItem_order_independent Samples.MilliQuantity
           Samples.milliQuantityOps Z.compare_antisym Z.le_trans
           Samples.checker MoreSamples.checkerReversed "default" LimitTypeContainer
           Samples.limitRanges (rev Samples.limitRanges)).
  - reflexivity.
  - reflexivity.
  - apply Permutation_rev.
Defined.

End LimitRangeMoreFacts.

(* ================================================================== *)
(** * The recommender: further properties *)
(* ================================================================== *)

Module RecommenderMoreFacts.
Import Go K8s Recommender RecommenderMain RecommenderSpec RecommenderProperties.
Local Open Scope string_scope.
Local Open Scope list_scope.

Section Main.
Variable Quantity : Type.
Context `{QuantityOps Quantity}.
Variable ResourcesAsResourceList : Resources -> ResourceList Quantity.
Variable ApplyVPAPolicy :
  K8s.RecommendedPodResources Quantity -> option (PodResourcePolicy Quantity) ->
  result (K8s.RecommendedPodResources Quantity).
Context `{Environment Quantity}.
Variable clock : nat -> Time.
Variable checkpointsWriteTimeout : Duration.
Variable minCheckpointsPerRun : Z.
Variable feeder_InitFromCheckpoints : @World Quantity _ -> @World Quantity _.
Variable feeder_InitFromHistoryProvider : @World Quantity _ -> @World Quantity _.

Local Abbreviation Run := (@Run Quantity _).
Local Abbreviation updateVPA := (updateVPA ResourcesAsResourceList ApplyVPAPolicy clock).
Local Abbreviation UpdateVPAs := (UpdateVPAs ResourcesAsResourceList ApplyVPAPolicy clock).
Local Abbreviation MaintainCheckpoints := (@MaintainCheckpoints Quantity _ clock).
Local Abbreviation GarbageCollect := (@GarbageCollect Quantity _ clock).
Local Abbreviation RunOnce :=
  (RunOnce ResourcesAsResourceList ApplyVPAPolicy clock
     checkpointsWriteTimeout minCheckpointsPerRun).
Local Abbreviation runLoop :=
  (runLoop ResourcesAsResourceList ApplyVPAPolicy clock
     checkpointsWriteTimeout minCheckpointsPerRun).
Local Abbreviation main :=
  (main ResourcesAsResourceList ApplyVPAPolicy clock
     checkpointsWriteTimeout minCheckpointsPerRun
     feeder_InitFromCheckpoints feeder_InitFromHistoryProvider).
Local Abbreviation Make := (@Make Quantity _ clock).
Local Abbreviation gcTimes := (gcTimes Quantity).
Local Abbreviation gcEvents := (gcEvents Quantity).
Local Abbreviation checkpointEvents := (checkpointEvents Quantity).
Local Abbreviation storesCheckpoints := (storesCheckpoints Quantity).
Local Abbreviation touchesCheckpoints := (touchesCheckpoints Quantity).
Local Abbreviation maintenance := (maintenance Quantity).

(** ** What UpdateVPAs never does *)

Lemma updateVPA_quiet (observedVpa : VerticalPodAutoscaler Quantity) (s : Run) :
  exists events,
    trace (snd (updateVPA observedVpa s)) = trace s ++ events /\
    Forall (fun e => maintenance e = false) events.
Proof.
  unfold Recommender.updateVPA, bind, getWorld, update, time_Now, when, emit,
    UpdateVpaStatusIfNeeded, callE, ret.
  cbn [world ticks trace fst snd].
  destruct (Vpas (world s) _) as [vpa|].
  2:{ exists []. cbn [snd trace]. rewrite app_nil_r. split; [reflexivity|constructor]. }
  match goal with
  | |- context [if ?b && negb ?had then _ else _] => destruct (b && negb had)
  end;
  match goal with
  | |- context [DeepEqual ?old ?new] => destruct (DeepEqual old new)
  end;
  cbn [world ticks trace fst snd];
  eexists; (split; [rewrite <- ?app_assoc; cbn [app]; reflexivity|]);
  repeat constructor.
Qed.

Lemma forEach_updateVPA_quiet (observed : list (VerticalPodAutoscaler Quantity)) :
  forall s : Run,
  exists events,
    trace (snd (forEach observed updateVPA s)) = trace s ++ events /\
    Forall (fun e => maintenance e = false) events.
Proof.
  induction observed as [|observedVpa rest IH]; intros s.
  - exists []. cbn. rewrite app_nil_r. split; [reflexivity|constructor].
  - cbn [forEach]. unfold bind.
    destruct (updateVPA_quiet observedVpa s) as (events & Htrace & Hquiet).
    destruct (Recommender.updateVPA _ _ _ observedVpa s) as [[] s'].
    cbn [snd] in Htrace.
    destruct (IH s') as (events' & Htrace' & Hquiet').
    exists (events ++ events'). split.
    + rewrite Htrace', Htrace, app_assoc. reflexivity.
    + apply Forall_app. split; assumption.
Qed.

Lemma UpdateVPAs_quiet (s : Run) :
  exists events,
    trace (snd (UpdateVPAs s)) = trace s ++ events /\
    Forall (fun e => maintenance e = false) events.
Proof.
  unfold Recommender.UpdateVPAs, bind at 1, getWorld.
  destruct (forEach_updateVPA_quiet (ObservedVpas (world s)) s)
    as (events & Htrace & Hquiet).
  unfold bind. destruct (forEach _ _ s) as [[] s']. cbn [snd] in Htrace.
  unfold emit. cbn [snd trace].
  exists (events ++ [CounterObserve Quantity]). split.
  - rewrite Htrace, app_assoc. reflexivity.
  - apply Forall_app. split; [exact Hquiet|repeat constructor].
Qed.

Lemma quiet_events (events : list (Event Quantity)) :
  Forall (fun e => maintenance e = false) events ->
  gcTimes events = [] /\
  filter storesCheckpoints events = [] /\
  Forall (fun e => touchesCheckpoints e = false) events.
Proof.
  induction 1 as [|e events He _ (Hgc & Hstores & Htouches)]; cbn.
  - repeat split. constructor.
  - unfold RecommenderProperties.gcTimes in Hgc. rewrite Hgc, Hstores.
    destruct e; cbn in *; try discriminate; repeat split;
      constructor; try reflexivity; exact Htouches.
Qed.

(** ** One run *)

Lemma gcDue_apart (r : recommender) (gcTime : Time) :
  gcDue r gcTime = true ->
  (AggregateContainerStateGCInterval < gcTime - lastAggregateContainerStateGC r)%Z.
Proof.
  unfold gcDue, Time_Sub. intros Hdue. apply Z.ltb_lt in Hdue.
  destruct (Z.ltb_spec (gcTime - lastAggregateContainerStateGC r) minInt64) as [Hlow|Hlow].
  - unfold AggregateContainerStateGCInterval, Hour, Minute, Second, minInt64 in *. lia.
  - destruct (Z.ltb_spec maxInt64 (gcTime - lastAggregateContainerStateGC r))
      as [Hhigh|Hhigh].
    + unfold AggregateContainerStateGCInterval, Hour, Minute, Second, maxInt64 in *. lia.
    + exact Hdue.
Qed.

Lemma MaintainCheckpoints_keeps (r : recommender) (ctxDeadline : Time)
    (minCheckpoints : Z) (s : Run) :
  useCheckpoints (fst (MaintainCheckpoints r ctxDeadline minCheckpoints s))
    = useCheckpoints r /\
  checkpointsGCInterval (fst (MaintainCheckpoints r ctxDeadline minCheckpoints s))
    = checkpointsGCInterval r.
Proof.
  unfold Recommender.MaintainCheckpoints, bind, time_Now, callE, call, ret.
  cbn [world ticks trace fst snd].
  destruct (useCheckpoints r) eqn:Euse; cbn [fst snd ticks world trace];
    [|rewrite Euse; split; reflexivity].
  destruct (checkpointsGCInterval r <? _)%Z; cbn; rewrite ?Euse; split; reflexivity.
Qed.

Lemma GarbageCollect_keeps (r : recommender) (s : Run) :
  useCheckpoints (fst (GarbageCollect r s)) = useCheckpoints r.
Proof.
  unfold Recommender.GarbageCollect, bind, time_Now, call, ret.
  cbn [world ticks trace fst snd].
  destruct (AggregateContainerStateGCInterval <? _)%Z; reflexivity.
Qed.

Lemma checkpointEvents_maintenance (r : recommender) (deadline now now' : Time)
    (minCheckpoints : Z) :
  gcTimes (checkpointEvents r deadline now now' minCheckpoints) = [] /\
  List.length (filter storesCheckpoints
                 (checkpointEvents r deadline now now' minCheckpoints))
    = (if useCheckpoints r then 1 else 0) /\
  (useCheckpoints r = false ->
   checkpointEvents r deadline now now' minCheckpoints = []).
Proof.
  unfold RecommenderSpec.checkpointEvents.
  destruct (useCheckpoints r); [|repeat split].
  destruct (checkpointsGCInterval r <? _)%Z; cbn; repeat split; discriminate.
Qed.

Lemma gcEvents_maintenance (r : recommender) (gcTime : Time) :
  gcTimes (gcEvents r gcTime) = (if gcDue r gcTime then [gcTime] else []) /\
  filter storesCheckpoints (gcEvents r gcTime) = [] /\
  Forall (fun e => touchesCheckpoints e = false) (gcEvents r gcTime).
Proof.
  unfold RecommenderSpec.gcEvents.
  destruct (gcDue r gcTime); cbn; repeat split; repeat constructor.
Qed.

(** What one run does of the maintenance. *)
Lemma RunOnce_maintenance (r : recommender) (s : Run) :
  exists events gcTime,
    trace (snd (RunOnce r s)) = trace s ++ events /\
    gcTimes events = (if gcDue r gcTime then [gcTime] else []) /\
    lastAggregateContainerStateGC (fst (RunOnce r s)) =
      (if gcDue r gcTime then gcTime else lastAggregateContainerStateGC r) /\
    useCheckpoints (fst (RunOnce r s)) = useCheckpoints r /\
    List.length (filter storesCheckpoints events) = (if useCheckpoints r then 1 else 0) /\
    (useCheckpoints r = false -> Forall (fun e => touchesCheckpoints e = false) events).
Proof.
  unfold Recommender.RunOnce, bind, time_Now, call, emit, ret.
  cbn [world ticks trace fst snd].
  set (s1 := {| world := _; ticks := S (ticks s); trace := _ |}).
  destruct (UpdateVPAs_quiet s1) as (updates & Htrace1 & Hquiet).
  destruct (Recommender.UpdateVPAs _ _ _ s1) as [[] s2].
  cbn [snd] in Htrace1.
  set (s3 := {| world := world s2; ticks := ticks s2; trace := _ |}).
  destruct (RecommenderFacts.MaintainCheckpoints_events Quantity clock r
              (Time_Add (clock (ticks s)) checkpointsWriteTimeout)
              minCheckpointsPerRun s3) as (Htrace4 & _ & Hsame).
  destruct (MaintainCheckpoints_keeps r
              (Time_Add (clock (ticks s)) checkpointsWriteTimeout)
              minCheckpointsPerRun s3) as (Huse4 & _).
  destruct (Recommender.MaintainCheckpoints _ r _ _ s3) as [r' s4].
  cbn [fst snd] in Htrace4, Hsame, Huse4.
  set (s5 := {| world := world s4; ticks := ticks s4; trace := _ |}).
  destruct (RecommenderFacts.GarbageCollect_events Quantity clock r' s5)
    as (Htrace6 & Hcollected).
  pose proof (GarbageCollect_keeps r' s5) as Huse6.
  destruct (Recommender.GarbageCollect _ r' s5) as [r'' s6].
  cbn [fst snd world ticks trace] in Htrace6, Hcollected, Huse6 |- *.
  destruct (RecommenderFacts.gcEvents_same_collection Quantity r r' (clock (ticks s5))
              Hsame) as (Hevents & Hdue).
  rewrite Hevents in Htrace6. rewrite Hdue, Hsame in Hcollected.
  set (gcTime := clock (ticks s5)) in *.
  set (checkpoints := RecommenderSpec.checkpointEvents Quantity r
                        (Time_Add (clock (ticks s)) checkpointsWriteTimeout)
                        (clock (ticks s3)) (clock (S (ticks s3)))
                        minCheckpointsPerRun) in *.
  destruct (quiet_events updates Hquiet) as (Hgc1 & Hstores1 & Htouches1).
  destruct (checkpointEvents_maintenance r
              (Time_Add (clock (ticks s)) checkpointsWriteTimeout)
              (clock (ticks s3)) (clock (S (ticks s3))) minCheckpointsPerRun)
    as (Hgc2 & Hstores2 & Htouches2).
  fold checkpoints in Hgc2, Hstores2, Htouches2.
  destruct (gcEvents_maintenance r gcTime) as (Hgc3 & Hstores3 & Htouches3).
  exists (loads Quantity ++ updates ++ [ObserveStep Quantity "UpdateVPAs"] ++
          checkpoints ++ [ObserveStep Quantity "MaintainCheckpoints"] ++
          gcEvents r gcTime ++
          [ObserveStep Quantity "GarbageCollect"; CancelContext Quantity;
           ObserveTotal Quantity]),
         gcTime.
  split; [|split; [|split; [|split; [|split]]]].
  - rewrite Htrace6. subst s5. cbn [trace]. rewrite Htrace4. subst s3. cbn [trace].
    rewrite Htrace1. subst s1. cbn [trace].
    unfold RecommenderSpec.loads. rewrite <- !app_assoc. cbn [app]. reflexivity.
  - unfold RecommenderProperties.gcTimes in *.
    rewrite !flat_map_app, Hgc1, Hgc2, Hgc3. cbn. rewrite app_nil_r. reflexivity.
  - exact Hcollected.
  - rewrite Huse6, Huse4. reflexivity.
  - rewrite !filter_app, Hstores1, Hstores3. cbn [filter app].
    rewrite !length_app, Hstores2. cbn. lia.
  - intros Hoff. rewrite (Htouches2 Hoff).
    repeat (apply Forall_app; split); try assumption; repeat constructor.
Qed.

(** ** The runs of the main loop *)

Lemma last_cons (A : Type) (x : A) (l : list A) : forall d,
  List.last (x :: l) d = List.last l x.
Proof.
  revert x. induction l as [|y l IH]; intros x d; [reflexivity|].
  change (List.last (x :: y :: l) d) with (List.last (y :: l) d).
  rewrite !IH. reflexivity.
Qed.

Lemma runLoop_maintenance (n : nat) : forall (r : recommender) (s : Run),
  exists events,
    trace (snd (runLoop n r s)) = trace s ++ events /\
    apart (lastAggregateContainerStateGC r) (gcTimes events) /\
    lastAggregateContainerStateGC (fst (runLoop n r s))
      = List.last (gcTimes events) (lastAggregateContainerStateGC r) /\
    useCheckpoints (fst (runLoop n r s)) = useCheckpoints r /\
    List.length (filter storesCheckpoints events) = (if useCheckpoints r then n else 0) /\
    (useCheckpoints r = false -> Forall (fun e => touchesCheckpoints e = false) events).
Proof.
  induction n as [|n IH]; intros r s.
  - exists []. cbn. rewrite app_nil_r. destruct (useCheckpoints r); repeat split;
      constructor.
  - cbn [RecommenderMain.runLoop]. unfold bind.
    destruct (RunOnce_maintenance r s)
      as (events & gcTime & Htrace & Hgc & Hlast & Huse & Hstores & Htouches).
    destruct (Recommender.RunOnce _ _ _ _ _ r s) as [r1 s1].
    cbn [fst snd] in Htrace, Hlast, Huse.
    destruct (IH r1 s1)
      as (events' & Htrace' & Hgc' & Hlast' & Huse' & Hstores' & Htouches').
    exists (events ++ events').
    unfold RecommenderProperties.gcTimes in *.
    rewrite flat_map_app, filter_app, length_app, Hgc, Hstores, Hstores', Huse.
    split; [rewrite Htrace', Htrace, app_assoc; reflexivity|].
    rewrite Hlast in Hgc', Hlast'.
    split; [|split; [|split; [|split]]].
    + destruct (gcDue r gcTime) eqn:Edue; cbn [app apart]; [|exact Hgc'].
      split; [apply gcDue_apart, Edue|exact Hgc'].
    + rewrite Hlast'. destruct (gcDue r gcTime); cbn [app]; [|reflexivity].
      symmetry. apply last_cons.
    + rewrite Huse', Huse. reflexivity.
    + destruct (useCheckpoints r); lia.
    + intros Hoff. apply Forall_app. split; [exact (Htouches Hoff)|].
      apply Htouches'. rewrite Huse. exact Hoff.
Qed.

Lemma main_runs (storage : string) (checkpointsGCInterval : Duration) (n : nat)
    (s : Run) :
  exists (r : recommender) (s' : Run),
    main storage checkpointsGCInterval n s = runLoop n r s' /\
    trace s' = trace s /\
    lastAggregateContainerStateGC r = clock (ticks s) /\
    useCheckpoints r = negb (String.eqb storage "prometheus").
Proof.
  unfold RecommenderMain.main, NewRecommender, RecommenderMain.Make, bind, time_Now, ret.
  cbn [world ticks trace fst snd].
  destruct (negb (String.eqb storage "prometheus")) eqn:Euse; unfold update;
    cbn [world ticks trace fst snd];
    eexists; eexists; (split; [reflexivity|]); cbn; repeat split; exact Euse.
Qed.

(** X18: in a run of main, from the making of the recommender through any
    number of iterations, two successive collections of the aggregate states
    are more than one hour apart, and the first one comes more than one hour
    after the time at which the recommender was made; the recommender ends
    with the time of the last collection, or of its making if there was
    none. *)
Theorem collections_more_than_an_hour_apart
    (storage : string) (checkpointsGCInterval : Duration) (n : nat) (s : Run) :
  exists events,
    trace (snd (main storage checkpointsGCInterval n s)) = trace s ++ events /\
    apart (clock (ticks s)) (gcTimes events) /\
    lastAggregateContainerStateGC (fst (main storage checkpointsGCInterval n s))
      = List.last (gcTimes events) (clock (ticks s)) /\
    AggregateContainerStateGCInterval = (3600 * 1000000000)%Z.
Proof.
  destruct (main_runs storage checkpointsGCInterval n s)
    as (r & s' & -> & Htrace & Hmade & _).
  destruct (runLoop_maintenance n r s') as (events & Hevents & Hapart & Hlast & _).
  exists events. rewrite Hevents, Htrace, Hlast, <- Hmade.
  repeat split. exact Hapart.
Qed.

(** X19: main uses checkpoints unless the flag storage is exactly
    "prometheus": with any other value, the empty default and a misspelt
    mode included, every iteration stores the checkpoints once; with
    "prometheus" no iteration stores or garbage collects checkpoints. *)
Theorem checkpoints_unless_prometheus
    (storage : string) (checkpointsGCInterval : Duration) (n : nat) (s : Run) :
  exists events,
    trace (snd (main storage checkpointsGCInterval n s)) = trace s ++ events /\
    useCheckpoints (fst (main storage checkpointsGCInterval n s))
      = negb (String.eqb storage "prometheus") /\
    List.length (filter storesCheckpoints events)
      = (if String.eqb storage "prometheus" then 0 else n) /\
    (storage = "prometheus" -> Forall (fun e => touchesCheckpoints e = false) events).
Proof.
  destruct (main_runs storage checkpointsGCInterval n s)
    as (r & s' & -> & Htrace & _ & Huse).
  destruct (runLoop_maintenance n r s')
    as (events & Hevents & _ & _ & Huse' & Hstores & Htouches).
  exists events. rewrite Hevents, Htrace, Huse', Hstores, Huse.
  split; [reflexivity|]. split; [reflexivity|]. split.
  - destruct (String.eqb storage "prometheus"); reflexivity.
  - intros ->. apply Htouches. rewrite Huse. reflexivity.
Qed.

(** ** Configs the cluster state does not hold *)

Lemma forEach_skips (observed : list (VerticalPodAutoscaler Quantity)) (s : Run) :
  Forall (fun observedVpa =>
            Vpas (world s) {| Namespace := Vpa_Namespace observedVpa;
                              VpaName := Vpa_Name observedVpa |} = None)
         observed ->
  forEach observed updateVPA s = (tt, s).
Proof.
  induction 1 as [|observedVpa rest Hnone _ IH]; [reflexivity|].
  cbn [forEach]. unfold bind at 1.
  assert (Hskip : updateVPA observedVpa s = (tt, s)).
  { unfold Recommender.updateVPA, bind, getWorld. rewrite Hnone. reflexivity. }
  rewrite Hskip. exact IH.
Qed.

(** X20: an observed config that the cluster state does not hold under its
    namespace and name is skipped: if it holds none of the observed configs,
    UpdateVPAs computes no recommendation, reads no clock, leaves the world
    as it is and writes no status; it only observes the (empty) counter. *)
Theorem UpdateVPAs_skips_unknown_configs (s : Run) :
  Forall (fun observedVpa =>
            Vpas (world s) {| Namespace := Vpa_Namespace observedVpa;
                              VpaName := Vpa_Name observedVpa |} = None)
         (ObservedVpas (world s)) ->
  world (snd (UpdateVPAs s)) = world s /\
  ticks (snd (UpdateVPAs s)) = ticks s /\
  trace (snd (UpdateVPAs s)) = trace s ++ [CounterObserve Quantity].
Proof.
  intros Hnone. unfold Recommender.UpdateVPAs, bind, getWorld.
  rewrite (forEach_skips _ s Hnone). unfold emit. cbn. repeat split.
Qed.

End Main.

(** ** On the samples *)

Lemma UpdateVPAs_skips_unknown_configs_witness :
  world (snd (UpdateVPAs (H0 := MoreSamples.staleEnvironment)
                Samples.resourcesAsResourceList
                (@Capping.ApplyVPAPolicy Samples.MilliQuantity _)
                Samples.sampleClock MoreSamples.staleRun))
    = world MoreSamples.staleRun /\
  ticks (snd (UpdateVPAs (H0 := MoreSamples.staleEnvironment)
                Samples.resourcesAsResourceList
                (@Capping.ApplyVPAPolicy Samples.MilliQuantity _)
                Samples.sampleClock MoreSamples.staleRun))
    = ticks MoreSamples.staleRun /\
  trace (snd (UpdateVPAs (H0 := MoreSamples.staleEnvironment)
                Samples.resourcesAsResourceList
                (@Capping.ApplyVPAPolicy Samples.MilliQuantity _)
                Samples.sampleClock MoreSamples.staleRun))
    = trace MoreSamples.staleRun ++ [CounterObserve Samples.MilliQuantity].
Proof.
  apply (@UpdateVPAs_skips_unknown_configs Samples.MilliQuantity
           Samples.resourcesAsResourceList
           (@Capping.ApplyVPAPolicy Samples.MilliQuantity _)
           MoreSamples.staleEnvironment Samples.sampleClock MoreSamples.staleRun).
  repeat constructor.
Defined.

(** Four iterations on a clock read every ten minutes, the recommender made
    at time 0: each iteration reads the clock four times, the last time for
    the collection, at 50, 90, 130 and 170 minutes; the aggregate states are
    collected at 90 and at 170 minutes, and the checkpoints stored four
    times. *)
Example main_collects_every_other_run :
  gcTimes Samples.MilliQuantity (trace (snd (MoreSamples.sampleMain "" 4)))
    = [(90 * Minute)%Z; (170 * Minute)%Z] /\
  List.length (filter (storesCheckpoints Samples.MilliQuantity)
                 (trace (snd (MoreSamples.sampleMain "" 4)))) = 4 /\
  filter (touchesCheckpoints Samples.MilliQuantity)
    (trace (snd (MoreSamples.sampleMain "prometheus" 4))) = [].
Proof. vm_compute. repeat split. Qed.

End RecommenderMoreFacts.

(* ================================================================== *)
(** * The target selector fetcher *)
(* ================================================================== *)

Module TargetFacts.
Import Go K8s Target MapFacts.
Local Open Scope string_scope.
Local Open Scope list_scope.

Section Fetcher.
Variable Quantity : Type.
Variable Selector : Type.
Variable LabelSelector : Type.
Variable LabelSelectorAsSelector : option LabelSelector -> result Selector.
Variable SetAsLabelSelector : option (list (string * string)) -> option LabelSelector.
Variable labels_Parse : string -> result Selector.
Variable ParseGroupVersion : string -> result GroupVersion.

Local Abbreviation vpaTargetSelectorFetcher := (vpaTargetSelectorFetcher LabelSelector).
Local Abbreviation SharedInformerFactory := (SharedInformerFactory LabelSelector).
Local Abbreviation getLabelSelector :=
  (getLabelSelector LabelSelectorAsSelector SetAsLabelSelector).
Local Abbreviation selectorOfMappings := (selectorOfMappings labels_Parse).
Local Abbreviation getLabelSelectorFromResource :=
  (getLabelSelectorFromResource labels_Parse).
Local Abbreviation Fetch :=
  (@Fetch Quantity Selector LabelSelector LabelSelectorAsSelector SetAsLabelSelector
     labels_Parse ParseGroupVersion).
Local Abbreviation NewVpaTargetSelectorFetcher :=
  (@NewVpaTargetSelectorFetcher LabelSelector).

(** ** The scale subresource *)

Lemma selectorOfMappings_nil (f : vpaTargetSelectorFetcher) (namespace name : string)
    (mappings : list RESTMapping) : forall lastError,
  selectorOfMappings f namespace name mappings lastError = Ok None <->
  mappings = [] /\ lastError = None.
Proof.
  induction mappings as [|mapping rest IH]; intros lastError;
    cbn [Target.selectorOfMappings].
  - destruct lastError; split; try discriminate; auto.
    intros [_ Hx]. discriminate.
  - destruct (scaleNamespacer f namespace (Mapping_GroupResource mapping) name)
      as [scale|err].
    + destruct (labels_Parse (Status_Selector scale)); split; try discriminate;
        intros [Hx _]; discriminate.
    + rewrite IH. split; intros [Hx Hy]; discriminate.
Qed.

(** X21: the interface promises that a selector returned without an error
    is not nil. Fetch returns the nil selector with the nil error in exactly
    one case: the kind of the target is not one of the kinds of the informers,
    its API version parses, and the mapper returns no mapping for the group
    and the kind without an error, so that the loop over the mappings never
    runs. *)
Theorem Fetch_nil_selector_iff
    (f : vpaTargetSelectorFetcher) (vpa : VerticalPodAutoscaler Quantity) :
  Fetch f vpa = Ok None <->
  exists targetRef groupVersion,
    TargetRef (Spec vpa) = Some targetRef /\
    lookup (Kind targetRef) (informersMap f) = None /\
    ParseGroupVersion (APIVersion targetRef) = Ok groupVersion /\
    mapper f {| GK_Group := GV_Group groupVersion; GK_Kind := Kind targetRef |} = Ok [].
Proof.
  unfold Target.Fetch.
  destruct (TargetRef (Spec vpa)) as [targetRef|].
  2:{ split; [discriminate|]. intros (t & g & Hx & _). discriminate. }
  destruct (lookup (Kind targetRef) (informersMap f)) as [informer|] eqn:Einformer.
  { split.
    - destruct (getLabelSelector informer _ _ _); discriminate.
    - intros (t & g & [= <-] & Hx & _). congruence. }
  destruct (ParseGroupVersion (APIVersion targetRef)) as [groupVersion|err] eqn:Eparse.
  2:{ split; [discriminate|]. intros (t & g & [= <-] & _ & Hx & _). congruence. }
  cbv zeta. unfold Target.getLabelSelectorFromResource.
  destruct (mapper f _) as [mappings|err] eqn:Emapper.
  - split.
    + destruct (selectorOfMappings f (Vpa_Namespace vpa) (Ref_Name targetRef) mappings None)
        as [selector|err] eqn:Eselector; [|discriminate].
      intros [= ->]. apply selectorOfMappings_nil in Eselector.
      destruct Eselector as [-> _].
      exists targetRef, groupVersion. auto.
    + intros (t & g & [= <-] & _ & Hparse & Hmapper).
      rewrite Eparse in Hparse. injection Hparse as <-.
      rewrite Emapper in Hmapper. injection Hmapper as ->. reflexivity.
  - split; [discriminate|].
    intros (t & g & [= <-] & _ & Hparse & Hmapper).
    rewrite Eparse in Hparse. injection Hparse as <-. congruence.
Qed.

(** The scale of the first mapping that has one decides. *)
Lemma selectorOfMappings_first (f : vpaTargetSelectorFetcher) (namespace name : string)
    (failed : list RESTMapping) (mapping : RESTMapping) (rest : list RESTMapping)
    (scale : Scale) :
  Forall (fun m => exists err,
            scaleNamespacer f namespace (Mapping_GroupResource m) name = Err err)
         failed ->
  scaleNamespacer f namespace (Mapping_GroupResource mapping) name = Ok scale ->
  forall lastError,
    selectorOfMappings f namespace name (failed ++ mapping :: rest) lastError =
    match labels_Parse (Status_Selector scale) with
    | Err err => Err err
    | Ok selector => Ok (Some selector)
    end.
Proof.
  intros Hfailed Hscale. induction Hfailed as [|m failed (err & Hm) _ IH];
    intros lastError; cbn [app Target.selectorOfMappings].
  - rewrite Hscale. reflexivity.
  - rewrite Hm. apply IH.
Qed.

Lemma selectorOfMappings_none (f : vpaTargetSelectorFetcher) (namespace name : string)
    (mappings : list RESTMapping) (mapping : RESTMapping) (err : string) :
  Forall (fun m => exists err,
            scaleNamespacer f namespace (Mapping_GroupResource m) name = Err err)
         mappings ->
  scaleNamespacer f namespace (Mapping_GroupResource mapping) name = Err err ->
  forall lastError,
    selectorOfMappings f namespace name (mappings ++ [mapping]) lastError = Err err.
Proof.
  intros Hfailed Hlast. induction Hfailed as [|m failed (e & Hm) _ IH];
    intros lastError; cbn [app Target.selectorOfMappings].
  - rewrite Hlast. reflexivity.
  - rewrite Hm. apply IH.
Qed.

(** X22: getLabelSelectorFromResource asks for the scale of the resource of
    each mapping in turn and stops at the first one it gets: the result is
    the parsed selector of that scale, or the parse error, which is not
    retried on the mappings that follow; if no mapping has a scale, the
    result is the error of the last mapping; an error of the mapper is
    returned as it is. *)
Theorem getLabelSelectorFromResource_first_scale
    (f : vpaTargetSelectorFetcher) (groupKind : GroupKind) (namespace name : string) :
  (forall err, mapper f groupKind = Err err ->
     getLabelSelectorFromResource f groupKind namespace name = Err err) /\
  (forall failed mapping rest scale,
     mapper f groupKind = Ok (failed ++ mapping :: rest) ->
     Forall (fun m => exists err,
               scaleNamespacer f namespace (Mapping_GroupResource m) name = Err err)
            failed ->
     scaleNamespacer f namespace (Mapping_GroupResource mapping) name = Ok scale ->
     getLabelSelectorFromResource f groupKind namespace name =
     match labels_Parse (Status_Selector scale) with
     | Err err => Err err
     | Ok selector => Ok (Some selector)
     end) /\
  (forall failed mapping err,
     mapper f groupKind = Ok (failed ++ [mapping]) ->
     Forall (fun m => exists err,
               scaleNamespacer f namespace (Mapping_GroupResource m) name = Err err)
            failed ->
     scaleNamespacer f namespace (Mapping_GroupResource mapping) name = Err err ->
     getLabelSelectorFromResource f groupKind namespace name = Err err).
Proof.
  unfold Target.getLabelSelectorFromResource. split; [|split].
  - intros err ->. reflexivity.
  - intros failed mapping rest scale -> Hfailed Hscale.
    apply selectorOfMappings_first; assumption.
  - intros failed mapping err -> Hfailed Hlast.
    apply selectorOfMappings_none; assumption.
Qed.

(** ** The well-known controllers *)

Lemma selectorOfMappings_same_scales (f f' : vpaTargetSelectorFetcher)
    (namespace name : string) (mappings : list RESTMapping) :
  scaleNamespacer f = scaleNamespacer f' ->
  forall lastError,
    selectorOfMappings f namespace name mappings lastError
    = selectorOfMappings f' namespace name mappings lastError.
Proof.
  intros Hsame. induction mappings as [|mapping rest IH]; intros lastError;
    cbn [Target.selectorOfMappings]; [reflexivity|].
  rewrite Hsame.
  destruct (scaleNamespacer f' namespace (Mapping_GroupResource mapping) name);
    [reflexivity|apply IH].
Qed.

Lemma NewVpaTargetSelectorFetcher_informer
    (scaleNamespacer : string -> GroupResource -> string -> result Scale)
    (mapper : GroupKind -> result (list RESTMapping))
    (factory : SharedInformerFactory) (kind : string) :
  In kind [daemonSet; deployment; replicaSet; statefulSet; replicationController;
           job; cronJob] <->
  exists informer,
    lookup kind (informersMap (NewVpaTargetSelectorFetcher scaleNamespacer mapper factory))
    = Some informer.
Proof.
  cbn [informersMap Target.NewVpaTargetSelectorFetcher lookup]. split.
  - intros Hin. repeat (destruct Hin as [<-|Hin]; [eexists; reflexivity|]).
    destruct Hin.
  - intros (informer & Hlookup).
    repeat match type of Hlookup with
           | (if String.eqb kind ?k then _ else _) = _ =>
               destruct (String.eqb_spec kind k) as [->|_]; [cbn; tauto|]
           end.
    discriminate.
Qed.

(** X23: for a fetcher made by NewVpaTargetSelectorFetcher and a target of
    one of the seven well-known kinds (DaemonSet, Deployment, ReplicaSet,
    StatefulSet, ReplicationController, Job, CronJob), Fetch reads the store
    of the informer of the kind only: the scale client and the mapper make
    no difference, and an object that is missing from the store is an error
    that names the kind, the namespace and the name, with no fallback to the
    scale subresource. For any other kind the informers make no
    difference. *)
Theorem Fetch_well_known_kind
    (scaleNamespacer scaleNamespacer' : string -> GroupResource -> string -> result Scale)
    (mapper mapper' : GroupKind -> result (list RESTMapping))
    (factory factory' : SharedInformerFactory)
    (vpa : VerticalPodAutoscaler Quantity) (targetRef : CrossVersionObjectReference) :
  TargetRef (Spec vpa) = Some targetRef ->
  (In (Kind targetRef)
      [daemonSet; deployment; replicaSet; statefulSet; replicationController;
       job; cronJob] ->
   Fetch (NewVpaTargetSelectorFetcher scaleNamespacer mapper factory) vpa
   = Fetch (NewVpaTargetSelectorFetcher scaleNamespacer' mapper' factory) vpa /\
   forall informer,
     lookup (Kind targetRef)
       (informersMap (NewVpaTargetSelectorFetcher scaleNamespacer mapper factory))
     = Some informer ->
     informer (Vpa_Namespace vpa ++ "/" ++ Ref_Name targetRef)%string = Ok None ->
     Fetch (NewVpaTargetSelectorFetcher scaleNamespacer mapper factory) vpa
     = Err (Kind targetRef ++ " " ++ Vpa_Namespace vpa ++ "/" ++ Ref_Name targetRef ++
            " does not exist")%string) /\
  (~ In (Kind targetRef)
        [daemonSet; deployment; replicaSet; statefulSet; replicationController;
         job; cronJob] ->
   Fetch (NewVpaTargetSelectorFetcher scaleNamespacer mapper factory) vpa
   = Fetch (NewVpaTargetSelectorFetcher scaleNamespacer mapper factory') vpa).
Proof.
  intros Htarget. split.
  - intros Hkind.
    destruct (proj1 (NewVpaTargetSelectorFetcher_informer scaleNamespacer mapper factory
                       (Kind targetRef)) Hkind) as (informer & Hinformer).
    assert (Hinformer' :
              lookup (Kind targetRef)
                (informersMap (NewVpaTargetSelectorFetcher scaleNamespacer' mapper' factory))
              = Some informer) by exact Hinformer.
    unfold Target.Fetch. rewrite Htarget, Hinformer, Hinformer'.
    split; [reflexivity|].
    intros informer0 [= <-] Hmissing. unfold Target.getLabelSelector.
    rewrite Hmissing. reflexivity.
  - intros Hother.
    assert (Hnone : forall factory0,
              lookup (Kind targetRef)
                (informersMap (NewVpaTargetSelectorFetcher scaleNamespacer mapper factory0))
              = None).
    { intros factory0.
      destruct (lookup (Kind targetRef) _) as [informer|] eqn:Elookup; [|reflexivity].
      exfalso. apply Hother.
      apply (NewVpaTargetSelectorFetcher_informer scaleNamespacer mapper factory0).
      exists informer. exact Elookup. }
    unfold Target.Fetch. rewrite Htarget, !Hnone.
    destruct (ParseGroupVersion (APIVersion targetRef)) as [groupVersion|err];
      [|reflexivity].
    cbv zeta. unfold Target.getLabelSelectorFromResource.
    cbn [Target.mapper Target.NewVpaTargetSelectorFetcher].
    destruct (mapper _) as [mappings|err]; [|reflexivity].
    rewrite (selectorOfMappings_same_scales
               (NewVpaTargetSelectorFetcher scaleNamespacer mapper factory)
               (NewVpaTargetSelectorFetcher scaleNamespacer mapper factory'))
      by reflexivity.
    reflexivity.
Qed.

End Fetcher.

(** ** On the samples *)

Lemma Fetch_well_known_kind_witness :
  (In (Kind {| Kind := "Deployment"; Ref_Name := "app"; APIVersion := "apps/v1" |})
      [daemonSet; deployment; replicaSet; statefulSet; replicationController;
       job; cronJob] ->
   MoreSamples.fetch MoreSamples.fetcher Samples.validConfig
   = MoreSamples.fetch
       (NewVpaTargetSelectorFetcher (fun _ _ _ => Err "forbidden")
          (fun _ => Err "no matches for kind") MoreSamples.informers)
       Samples.validConfig /\
   forall informer,
     lookup "Deployment" (informersMap MoreSamples.fetcher) = Some informer ->
     informer "default/app" = Ok None ->
     MoreSamples.fetch MoreSamples.fetcher Samples.validConfig
     = Err "Deployment default/app does not exist") /\
  (~ In (Kind {| Kind := "Deployment"; Ref_Name := "app"; APIVersion := "apps/v1" |})
        [daemonSet; deployment; replicaSet; statefulSet; replicationController;
         job; cronJob] ->
   MoreSamples.fetch MoreSamples.fetcher Samples.validConfig
   = MoreSamples.fetch
       (NewVpaTargetSelectorFetcher
          (fun _ _ _ => Err "the server could not find the requested resource")
          (fun _ => Ok [])
          {| DaemonSets := MoreSamples.emptyStore; Deployments := MoreSamples.emptyStore;
             ReplicaSets := MoreSamples.emptyStore; StatefulSets := MoreSamples.emptyStore;
             ReplicationControllers := MoreSamples.emptyStore;
             Jobs := MoreSamples.emptyStore; CronJobs := MoreSamples.emptyStore |})
       Samples.validConfig).
Proof.
  apply (@Fetch_well_known_kind Samples.MilliQuantity MoreSamples.LabelSet
           MoreSamples.LabelSet MoreSamples.asSelector (fun labels => labels)
           MoreSamples.parseSelector MoreSamples.parseGroupVersion
           (fun _ _ _ => Err "the server could not find the requested resource")
           (fun _ _ _ => Err "forbidden")
           (fun _ => Ok []) (fun _ => Err "no matches for kind")
           MoreSamples.informers
           {| DaemonSets := MoreSamples.emptyStore; Deployments := MoreSamples.emptyStore;
              ReplicaSets := MoreSamples.emptyStore; StatefulSets := MoreSamples.emptyStore;
              ReplicationControllers := MoreSamples.emptyStore;
              Jobs := MoreSamples.emptyStore; CronJobs := MoreSamples.emptyStore |}
           Samples.validConfig
           {| Kind := "Deployment"; Ref_Name := "app"; APIVersion := "apps/v1" |}).
  reflexivity.
Defined.

(** The deployment is found in the store; over an empty cluster it is
    missing; and a target of a kind that the mapper has no mapping for gets
    the nil selector without an error. *)
Example Fetch_on_samples :
  MoreSamples.fetch MoreSamples.fetcher Samples.validConfig = Ok (Some [("app", "web")]) /\
  MoreSamples.fetch MoreSamples.otherFetcher Samples.validConfig
    = Err "Deployment default/app does not exist" /\
  MoreSamples.fetch MoreSamples.fetcher MoreSamples.customConfig = Ok None /\
  MoreSamples.fetch MoreSamples.otherFetcher MoreSamples.customConfig
    = Err "Unhandled targetRef example.com/v1 / Workload / app, last error no matches for kind".
Proof. repeat split. Qed.

End TargetFacts.
